(** * libuvc device core ([src/device.c]): descriptor parser, open path,
      device list and status demultiplexer.

    The C functions of [device.c] are embedded as Rocq functions of the same
    name.  Bytes are [Byte.byte], read as numbers in [0, 255]; fixed-width
    unsigned quantities are [Z] with the wrap-around written out; the USB
    host library is an explicit description of what its calls answer.

    Conventions of the embedding:
    - a read past the end of a blob, a dereference of a null or unset pointer,
      a call through a null function pointer and the use of a value that was
      never assigned are [Undef];
    - the two [while (buffer_left >= 3)] loops take a bound on their number of
      iterations and answer [OutOfFuel] when it is used up; every other loop
      of the file is bounded by a byte and is written by structural
      recursion;
    - an allocation whose result the code does not test is taken to succeed;
      those it tests ([calloc] in [uvc_get_device_info] and
      [libusb_alloc_transfer] in [uvc_open]) may fail;
    - [printf] and [fprintf] lines are left out. *)

From Stdlib Require Import ZArith List Bool Lia.
From Stdlib Require Import Strings.Byte.
From Stdlib Require Strings.String.
Import ListNotations.
Local Open Scope Z_scope.

(** ** Outcomes of running C code *)

(** [Ok a]: the code returns [a].  [Undef]: the C program has no defined
    behaviour (read past the end of a buffer, dereference of a null or unset
    pointer, use of a value that was never assigned).  [OutOfFuel]: the loop
    bound given to the model was too small to see the code return. *)
Inductive outcome (A : Type) : Type :=
| Ok (a : A)
| Undef
| OutOfFuel.
Arguments Ok {A} a.
Arguments Undef {A}.
Arguments OutOfFuel {A}.

Definition bind {A B : Type} (m : outcome A) (k : A -> outcome B) : outcome B :=
  match m with
  | Ok a => k a
  | Undef => Undef
  | OutOfFuel => OutOfFuel
  end.

Notation "x <- m ;; k" := (bind m (fun x => k))
  (at level 61, m at next level, right associativity).
Notation "' pat <- m ;; k" := (bind m (fun x => match x with pat => k end))
  (at level 61, pat pattern, m at next level, right associativity).

(** ** Bytes, pointers into a buffer, and the byte-order macros *)

Definition u8 (b : byte) : Z := Z.of_N (Byte.to_N b).

(** A concrete buffer written as numbers (each taken modulo 256). *)
Definition byte_of_Z (z : Z) : byte :=
  match Byte.of_N (Z.to_N (z mod 256)) with
  | Some b => b
  | None => x00
  end.
Definition bytes (l : list Z) : list byte := map byte_of_Z l.

(** [block] in the C code is a pointer into an [extra] blob: the blob and an
    offset.  [rd buf p i] is [p[i]]; past the end of the blob it is [Undef]. *)
Definition rd (buf : list byte) (p i : nat) : outcome Z :=
  match nth_error buf (p + i) with
  | Some b => Ok (u8 b)
  | None => Undef
  end.

(** Modelled from the spec: the macro [SW_TO_SHORT] of libuvc_internal.h,
    which is not under src/; the spec reads these fields as little-endian
    u16. *)
Definition SW_TO_SHORT (buf : list byte) (p i : nat) : outcome Z :=
  b0 <- rd buf p i ;;
  b1 <- rd buf p (i + 1) ;;
  Ok (Z.lor b0 (Z.shiftl b1 8)).

(** Modelled from the spec: the macro [DW_TO_INT] of libuvc_internal.h,
    which is not under src/; the spec reads these fields as little-endian
    u32. *)
Definition DW_TO_INT (buf : list byte) (p i : nat) : outcome Z :=
  b0 <- rd buf p i ;;
  b1 <- rd buf p (i + 1) ;;
  b2 <- rd buf p (i + 2) ;;
  b3 <- rd buf p (i + 3) ;;
  Ok (Z.lor (Z.lor (Z.lor b0 (Z.shiftl b1 8)) (Z.shiftl b2 16)) (Z.shiftl b3 24)).

(** [size_t] and [uint64_t] arithmetic wraps modulo 2^64. *)
Definition wrap64 (z : Z) : Z := z mod 2 ^ 64.

(** ** Error codes (spec section 7; the enum is in libuvc.h) *)

Inductive uvc_error_t : Type :=
| UVC_SUCCESS
| UVC_ERROR_IO
| UVC_ERROR_INVALID_DEVICE
| UVC_ERROR_NOT_SUPPORTED
| UVC_ERROR_NO_DEVICE
| UVC_ERROR_NO_MEM
| UVC_ERROR_ACCESS
| UVC_ERROR_BUSY
| UVC_ERROR_PIPE
| UVC_ERROR_TIMEOUT
| UVC_ERROR_INTERRUPTED
| UVC_ERROR_OVERFLOW
| UVC_ERROR_NOT_FOUND
| UVC_ERROR_OTHER.

Definition is_success (e : uvc_error_t) : bool :=
  match e with UVC_SUCCESS => true | _ => false end.

(** What a caller holds after a call of a function declared to return
    [uvc_error_t]: the value of [return e;], or nothing after a bare
    [return;]. *)
Inductive retval : Type :=
| Returned (e : uvc_error_t)
| NoValue.

(** ** The USB configuration descriptor, as libusb hands it over *)

Record libusb_endpoint_descriptor := {
  ep_bEndpointAddress : Z
}.

Record libusb_interface_descriptor := {
  bInterfaceNumber : Z;
  bInterfaceClass : Z;
  bInterfaceSubClass : Z;
  endpoint : list libusb_endpoint_descriptor;   (* bNumEndpoints = length *)
  extra : list byte                             (* extra_length = length *)
}.

Record libusb_interface := {
  altsetting : list libusb_interface_descriptor (* num_altsetting = length *)
}.

Record libusb_config_descriptor := {
  interface : list libusb_interface             (* bNumInterfaces = length *)
}.

Definition bNumEndpoints (d : libusb_interface_descriptor) : Z :=
  Z.of_nat (length (endpoint d)).
Definition extra_length (d : libusb_interface_descriptor) : Z :=
  Z.of_nat (length (extra d)).

(** ** The capability tree *)

Record uvc_input_terminal := {
  it_bTerminalID : Z;
  it_wTerminalType : Z;
  it_wObjectiveFocalLengthMin : Z;
  it_wObjectiveFocalLengthMax : Z;
  it_wOcularFocalLength : Z;
  it_bmControls : Z
}.

Record uvc_processing_unit := {
  pu_bUnitID : Z;
  pu_bSourceID : Z;
  pu_bmControls : Z
}.

Record uvc_extension_unit := {
  xu_bUnitID : Z;
  xu_guidExtensionCode : list Z;
  xu_bmControls : Z
}.

Record uvc_frame_desc := {
  fr_bDescriptorSubtype : Z;
  fr_bFrameIndex : Z;
  fr_bmCapabilities : Z;
  fr_wWidth : Z;
  fr_wHeight : Z;
  fr_dwMinBitRate : Z;
  fr_dwMaxBitRate : Z;
  fr_dwMaxVideoFrameBufferSize : Z;
  fr_dwDefaultFrameInterval : Z;
  fr_dwMinFrameInterval : Z;
  fr_dwMaxFrameInterval : Z;
  fr_dwFrameIntervalStep : Z;
  fr_intervals : option (list Z)       (* [None] is the null pointer *)
}.

Record uvc_format_desc := {
  fmt_bDescriptorSubtype : Z;
  fmt_bFormatIndex : Z;
  fmt_guidFormat : list Z;
  fmt_bBitsPerPixel : Z;
  fmt_bDefaultFrameIndex : Z;
  fmt_bAspectRatioX : Z;
  fmt_bAspectRatioY : Z;
  fmt_bmInterlaceFlags : Z;
  fmt_bCopyProtect : Z;
  frame_descs : list uvc_frame_desc
}.

Record uvc_streaming_interface := {
  si_bInterfaceNumber : Z;
  si_bEndpointAddress : Z;
  si_bTerminalLink : Z;
  format_descs : list uvc_format_desc
}.

Record uvc_control_interface := {
  bcdUVC : Z;
  bEndpointAddress : Z;
  input_term_descs : list uvc_input_terminal;
  processing_unit_descs : list uvc_processing_unit;
  extension_unit_descs : list uvc_extension_unit
}.

Record uvc_device_info := {
  config : libusb_config_descriptor;
  ctrl_if : uvc_control_interface;
  stream_ifs : list uvc_streaming_interface
}.

(** [calloc]: every field zero, every list empty, every pointer null. *)
Definition calloc_ctrl_if : uvc_control_interface :=
  {| bcdUVC := 0; bEndpointAddress := 0; input_term_descs := [];
     processing_unit_descs := []; extension_unit_descs := [] |}.

Definition calloc_stream_if : uvc_streaming_interface :=
  {| si_bInterfaceNumber := 0; si_bEndpointAddress := 0;
     si_bTerminalLink := 0; format_descs := [] |}.

Definition set_ctrl_if (info : uvc_device_info) (c : uvc_control_interface) :=
  {| config := config info; ctrl_if := c; stream_ifs := stream_ifs info |}.

Definition set_stream_ifs (info : uvc_device_info) (l : list uvc_streaming_interface) :=
  {| config := config info; ctrl_if := ctrl_if info; stream_ifs := l |}.

(** Descriptor subtype codes and [UVC_ITT_CAMERA] (libuvc.h; values as in
    spec section 4.3). *)
Definition UVC_VC_HEADER : Z := 1.
Definition UVC_VC_INPUT_TERMINAL : Z := 2.
Definition UVC_VC_OUTPUT_TERMINAL : Z := 3.
Definition UVC_VC_SELECTOR_UNIT : Z := 4.
Definition UVC_VC_PROCESSING_UNIT : Z := 5.
Definition UVC_VC_EXTENSION_UNIT : Z := 6.
Definition UVC_VS_INPUT_HEADER : Z := 1.
Definition UVC_VS_FORMAT_UNCOMPRESSED : Z := 4.
Definition UVC_VS_FRAME_UNCOMPRESSED : Z := 5.
Definition UVC_ITT_CAMERA : Z := 0x0201.

(** ** List helpers for the intrusive lists (utlist.h) *)

(** [DL_APPEND(head, x)] is [head ++ [x]]; [head->prev] is the last element
    of a non-empty list, and a dereference of null on an empty one. *)
Fixpoint map_last {A : Type} (f : A -> A) (l : list A) : list A :=
  match l with
  | [] => []
  | [x] => [f x]
  | x :: rest => x :: map_last f rest
  end.

Definition is_nil {A : Type} (l : list A) : bool :=
  match l with [] => true | _ => false end.

(** [memcpy(dst, &p[i], n)]: the [n] bytes from [p[i]] on. *)
Fixpoint rd_bytes (buf : list byte) (p i : nat) (n : nat) : outcome (list Z) :=
  match n with
  | O => Ok []
  | S n' =>
      b <- rd buf p i ;;
      rest <- rd_bytes buf p (S i) n' ;;
      Ok (b :: rest)
  end.

(** ** VideoStreaming parsers *)

Definition uvc_parse_vs_input_header (stream_if : uvc_streaming_interface)
    (buf : list byte) (block : nat)
  : outcome (uvc_error_t * uvc_streaming_interface) :=
  b6 <- rd buf block 6 ;;
  b8 <- rd buf block 8 ;;
  Ok (UVC_SUCCESS,
      {| si_bInterfaceNumber := si_bInterfaceNumber stream_if;
         si_bEndpointAddress := Z.land b6 0x8f;
         si_bTerminalLink := b8;
         format_descs := format_descs stream_if |}).

Definition uvc_parse_vs_format_uncompressed (stream_if : uvc_streaming_interface)
    (buf : list byte) (block : nat)
  : outcome (uvc_error_t * uvc_streaming_interface) :=
  b2 <- rd buf block 2 ;;
  b3 <- rd buf block 3 ;;
  guid <- rd_bytes buf block 5 16 ;;
  b21 <- rd buf block 21 ;;
  b22 <- rd buf block 22 ;;
  b23 <- rd buf block 23 ;;
  b24 <- rd buf block 24 ;;
  b25 <- rd buf block 25 ;;
  b26 <- rd buf block 26 ;;
  let format :=
    {| fmt_bDescriptorSubtype := b2; fmt_bFormatIndex := b3;
       fmt_guidFormat := guid; fmt_bBitsPerPixel := b21;
       fmt_bDefaultFrameIndex := b22; fmt_bAspectRatioX := b23;
       fmt_bAspectRatioY := b24; fmt_bmInterlaceFlags := b25;
       fmt_bCopyProtect := b26; frame_descs := [] |} in
  Ok (UVC_SUCCESS,
      {| si_bInterfaceNumber := si_bInterfaceNumber stream_if;
         si_bEndpointAddress := si_bEndpointAddress stream_if;
         si_bTerminalLink := si_bTerminalLink stream_if;
         format_descs := format_descs stream_if ++ [format] |}).

(** The loop [for (i = 0; i < block[25]; ++i) { intervals[i] = DW_TO_INT(p);
    p += 4; }]: [n] iterations left, [p] at offset [i] of the block. *)
Fixpoint frame_intervals_loop (buf : list byte) (block i : nat) (n : nat)
  : outcome (list Z) :=
  match n with
  | O => Ok []
  | S n' =>
      v <- DW_TO_INT buf block i ;;
      rest <- frame_intervals_loop buf block (i + 4) n' ;;
      Ok (v :: rest)
  end.

Definition add_frame (frame : uvc_frame_desc) (format : uvc_format_desc)
  : uvc_format_desc :=
  {| fmt_bDescriptorSubtype := fmt_bDescriptorSubtype format;
     fmt_bFormatIndex := fmt_bFormatIndex format;
     fmt_guidFormat := fmt_guidFormat format;
     fmt_bBitsPerPixel := fmt_bBitsPerPixel format;
     fmt_bDefaultFrameIndex := fmt_bDefaultFrameIndex format;
     fmt_bAspectRatioX := fmt_bAspectRatioX format;
     fmt_bAspectRatioY := fmt_bAspectRatioY format;
     fmt_bmInterlaceFlags := fmt_bmInterlaceFlags format;
     fmt_bCopyProtect := fmt_bCopyProtect format;
     frame_descs := frame_descs format ++ [frame] |}.

(** The frame built from the block, before it is linked to its format. *)
Definition parse_frame (buf : list byte) (block : nat) : outcome uvc_frame_desc :=
  b2 <- rd buf block 2 ;;
  b3 <- rd buf block 3 ;;
  b4 <- rd buf block 4 ;;
  b5 <- rd buf block 5 ;;
  b6 <- rd buf block 6 ;;
  b7 <- rd buf block 7 ;;
  b8 <- rd buf block 8 ;;
  minrate <- DW_TO_INT buf block 9 ;;
  maxrate <- DW_TO_INT buf block 13 ;;
  maxbuf <- DW_TO_INT buf block 17 ;;
  defint <- DW_TO_INT buf block 21 ;;
  b25 <- rd buf block 25 ;;
  if b25 =? 0 then
    fmin <- DW_TO_INT buf block 26 ;;
    fmax <- DW_TO_INT buf block 30 ;;
    fstep <- DW_TO_INT buf block 34 ;;
    Ok {| fr_bDescriptorSubtype := b2; fr_bFrameIndex := b3;
          fr_bmCapabilities := b4;
          fr_wWidth := b5 + Z.shiftl b6 8; fr_wHeight := b7 + Z.shiftl b8 8;
          fr_dwMinBitRate := minrate; fr_dwMaxBitRate := maxrate;
          fr_dwMaxVideoFrameBufferSize := maxbuf;
          fr_dwDefaultFrameInterval := defint;
          fr_dwMinFrameInterval := fmin; fr_dwMaxFrameInterval := fmax;
          fr_dwFrameIntervalStep := fstep;
          fr_intervals := None |}
  else
    vals <- frame_intervals_loop buf block 26 (Z.to_nat b25) ;;
    Ok {| fr_bDescriptorSubtype := b2; fr_bFrameIndex := b3;
          fr_bmCapabilities := b4;
          fr_wWidth := b5 + Z.shiftl b6 8; fr_wHeight := b7 + Z.shiftl b8 8;
          fr_dwMinBitRate := minrate; fr_dwMaxBitRate := maxrate;
          fr_dwMaxVideoFrameBufferSize := maxbuf;
          fr_dwDefaultFrameInterval := defint;
          fr_dwMinFrameInterval := 0; fr_dwMaxFrameInterval := 0;
          fr_dwFrameIntervalStep := 0;
          fr_intervals := Some (vals ++ [0]) |}.

(** [format = stream_if->format_descs->prev] dereferences the list head, so
    a frame block that comes before any format block is [Undef]. *)
Definition uvc_parse_vs_frame_uncompressed (stream_if : uvc_streaming_interface)
    (buf : list byte) (block : nat)
  : outcome (uvc_error_t * uvc_streaming_interface) :=
  if is_nil (format_descs stream_if) then Undef
  else
    frame <- parse_frame buf block ;;
    Ok (UVC_SUCCESS,
        {| si_bInterfaceNumber := si_bInterfaceNumber stream_if;
           si_bEndpointAddress := si_bEndpointAddress stream_if;
           si_bTerminalLink := si_bTerminalLink stream_if;
           format_descs := map_last (add_frame frame) (format_descs stream_if) |}).

Definition uvc_parse_vs (stream_if : uvc_streaming_interface)
    (buf : list byte) (block : nat)
  : outcome (uvc_error_t * uvc_streaming_interface) :=
  descriptor_subtype <- rd buf block 2 ;;
  if descriptor_subtype =? UVC_VS_INPUT_HEADER then
    uvc_parse_vs_input_header stream_if buf block
  else if descriptor_subtype =? UVC_VS_FORMAT_UNCOMPRESSED then
    uvc_parse_vs_format_uncompressed stream_if buf block
  else if descriptor_subtype =? UVC_VS_FRAME_UNCOMPRESSED then
    uvc_parse_vs_frame_uncompressed stream_if buf block
  else
    Ok (UVC_SUCCESS, stream_if).

(** The [while (buffer_left >= 3)] loop of [uvc_scan_streaming]; [buffer] is
    the offset the C pointer has reached in the blob, [buffer_left] is a
    [size_t]. *)
Fixpoint scan_streaming_loop (fuel : nat) (stream_if : uvc_streaming_interface)
    (buf : list byte) (buffer : nat) (buffer_left : Z)
  : outcome (uvc_error_t * uvc_streaming_interface) :=
  if 3 <=? buffer_left then
    match fuel with
    | O => OutOfFuel
    | S fuel' =>
        block_size <- rd buf buffer 0 ;;
        '(parse_ret, stream_if') <- uvc_parse_vs stream_if buf buffer ;;
        if is_success parse_ret then
          scan_streaming_loop fuel' stream_if' buf
            (buffer + Z.to_nat block_size) (wrap64 (buffer_left - block_size))
        else Ok (parse_ret, stream_if')
    end
  else Ok (UVC_SUCCESS, stream_if).

(** [uvc_scan_streaming]: the new interface record is linked into
    [info->stream_ifs] before the walk and filled through the pointer; the
    list read after the call is the one built here. *)
Definition uvc_scan_streaming (fuel : nat) (info : uvc_device_info)
    (interface_idx : Z) : outcome (uvc_error_t * uvc_device_info) :=
  match nth_error (interface (config info)) (Z.to_nat interface_idx) with
  | None => Undef
  | Some itf =>
      match altsetting itf with
      | [] => Undef
      | if_desc :: _ =>
          let stream_if :=
            {| si_bInterfaceNumber := bInterfaceNumber if_desc;
               si_bEndpointAddress := 0; si_bTerminalLink := 0;
               format_descs := [] |} in
          '(ret, stream_if') <-
            scan_streaming_loop fuel stream_if (extra if_desc) 0
              (extra_length if_desc) ;;
          Ok (ret, set_stream_ifs info (stream_ifs info ++ [stream_if']))
      end
  end.

(** ** VideoControl parsers *)

Definition supported_bcdUVC (v : Z) : bool :=
  (v =? 0x0100) || (v =? 0x010a) || (v =? 0x0110).

Definition set_bcdUVC (info : uvc_device_info) (v : Z) : uvc_device_info :=
  set_ctrl_if info
    {| bcdUVC := v;
       bEndpointAddress := bEndpointAddress (ctrl_if info);
       input_term_descs := input_term_descs (ctrl_if info);
       processing_unit_descs := processing_unit_descs (ctrl_if info);
       extension_unit_descs := extension_unit_descs (ctrl_if info) |}.

(** The loop [for (i = 12; i < block_size; ++i)] of [uvc_parse_vc_header],
    with [n] iterations left. *)
Fixpoint vc_header_loop (fuel : nat) (n : nat) (i : nat) (info : uvc_device_info)
    (buf : list byte) (block : nat) : outcome (uvc_error_t * uvc_device_info) :=
  match n with
  | O => Ok (UVC_SUCCESS, info)
  | S n' =>
      idx <- rd buf block i ;;
      '(scan_ret, info') <- uvc_scan_streaming fuel info idx ;;
      if is_success scan_ret then vc_header_loop fuel n' (S i) info' buf block
      else Ok (scan_ret, info')
  end.

Definition uvc_parse_vc_header (fuel : nat) (info : uvc_device_info)
    (buf : list byte) (block : nat) (block_size : Z)
  : outcome (uvc_error_t * uvc_device_info) :=
  v <- SW_TO_SHORT buf block 3 ;;
  let info1 := set_bcdUVC info v in
  if supported_bcdUVC v then
    vc_header_loop fuel (Z.to_nat (block_size - 12)) 12 info1 buf block
  else Ok (UVC_ERROR_NOT_SUPPORTED, info1).

(** The controls-bitmap loops.  Input terminal:
    [for (i = 14 + block[14]; i >= 15; --i) bm = block[i] + (bm << 8)];
    processing unit: the same from [7 + block[7]] down to 8; extension unit:
    [start_of_controls[i]] for [i] from [size_of_controls - 1] down to 0 with
    [start_of_controls = &block[23 + num_in_pins]].  In each, with [n]
    iterations left the byte read is [block[base + n]]; [bm] is a
    [uint64_t]. *)
Fixpoint bmControls_loop (buf : list byte) (block base : nat) (n : nat) (bm : Z)
  : outcome Z :=
  match n with
  | O => Ok bm
  | S n' =>
      b <- rd buf block (base + n) ;;
      bmControls_loop buf block base n' (wrap64 (b + Z.shiftl bm 8))
  end.

(** The first statement is a bare [return;] although the function is declared
    to return [uvc_error_t]. *)
Definition uvc_parse_vc_input_terminal (info : uvc_device_info)
    (buf : list byte) (block : nat) : outcome (retval * uvc_device_info) :=
  ty <- SW_TO_SHORT buf block 4 ;;
  if negb (ty =? UVC_ITT_CAMERA) then Ok (NoValue, info)
  else
    id <- rd buf block 3 ;;
    fmin <- SW_TO_SHORT buf block 8 ;;
    fmax <- SW_TO_SHORT buf block 10 ;;
    ocular <- SW_TO_SHORT buf block 12 ;;
    n <- rd buf block 14 ;;
    bm <- bmControls_loop buf block 14 (Z.to_nat n) 0 ;;
    let term :=
      {| it_bTerminalID := id; it_wTerminalType := ty;
         it_wObjectiveFocalLengthMin := fmin;
         it_wObjectiveFocalLengthMax := fmax;
         it_wOcularFocalLength := ocular; it_bmControls := bm |} in
    Ok (Returned UVC_SUCCESS,
        set_ctrl_if info
          {| bcdUVC := bcdUVC (ctrl_if info);
             bEndpointAddress := bEndpointAddress (ctrl_if info);
             input_term_descs := input_term_descs (ctrl_if info) ++ [term];
             processing_unit_descs := processing_unit_descs (ctrl_if info);
             extension_unit_descs := extension_unit_descs (ctrl_if info) |}).

Definition uvc_parse_vc_processing_unit (info : uvc_device_info)
    (buf : list byte) (block : nat) : outcome (retval * uvc_device_info) :=
  id <- rd buf block 3 ;;
  src <- rd buf block 4 ;;
  n <- rd buf block 7 ;;
  bm <- bmControls_loop buf block 7 (Z.to_nat n) 0 ;;
  let unit := {| pu_bUnitID := id; pu_bSourceID := src; pu_bmControls := bm |} in
  Ok (Returned UVC_SUCCESS,
      set_ctrl_if info
        {| bcdUVC := bcdUVC (ctrl_if info);
           bEndpointAddress := bEndpointAddress (ctrl_if info);
           input_term_descs := input_term_descs (ctrl_if info);
           processing_unit_descs := processing_unit_descs (ctrl_if info) ++ [unit];
           extension_unit_descs := extension_unit_descs (ctrl_if info) |}).

Definition uvc_parse_vc_extension_unit (info : uvc_device_info)
    (buf : list byte) (block : nat) : outcome (retval * uvc_device_info) :=
  id <- rd buf block 3 ;;
  guid <- rd_bytes buf block 4 16 ;;
  num_in_pins <- rd buf block 21 ;;
  size_of_controls <- rd buf block (22 + Z.to_nat num_in_pins) ;;
  bm <- bmControls_loop buf block (22 + Z.to_nat num_in_pins)
          (Z.to_nat size_of_controls) 0 ;;
  let unit :=
    {| xu_bUnitID := id; xu_guidExtensionCode := guid; xu_bmControls := bm |} in
  Ok (Returned UVC_SUCCESS,
      set_ctrl_if info
        {| bcdUVC := bcdUVC (ctrl_if info);
           bEndpointAddress := bEndpointAddress (ctrl_if info);
           input_term_descs := input_term_descs (ctrl_if info);
           processing_unit_descs := processing_unit_descs (ctrl_if info);
           extension_unit_descs := extension_unit_descs (ctrl_if info) ++ [unit] |}).

Definition lift_ret (m : outcome (uvc_error_t * uvc_device_info))
  : outcome (retval * uvc_device_info) :=
  '(e, info) <- m ;; Ok (Returned e, info).

Definition uvc_parse_vc (fuel : nat) (info : uvc_device_info)
    (buf : list byte) (block : nat) (block_size : Z)
  : outcome (retval * uvc_device_info) :=
  b1 <- rd buf block 1 ;;
  if negb (b1 =? 36) then Ok (Returned UVC_SUCCESS, info)
  else
    descriptor_subtype <- rd buf block 2 ;;
    if descriptor_subtype =? UVC_VC_HEADER then
      lift_ret (uvc_parse_vc_header fuel info buf block block_size)
    else if descriptor_subtype =? UVC_VC_INPUT_TERMINAL then
      uvc_parse_vc_input_terminal info buf block
    else if descriptor_subtype =? UVC_VC_OUTPUT_TERMINAL then
      Ok (Returned UVC_SUCCESS, info)
    else if descriptor_subtype =? UVC_VC_SELECTOR_UNIT then
      Ok (Returned UVC_SUCCESS, info)
    else if descriptor_subtype =? UVC_VC_PROCESSING_UNIT then
      uvc_parse_vc_processing_unit info buf block
    else if descriptor_subtype =? UVC_VC_EXTENSION_UNIT then
      uvc_parse_vc_extension_unit info buf block
    else Ok (Returned UVC_ERROR_INVALID_DEVICE, info).

(** The [while (buffer_left >= 3)] loop of [uvc_scan_control].  The test
    [parse_ret != UVC_SUCCESS] on a value that was never returned is
    [Undef]. *)
Fixpoint scan_control_loop (fuel : nat) (info : uvc_device_info)
    (buf : list byte) (buffer : nat) (buffer_left : Z)
  : outcome (uvc_error_t * uvc_device_info) :=
  if 3 <=? buffer_left then
    match fuel with
    | O => OutOfFuel
    | S fuel' =>
        block_size <- rd buf buffer 0 ;;
        '(parse_ret, info') <- uvc_parse_vc fuel info buf buffer block_size ;;
        match parse_ret with
        | NoValue => Undef
        | Returned e =>
            if is_success e then
              scan_control_loop fuel' info' buf
                (buffer + Z.to_nat block_size) (wrap64 (buffer_left - block_size))
            else Ok (e, info')
        end
    end
  else Ok (UVC_SUCCESS, info).

(** The search loop of [uvc_scan_control]: the first interface whose
    altsetting 0 is Video/Control. *)
Fixpoint find_control_if (l : list libusb_interface)
  : outcome (option libusb_interface_descriptor) :=
  match l with
  | [] => Ok None
  | itf :: rest =>
      match altsetting itf with
      | [] => Undef
      | if_desc :: _ =>
          if (bInterfaceClass if_desc =? 14) && (bInterfaceSubClass if_desc =? 1)
          then Ok (Some if_desc)
          else find_control_if rest
      end
  end.

Definition set_bEndpointAddress (info : uvc_device_info) (a : Z) : uvc_device_info :=
  set_ctrl_if info
    {| bcdUVC := bcdUVC (ctrl_if info);
       bEndpointAddress := a;
       input_term_descs := input_term_descs (ctrl_if info);
       processing_unit_descs := processing_unit_descs (ctrl_if info);
       extension_unit_descs := extension_unit_descs (ctrl_if info) |}.

Definition uvc_scan_control (fuel : nat) (info : uvc_device_info)
  : outcome (uvc_error_t * uvc_device_info) :=
  found <- find_control_if (interface (config info)) ;;
  match found with
  | None => Ok (UVC_ERROR_INVALID_DEVICE, info)
  | Some if_desc =>
      let info1 :=
        match endpoint if_desc with
        | [] => info
        | ep0 :: _ => set_bEndpointAddress info (ep_bEndpointAddress ep0)
        end in
      scan_control_loop fuel info1 (extra if_desc) 0 (extra_length if_desc)
  end.

(** ** The USB adapter *)

(** What libusb answers for one bus device: the model's stand-in for
    [struct libusb_device] and for the calls [device.c] makes on it.  Answers
    of type [uvc_error_t] are the [int] results stored into a [uvc_error_t]
    by the code ([UVC_SUCCESS] is 0). *)
Record libusb_device := {
  usb_open_result : uvc_error_t;                    (* libusb_open *)
  usb_config0 : option libusb_config_descriptor;    (* libusb_get_config_descriptor(dev, 0, _); [None]: non-zero result *)
  usb_idVendor : Z;                                 (* libusb_get_device_descriptor *)
  usb_idProduct : Z;
  usb_kernel_driver_active : Z -> bool;             (* result is non-zero *)
  usb_detach_result : Z -> uvc_error_t;             (* libusb_detach_kernel_driver *)
  usb_claim_result : Z -> uvc_error_t;              (* libusb_claim_interface *)
  usb_alloc_transfer_ok : bool;                     (* libusb_alloc_transfer gives non-null *)
  usb_submit_result : uvc_error_t;                  (* libusb_submit_transfer *)
  calloc_info_ok : bool                             (* calloc in uvc_get_device_info gives non-null *)
}.

Record uvc_device := {
  usb_dev : libusb_device;
  ref : Z
}.

(** What a non-null [uvc_status_callback_t] points to: the user's function,
    by its address. *)
Definition uvc_status_callback_t : Type := positive.

Record uvc_device_handle := {
  info : option uvc_device_info;       (* [None] is the null pointer *)
  status_xfer : bool;                  (* a transfer object is attached *)
  is_isight : bool;
  status_cb : option uvc_status_callback_t;   (* [None] is the null pointer *)
  status_user_ptr : Z
}.

(** The calls that change something outside the handle, in program order. *)
Inductive call : Type :=
| libusb_open
| libusb_close
| libusb_ref_device
| libusb_unref_device
| libusb_detach_kernel_driver (i : Z)
| libusb_claim_interface (i : Z)
| libusb_release_interface (i : Z)
| libusb_alloc_transfer
| libusb_submit_transfer
| libusb_free_transfer
| free_dev
| free_info
| free_devh.

Inductive block_kind : Type := blk_devh | blk_info | blk_xfer.

Definition block_kind_eqb (a b : block_kind) : bool :=
  match a, b with
  | blk_devh, blk_devh | blk_info, blk_info | blk_xfer, blk_xfer => true
  | _, _ => false
  end.

Fixpoint release_block (k : block_kind) (h : list block_kind) : list block_kind :=
  match h with
  | [] => []
  | x :: rest => if block_kind_eqb k x then rest else x :: release_block k rest
  end.

(** The state [uvc_open] works on: the context's list, the device, and the
    resources held from the USB library and the allocator. *)
Record world := {
  open_devices : list uvc_device_handle;   (* ctx->open_devices *)
  dev : uvc_device;
  dev_freed : bool;                         (* [free(dev)] was reached *)
  usb_refs : Z;                             (* libusb's count on dev->usb_dev *)
  usb_handles : Z;                          (* USB handles open on the device *)
  claimed : list Z;                         (* interfaces claimed *)
  heap : list block_kind;                   (* blocks allocated and not freed *)
  log : list call
}.

Definition did (c : call) (w : world) : world :=
  {| open_devices := open_devices w; dev := dev w; dev_freed := dev_freed w;
     usb_refs := usb_refs w; usb_handles := usb_handles w;
     claimed := claimed w; heap := heap w; log := log w ++ [c] |}.

Definition set_open_devices (l : list uvc_device_handle) (w : world) : world :=
  {| open_devices := l; dev := dev w; dev_freed := dev_freed w;
     usb_refs := usb_refs w; usb_handles := usb_handles w;
     claimed := claimed w; heap := heap w; log := log w |}.

Definition set_dev (d : uvc_device) (freed : bool) (refs : Z) (w : world) : world :=
  {| open_devices := open_devices w; dev := d; dev_freed := freed;
     usb_refs := refs; usb_handles := usb_handles w;
     claimed := claimed w; heap := heap w; log := log w |}.

Definition set_usb_handles (n : Z) (w : world) : world :=
  {| open_devices := open_devices w; dev := dev w; dev_freed := dev_freed w;
     usb_refs := usb_refs w; usb_handles := n;
     claimed := claimed w; heap := heap w; log := log w |}.

Definition set_claimed (l : list Z) (w : world) : world :=
  {| open_devices := open_devices w; dev := dev w; dev_freed := dev_freed w;
     usb_refs := usb_refs w; usb_handles := usb_handles w;
     claimed := l; heap := heap w; log := log w |}.

Definition set_heap (h : list block_kind) (w : world) : world :=
  {| open_devices := open_devices w; dev := dev w; dev_freed := dev_freed w;
     usb_refs := usb_refs w; usb_handles := usb_handles w;
     claimed := claimed w; heap := h; log := log w |}.

Definition alloc (k : block_kind) (w : world) : world := set_heap (k :: heap w) w.
Definition free (k : block_kind) (w : world) : world :=
  set_heap (release_block k (heap w)) w.

(** ** Reference counting *)

Definition uvc_ref_device (w : world) : world :=
  did libusb_ref_device
    (set_dev {| usb_dev := usb_dev (dev w); ref := ref (dev w) + 1 |}
       (dev_freed w) (usb_refs w + 1) w).

Definition uvc_unref_device (w : world) : world :=
  let w1 := did libusb_unref_device
      (set_dev {| usb_dev := usb_dev (dev w); ref := ref (dev w) - 1 |}
         (dev_freed w) (usb_refs w - 1) w) in
  if ref (dev w1) =? 0 then did free_dev (set_dev (dev w1) true (usb_refs w1) w1)
  else w1.

(** ** Claiming and releasing the interfaces *)

Definition claim (i : Z) (w : world) : uvc_error_t * world :=
  let r := usb_claim_result (usb_dev (dev w)) i in
  (r, did (libusb_claim_interface i)
        (if is_success r then set_claimed (i :: claimed w) w else w)).

Definition uvc_claim_ifs (w : world) : uvc_error_t * world :=
  let usb := usb_dev (dev w) in
  (* VideoControl interface *)
  let '(ret, w) :=
    if usb_kernel_driver_active usb 0
    then (usb_detach_result usb 0, did (libusb_detach_kernel_driver 0) w)
    else (UVC_SUCCESS, w) in
  if negb (is_success ret) then (ret, w)
  else
    let '(ret, w) := claim 0 w in
    (* VideoStreaming interface *)
    let '(ret, w) :=
      if usb_kernel_driver_active usb 1
      then (usb_detach_result usb 1, did (libusb_detach_kernel_driver 1) w)
      else (ret, w) in
    if negb (is_success ret) then (ret, w)
    else claim 1 w.

Definition uvc_release_ifs (w : world) : world :=
  let w := did (libusb_release_interface 0)
             (set_claimed (filter (fun i => negb (i =? 0)) (claimed w)) w) in
  did (libusb_release_interface 1)
    (set_claimed (filter (fun i => negb (i =? 1)) (claimed w)) w).

(** ** Building and freeing the device info *)

Definition uvc_free_device_info (w : world) : world :=
  did free_info (free blk_info w).

Definition uvc_get_device_info (fuel : nat) (w : world)
  : outcome (uvc_error_t * option uvc_device_info * world) :=
  if negb (calloc_info_ok (usb_dev (dev w))) then Ok (UVC_ERROR_NO_MEM, None, w)
  else
    let w := alloc blk_info w in
    match usb_config0 (usb_dev (dev w)) with
    | None => Ok (UVC_ERROR_IO, None, did free_info (free blk_info w))
    | Some cfg =>
        let internal_info :=
          {| config := cfg; ctrl_if := calloc_ctrl_if; stream_ifs := [] |} in
        '(ret, internal_info') <- uvc_scan_control fuel internal_info ;;
        if negb (is_success ret) then Ok (ret, None, uvc_free_device_info w)
        else Ok (ret, Some internal_info', w)
    end.

Definition uvc_free_devh (devh : uvc_device_handle) (w : world) : world :=
  let w := match info devh with
           | Some _ => uvc_free_device_info w
           | None => w
           end in
  let w := if status_xfer devh then did libusb_free_transfer (free blk_xfer w)
           else w in
  did free_devh (free blk_devh w).

(** ** The open path *)

(** The code under the label [fail:]. *)
Definition uvc_open_fail (ret : uvc_error_t) (internal_devh : uvc_device_handle)
    (w : world) : uvc_error_t * option uvc_device_handle * world :=
  let w := uvc_release_ifs w in
  let w := did libusb_close (set_usb_handles (usb_handles w - 1) w) in
  let w := uvc_unref_device w in
  let w := uvc_free_devh internal_devh w in
  (ret, None, w).

Definition uvc_open (fuel : nat) (w : world)
  : outcome (uvc_error_t * option uvc_device_handle * world) :=
  let usb := usb_dev (dev w) in
  let ret := usb_open_result usb in
  let w := did libusb_open w in
  if negb (is_success ret) then Ok (ret, None, w)
  else
    let w := set_usb_handles (usb_handles w + 1) w in
    let w := uvc_ref_device w in
    let w := alloc blk_devh w in
    '(ret, got_info, w) <- uvc_get_device_info fuel w ;;
    let internal_devh :=
      {| info := got_info; status_xfer := false; is_isight := false;
         status_cb := None; status_user_ptr := 0 |} in
    if negb (is_success ret) then Ok (uvc_open_fail ret internal_devh w)
    else
      let '(ret, w) := uvc_claim_ifs w in
      if negb (is_success ret) then Ok (uvc_open_fail ret internal_devh w)
      else
        let isight := (usb_idVendor usb =? 0x05ac) && (usb_idProduct usb =? 0x8501) in
        let internal_devh :=
          {| info := got_info; status_xfer := false; is_isight := isight;
             status_cb := None; status_user_ptr := 0 |} in
        match got_info with
        | None => Undef         (* internal_devh->info->ctrl_if through null *)
        | Some the_info =>
            if negb (bEndpointAddress (ctrl_if the_info) =? 0) then
              let w := did libusb_alloc_transfer w in
              if negb (usb_alloc_transfer_ok usb)
              then Ok (uvc_open_fail UVC_ERROR_NO_MEM internal_devh w)
              else
                let w := alloc blk_xfer w in
                let internal_devh :=
                  {| info := got_info; status_xfer := true;
                     is_isight := isight; status_cb := None;
                     status_user_ptr := 0 |} in
                let ret := usb_submit_result usb in
                let w := did libusb_submit_transfer w in
                if negb (is_success ret)
                then Ok (uvc_open_fail ret internal_devh w)
                else Ok (ret, Some internal_devh,
                         set_open_devices (open_devices w ++ [internal_devh]) w)
            else Ok (ret, Some internal_devh,
                     set_open_devices (open_devices w ++ [internal_devh]) w)
        end.

(** ** The device list *)

(** What [libusb_get_device_list] answers: a negative error code, leaving the
    list pointer unset, or the devices on the bus. *)
Inductive enumeration : Type :=
| enumeration_failed (code : Z)
| enumerated (devs : list libusb_device).

Definition enumeration_result (e : enumeration) : Z :=
  match e with
  | enumeration_failed code => code
  | enumerated devs => Z.of_nat (length devs)
  end.

Definition is_video_streaming (if_desc : libusb_interface_descriptor) : bool :=
  (bInterfaceClass if_desc =? 14) && (bInterfaceSubClass if_desc =? 2).

(** The two nested [for] loops guarded by [!got_interface]: is some
    altsetting of some interface Video/Streaming. *)
Definition got_interface (cfg : libusb_config_descriptor) : bool :=
  existsb (fun itf => existsb is_video_streaming (altsetting itf)) (interface cfg).

(** The [while] loop over [usb_dev_list].  [list_internal] is the array, its
    last cell the null terminator ([None]); [num_uvc_devices] counts the
    devices in it. *)
Fixpoint device_list_loop (usb_dev_list : list libusb_device)
    (num_uvc_devices : nat) (list_internal : list (option uvc_device))
  : list (option uvc_device) :=
  match usb_dev_list with
  | [] => list_internal
  | usb :: rest =>
      match usb_config0 usb with
      | None => device_list_loop rest num_uvc_devices list_internal
      | Some cfg =>
          if got_interface cfg then
            let uvc_dev := {| usb_dev := usb; ref := 0 + 1 |} in
            let num_uvc_devices := S num_uvc_devices in
            device_list_loop rest num_uvc_devices
              (firstn (num_uvc_devices - 1) list_internal ++ [Some uvc_dev; None])
          else device_list_loop rest num_uvc_devices list_internal
      end
  end.

(** [num_usb_devices] is declared [size_t]: the result of the enumeration is
    stored modulo 2^64 before it is compared with 0. *)
Definition uvc_get_device_list (e : enumeration)
  : outcome (uvc_error_t * option (list (option uvc_device))) :=
  let num_usb_devices := wrap64 (enumeration_result e) in
  if num_usb_devices <? 0 then Ok (UVC_ERROR_IO, None)
  else
    match e with
    | enumeration_failed _ => Undef     (* usb_dev_list[0] through an unset pointer *)
    | enumerated usb_dev_list =>
        Ok (UVC_SUCCESS, Some (device_list_loop usb_dev_list 0 [None]))
    end.

(** ** The status demultiplexer *)

Inductive libusb_transfer_status : Type :=
| LIBUSB_TRANSFER_COMPLETED
| LIBUSB_TRANSFER_ERROR
| LIBUSB_TRANSFER_TIMED_OUT
| LIBUSB_TRANSFER_CANCELLED
| LIBUSB_TRANSFER_STALL
| LIBUSB_TRANSFER_NO_DEVICE
| LIBUSB_TRANSFER_OVERFLOW.

Record libusb_transfer := {
  status : libusb_transfer_status;
  buffer : list byte;
  actual_length : Z
}.

Inductive uvc_status_class : Type :=
| UVC_STATUS_CLASS_CONTROL
| UVC_STATUS_CLASS_CONTROL_CAMERA
| UVC_STATUS_CLASS_CONTROL_PROCESSING.

(** The arguments of one call of the status callback.  [cb_status_class] is
    [None] when the local [status_class] was never assigned; [cb_data] is
    [None] for a null pointer and otherwise the [cb_data_len] bytes it points
    to; an attribute is the integer held by the enum. *)
Record status_cb_args := {
  cb_status_class : option uvc_status_class;
  cb_event : Z;
  cb_selector : Z;
  cb_attribute : Z;
  cb_data : option (list Z);
  cb_data_len : Z;
  cb_user_ptr : Z
}.

(** What the completion handler does that is seen from outside, in program
    order: calls of the user's callback and resubmissions of the transfer. *)
Inductive event : Type :=
| status_cb_call (cb : uvc_status_callback_t) (args : status_cb_args)
| resubmit.                            (* libusb_submit_transfer(transfer) *)

(** The call [devh->status_cb(...)].  The code does not test the pointer: a
    call through the null pointer [calloc] leaves in a new handle is
    [Undef]. *)
Definition call_status_cb (devh : uvc_device_handle) (args : status_cb_args)
  : outcome (list event) :=
  match status_cb devh with
  | None => Undef
  | Some cb => Ok [status_cb_call cb args]
  end.

(** [uvc_process_status_xfer]: the calls it makes, [Ok []] when it returns
    without calling [devh->status_cb].  The constant
    [UVC_STATUS_ATTRIBUTE_UNKNOWN] is declared in libuvc.h, which is not under
    src/: it is a parameter.  The [printf] lines are left out. *)
Definition uvc_process_status_xfer (UVC_STATUS_ATTRIBUTE_UNKNOWN : Z)
    (devh : uvc_device_handle) (transfer : libusb_transfer)
  : outcome (list event) :=
  if actual_length transfer <? 4 then Ok []
  else
    originator <- rd (buffer transfer) 0 1 ;;
    b0 <- rd (buffer transfer) 0 0 ;;
    if Z.land b0 0x0f =? 1 then
      if actual_length transfer <? 5 then Ok []
      else
        event <- rd (buffer transfer) 0 2 ;;
        selector <- rd (buffer transfer) 0 3 ;;
        if originator =? 0 then Ok []
        else if negb (event =? 0) then Ok []
        else
          match info devh with
          | None => Undef
          | Some the_info =>
              let in_terms :=
                existsb (fun t => it_bTerminalID t =? originator)
                  (input_term_descs (ctrl_if the_info)) in
              let in_units :=
                existsb (fun u => pu_bUnitID u =? originator)
                  (processing_unit_descs (ctrl_if the_info)) in
              let status_class :=
                if in_terms then Some UVC_STATUS_CLASS_CONTROL_CAMERA
                else if in_units then Some UVC_STATUS_CLASS_CONTROL_PROCESSING
                else None in
              let found_entity := in_terms || in_units in
              if negb found_entity then Ok []
              else
                attribute <- rd (buffer transfer) 0 4 ;;
                let data_len := actual_length transfer - 5 in
                call_status_cb devh
                  {| cb_status_class := status_class;
                     cb_event := event; cb_selector := selector;
                     cb_attribute := attribute;
                     cb_data := Some (map u8 (firstn (Z.to_nat data_len)
                                                (skipn 5 (buffer transfer))));
                     cb_data_len := data_len;
                     cb_user_ptr := status_user_ptr devh |}
          end
    else if Z.land b0 0x0f =? 2 then Ok []
    else
      call_status_cb devh
        {| cb_status_class := None;
           cb_event := 0; cb_selector := 0;
           cb_attribute := UVC_STATUS_ATTRIBUTE_UNKNOWN;
           cb_data := None; cb_data_len := 0;
           cb_user_ptr := status_user_ptr devh |}.

(** [_uvc_status_callback]: what the completion handler does, in order. *)
Definition _uvc_status_callback (UVC_STATUS_ATTRIBUTE_UNKNOWN : Z)
    (devh : uvc_device_handle) (transfer : libusb_transfer)
  : outcome (list event) :=
  match status transfer with
  | LIBUSB_TRANSFER_ERROR
  | LIBUSB_TRANSFER_CANCELLED
  | LIBUSB_TRANSFER_NO_DEVICE => Ok []
  | LIBUSB_TRANSFER_COMPLETED =>
      calls <- uvc_process_status_xfer UVC_STATUS_ATTRIBUTE_UNKNOWN devh transfer ;;
      Ok (calls ++ [resubmit])
  | _ => Ok [resubmit]
  end.

(** [uvc_set_status_callback]: the two stores into the handle. *)
Definition uvc_set_status_callback (devh : uvc_device_handle)
    (cb : option uvc_status_callback_t) (user_ptr : Z) : uvc_device_handle :=
  {| info := info devh; status_xfer := status_xfer devh;
     is_isight := is_isight devh;
     status_cb := cb; status_user_ptr := user_ptr |}.

(** A transfer as libusb completes it: [actual_length] does not exceed the
    buffer. *)
Definition transfer_wf (transfer : libusb_transfer) : Prop :=
  actual_length transfer <= Z.of_nat (length (buffer transfer)).

(** ** Reference readings of a buffer, used to state the properties *)

Definition byte_at (buf : list byte) (i : nat) : Z := u8 (nth i buf x00).

(** The [n] bytes at offsets [i], [i + 1], ... *)
Definition bytes_at (buf : list byte) (i n : nat) : list Z :=
  map (byte_at buf) (seq i n).

(** Little-endian u16 and u32, by weights. *)
Definition le16_at (buf : list byte) (i : nat) : Z :=
  byte_at buf i + 2 ^ 8 * byte_at buf (i + 1).

Definition le32_at (buf : list byte) (i : nat) : Z :=
  byte_at buf i + 2 ^ 8 * byte_at buf (i + 1)
  + 2 ^ 16 * byte_at buf (i + 2) + 2 ^ 24 * byte_at buf (i + 3).

(** The controls bitmap as the spec words it: starting from 0, take the bytes
    from the last one down to the first, each step
    [bmControls = (bmControls << 8) | byte]. *)
Definition controls_fold (cs : list Z) : Z :=
  fold_right (fun b bm => Z.lor (Z.shiftl bm 8) b) 0 cs.

(** The low nibble of byte 0 of a status packet. *)
Definition status_class_tag (transfer : libusb_transfer) : Z :=
  Z.land (byte_at (buffer transfer) 0) 0x0f.

(** ** Concrete descriptors, devices and packets *)

Definition le16_bytes (v : Z) : list Z := [v mod 256; (v / 256) mod 256].
Definition le32_bytes (v : Z) : list Z :=
  [v mod 256; (v / 2 ^ 8) mod 256; (v / 2 ^ 16) mod 256; (v / 2 ^ 24) mod 256].

Definition control_if_desc (blob : list byte) : libusb_interface_descriptor :=
  {| bInterfaceNumber := 0; bInterfaceClass := 14; bInterfaceSubClass := 1;
     endpoint := []; extra := blob |}.

Definition streaming_if_desc (blob : list byte) : libusb_interface_descriptor :=
  {| bInterfaceNumber := 1; bInterfaceClass := 14; bInterfaceSubClass := 2;
     endpoint := []; extra := blob |}.

Definition config_of (descs : list libusb_interface_descriptor)
  : libusb_config_descriptor :=
  {| interface := map (fun d => {| altsetting := [d] |}) descs |}.

Definition empty_info (cfg : libusb_config_descriptor) : uvc_device_info :=
  {| config := cfg; ctrl_if := calloc_ctrl_if; stream_ifs := [] |}.

(** A blob of three zero bytes: one block of declared size 0. *)
Definition zero_block : list byte := bytes [0; 0; 0].
Definition zero_block_info : uvc_device_info :=
  empty_info (config_of [control_if_desc zero_block]).

(** A blob whose only block declares 5 bytes but holds 3. *)
Definition short_block : list byte := bytes [5; 0; 0].

(** VC_HEADER blocks with bcdUVC 0x0110 and 0x0200 and an empty list of
    streaming interfaces. *)
Definition header_block (version : Z) : list Z :=
  [12; 36; 1] ++ le16_bytes version ++ [0; 0; 0; 0; 0; 0; 0].

(** VC_INPUT_TERMINAL blocks: a camera (id 1, type 0x0201, two controls
    bytes 0x01 0x02) and a terminal of another type (id 2, type 0x0202). *)
Definition camera_terminal_block : list Z :=
  [17; 36; 2; 1] ++ le16_bytes 0x0201 ++ [0; 0; 0; 0; 0; 0; 0; 0; 2; 0x01; 0x02].
Definition other_terminal_block : list Z :=
  [8; 36; 2; 2] ++ le16_bytes 0x0202 ++ [0; 0].

(** VC_PROCESSING_UNIT (id 3, source 1, controls 0x01 0x02) and
    VC_EXTENSION_UNIT (id 4, one input pin, controls 0x01 0x02). *)
Definition processing_unit_block : list Z :=
  [11; 36; 5; 3; 1; 0; 0; 2; 0x01; 0x02; 0].
Definition extension_unit_block : list Z :=
  [27; 36; 6; 4] ++ repeat 0xab 16 ++ [2; 1; 3; 2; 0x01; 0x02; 0].

(** VS_FRAME_UNCOMPRESSED blocks, 640x480. *)
Definition frame_head (interval_type : Z) : list Z :=
  [0; 36; 5; 1; 0] ++ le16_bytes 640 ++ le16_bytes 480
  ++ le32_bytes 1000 ++ le32_bytes 2000 ++ le32_bytes 614400
  ++ le32_bytes 333333 ++ [interval_type].
Definition continuous_frame_block : list Z :=
  frame_head 0 ++ le32_bytes 333333 ++ le32_bytes 2000000 ++ le32_bytes 0.
Definition discrete_frame_block : list Z :=
  frame_head 3 ++ le32_bytes 333333 ++ le32_bytes 400000 ++ le32_bytes 500000.

Definition some_format : uvc_format_desc :=
  {| fmt_bDescriptorSubtype := 4; fmt_bFormatIndex := 1; fmt_guidFormat := [];
     fmt_bBitsPerPixel := 16; fmt_bDefaultFrameIndex := 1;
     fmt_bAspectRatioX := 0; fmt_bAspectRatioY := 0;
     fmt_bmInterlaceFlags := 0; fmt_bCopyProtect := 0; frame_descs := [] |}.
Definition some_stream_if : uvc_streaming_interface :=
  {| si_bInterfaceNumber := 1; si_bEndpointAddress := 0x81;
     si_bTerminalLink := 2; format_descs := [some_format] |}.

(** A bus device for which every USB call succeeds, with the given
    VideoControl blob. *)
Definition camera (blob : list Z) : libusb_device :=
  {| usb_open_result := UVC_SUCCESS;
     usb_config0 :=
       Some (config_of [control_if_desc (bytes blob); streaming_if_desc []]);
     usb_idVendor := 0x046d; usb_idProduct := 0x0825;
     usb_kernel_driver_active := fun _ => false;
     usb_detach_result := fun _ => UVC_SUCCESS;
     usb_claim_result := fun _ => UVC_SUCCESS;
     usb_alloc_transfer_ok := true;
     usb_submit_result := UVC_SUCCESS;
     calloc_info_ok := true |}.

(** A context with nothing open and one device held once by its owner. *)
Definition fresh_world (usb : libusb_device) : world :=
  {| open_devices := []; dev := {| usb_dev := usb; ref := 1 |};
     dev_freed := false; usb_refs := 1; usb_handles := 0; claimed := [];
     heap := []; log := [] |}.

(** A handle whose info holds input terminals 1 and 2 and processing unit 3,
    with a callback registered. *)
Definition terminal (id : Z) : uvc_input_terminal :=
  {| it_bTerminalID := id; it_wTerminalType := UVC_ITT_CAMERA;
     it_wObjectiveFocalLengthMin := 0; it_wObjectiveFocalLengthMax := 0;
     it_wOcularFocalLength := 0; it_bmControls := 0 |}.
Definition two_terminal_handle : uvc_device_handle :=
  {| info := Some {| config := config_of [];
                     ctrl_if := {| bcdUVC := 0x0110; bEndpointAddress := 0x83;
                                   input_term_descs := [terminal 1; terminal 2];
                                   processing_unit_descs :=
                                     [{| pu_bUnitID := 3; pu_bSourceID := 1;
                                         pu_bmControls := 0 |}];
                                   extension_unit_descs := [] |};
                     stream_ifs := [] |};
     status_xfer := true; is_isight := false;
     status_cb := Some 1%positive; status_user_ptr := 7 |}.

Definition packet (st : libusb_transfer_status) (l : list Z) : libusb_transfer :=
  {| status := st; buffer := bytes l; actual_length := Z.of_nat (length l) |}.

(** ** The three kinds of VideoControl entity that carry a controls bitmap *)

Inductive vc_entity : Type := input_terminal | processing_unit | extension_unit.

Definition parse_entity (k : vc_entity) :=
  match k with
  | input_terminal => uvc_parse_vc_input_terminal
  | processing_unit => uvc_parse_vc_processing_unit
  | extension_unit => uvc_parse_vc_extension_unit
  end.

(** Offset of the length byte of the bitmap: 14, 7, and [22 + p] with
    [p = block[21]]; the bitmap bytes follow it. *)
Definition bControlSize_offset (k : vc_entity) (buf : list byte) (block : nat) : nat :=
  match k with
  | input_terminal => 14
  | processing_unit => 7
  | extension_unit => 22 + Z.to_nat (byte_at buf (block + 21))
  end.

(** The bitmaps recorded in the list of that kind, in list order. *)
Definition recorded_bmControls (k : vc_entity) (info : uvc_device_info) : list Z :=
  match k with
  | input_terminal => map it_bmControls (input_term_descs (ctrl_if info))
  | processing_unit => map pu_bmControls (processing_unit_descs (ctrl_if info))
  | extension_unit => map xu_bmControls (extension_unit_descs (ctrl_if info))
  end.

(** The filter of the device list as the spec words it: the configuration
    descriptor can be fetched and has a Video/Streaming altsetting. *)
Definition is_uvc_camera (usb : libusb_device) : bool :=
  match usb_config0 usb with
  | Some cfg => got_interface cfg
  | None => false
  end.

Definition fresh_device (usb : libusb_device) : uvc_device :=
  {| usb_dev := usb; ref := 1 |}.

(** Two worlds that differ at most in the interfaces claimed, the heap and
    the log. *)
Definition same_device_state (w w' : world) : Prop :=
  open_devices w' = open_devices w /\ dev w' = dev w /\
  dev_freed w' = dev_freed w /\ usb_refs w' = usb_refs w /\
  usb_handles w' = usb_handles w.

(** The calls that free memory of the library. *)
Definition is_free_call (c : call) : bool :=
  match c with
  | free_dev | free_info | libusb_free_transfer | free_devh => true
  | _ => false
  end.

(** The calls [uvc_open] makes between taking its reference on the device
    and either publishing the handle or reaching [fail:]. *)
Definition is_setup_call (c : call) : bool :=
  match c with
  | free_info | libusb_detach_kernel_driver _ | libusb_claim_interface _
  | libusb_alloc_transfer | libusb_submit_transfer => true
  | _ => false
  end.

(** What a failed [uvc_open] leaves behind, compared with the world [w] it
    started from: the list of open handles, both reference counts, the
    number of open USB handles and the heap are as before; interfaces 0 and
    1 are not claimed; the device was not freed if somebody held it; and the
    calls made are the open and the reference, then the set-up calls, then
    the release of both interfaces, the close of the USB handle, the
    unreference, and the frees, the handle last. *)
Definition rolled_back (w w' : world) : Prop :=
  open_devices w' = open_devices w /\
  ref (dev w') = ref (dev w) /\
  usb_refs w' = usb_refs w /\
  usb_handles w' = usb_handles w /\
  heap w' = heap w /\
  ~ In 0 (claimed w') /\ ~ In 1 (claimed w') /\
  (0 < ref (dev w) -> dev_freed w' = dev_freed w) /\
  exists setup frees,
    log w' = log w ++ [libusb_open; libusb_ref_device] ++ setup
             ++ [libusb_release_interface 0; libusb_release_interface 1;
                 libusb_close; libusb_unref_device]
             ++ frees ++ [free_devh] /\
    forallb is_setup_call setup = true /\
    forallb is_free_call frees = true.

(** The spec's scenario 5: a camera whose header advertises bcdUVC 0x0200,
    and the world a call of [uvc_open] leaves. *)
Definition unsupported_camera_world : world :=
  fresh_world (camera (header_block 0x0200)).

Definition world_after_open (fuel : nat) (w : world) : world :=
  match uvc_open fuel w with
  | Ok (_, _, w') => w'
  | _ => w
  end.

(** The version recorded in an info: a supported one, or the 0 that [calloc]
    left when no header block was parsed. *)
Definition bcdUVC_ok (info : uvc_device_info) : Prop :=
  bcdUVC (ctrl_if info) = 0 \/ supported_bcdUVC (bcdUVC (ctrl_if info)) = true.

(** A camera whose VideoControl interface carries no class-specific
    descriptor at all. *)
Definition headerless_camera_world : world := fresh_world (camera []).

(** A camera with a header for UVC 1.1 and a camera terminal. *)
Definition uvc11_camera_world : world :=
  fresh_world (camera (header_block 0x0110 ++ camera_terminal_block)).

Definition handle_after_open (fuel : nat) (w : world) : option uvc_device_handle :=
  match uvc_open fuel w with
  | Ok (_, devh, _) => devh
  | _ => None
  end.

Definition info_bcdUVC (devh : option uvc_device_handle) : option Z :=
  match devh with
  | Some h => match info h with
              | Some i => Some (bcdUVC (ctrl_if i))
              | None => None
              end
  | None => None
  end.

(** ** Device objects, the device list and its release *)

(** [uvc_ref_device] and [uvc_unref_device] on one device object of an array
    of devices: the object after the call and, for the second, whether
    [free(dev)] was reached. *)
Definition ref_device (d : uvc_device) : uvc_device :=
  {| usb_dev := usb_dev d; ref := ref d + 1 |}.

Definition unref_device (d : uvc_device) : uvc_device * bool :=
  let d' := {| usb_dev := usb_dev d; ref := ref d - 1 |} in
  (d', ref d' =? 0).

(** The loop [while ((dev = list[dev_idx++]) != NULL) uvc_unref_device(dev)]
    of [uvc_free_device_list]; an array without a null entry is read past its
    end. *)
Fixpoint free_device_list_loop (dev_list : list (option uvc_device))
  : outcome (list (uvc_device * bool)) :=
  match dev_list with
  | [] => Undef
  | None :: _ => Ok []
  | Some d :: rest =>
      objs <- free_device_list_loop rest ;;
      Ok (unref_device d :: objs)
  end.

(** The device objects an array points to. *)
Fixpoint pointed_devices (dev_list : list (option uvc_device)) : list uvc_device :=
  match dev_list with
  | [] => []
  | None :: rest => pointed_devices rest
  | Some d :: rest => d :: pointed_devices rest
  end.

(** [uvc_free_device_list]: the device objects after the call, each with the
    mark of having been freed.  The entries of the array are taken to point to
    distinct objects, as those of [uvc_get_device_list] do. *)
Definition uvc_free_device_list (dev_list : list (option uvc_device))
    (unref_devices : bool) : outcome (list (uvc_device * bool)) :=
  if unref_devices then free_device_list_loop dev_list
  else Ok (map (fun d => (d, false)) (pointed_devices dev_list)).

(** ** Device descriptors and the search for a device *)

Record uvc_device_descriptor := {
  idVendor : Z;
  idProduct : Z;
  serialNumber : option String.string;   (* [None] is the null pointer *)
  manufacturer : option String.string;
  product : option String.string
}.

(** What libusb answers on the descriptor of a bus device:
    [libusb_get_device_descriptor], and [libusb_get_string_descriptor_ascii]
    on [iSerialNumber] (the number of bytes and the C string left in the
    buffer). *)
Record descriptor_answers := {
  usb_descriptor_result : libusb_device -> uvc_error_t;
  usb_serial : libusb_device -> Z * String.string
}.

Definition uvc_get_device_descriptor (a : descriptor_answers) (d : uvc_device)
  : uvc_error_t * option uvc_device_descriptor :=
  let ret := usb_descriptor_result a (usb_dev d) in
  if negb (is_success ret) then (ret, None)
  else
    let serial :=
      if is_success (usb_open_result (usb_dev d)) then
        let '(serial_bytes, serial_buf) := usb_serial a (usb_dev d) in
        if 0 <? serial_bytes then Some serial_buf else None
      else None in
    (ret, Some {| idVendor := usb_idVendor (usb_dev d);
                  idProduct := usb_idProduct (usb_dev d);
                  serialNumber := serial;
                  manufacturer := None; product := None |}).

(** The test of [uvc_find_device] on one descriptor; [vid] and [pid] are
    [int], [sn] is a C string or null, [strcmp] is equality of C strings. *)
Definition descriptor_matches (desc : uvc_device_descriptor) (vid pid : Z)
    (sn : option String.string) : bool :=
  ((vid =? 0) || (idVendor desc =? vid))
  && ((pid =? 0) || (idProduct desc =? pid))
  && match sn with
     | None => true
     | Some s =>
         match serialNumber desc with
         | Some s' => String.eqb s' s
         | None => false
         end
     end.

(** The [while] loop of [uvc_find_device]: the index of the entry at which
    [found_dev] is set, if any. *)
Fixpoint find_device_loop (a : descriptor_answers) (vid pid : Z)
    (sn : option String.string) (dev_list : list (option uvc_device))
    (dev_idx : nat) : outcome (option nat) :=
  match dev_list with
  | [] => Undef
  | None :: _ => Ok None
  | Some test_dev :: rest =>
      let '(ret, got) := uvc_get_device_descriptor a test_dev in
      if negb (is_success ret)
      then find_device_loop a vid pid sn rest (S dev_idx)
      else
        match got with
        | None => Undef
        | Some desc =>
            if descriptor_matches desc vid pid sn then Ok (Some dev_idx)
            else find_device_loop a vid pid sn rest (S dev_idx)
        end
  end.

(** Writes through the pointer held in entry [k] of an array. *)
Fixpoint ref_entry (k : nat) (dev_list : list (option uvc_device))
  : list (option uvc_device) :=
  match dev_list, k with
  | [], _ => []
  | Some d :: rest, O => Some (ref_device d) :: rest
  | x :: rest, O => x :: rest
  | x :: rest, S k' => x :: ref_entry k' rest
  end.

(** [uvc_find_device]: the error code, the object [*dev] points to (with the
    mark of having been freed), and all the device objects of the list after
    its release. *)
Definition uvc_find_device (a : descriptor_answers) (e : enumeration)
    (vid pid : Z) (sn : option String.string)
  : outcome (uvc_error_t * option (uvc_device * bool) * list (uvc_device * bool)) :=
  '(ret, got_list) <- uvc_get_device_list e ;;
  if negb (is_success ret) then Ok (ret, None, [])
  else
    match got_list with
    | None => Undef
    | Some dev_list =>
        found_dev <- find_device_loop a vid pid sn dev_list 0 ;;
        let dev_list :=
          match found_dev with
          | Some k => ref_entry k dev_list
          | None => dev_list
          end in
        objs <- uvc_free_device_list dev_list true ;;
        match found_dev with
        | Some k => Ok (UVC_SUCCESS, nth_error objs k, objs)
        | None => Ok (UVC_ERROR_NO_DEVICE, None, objs)
        end
    end.

(** The bus devices [uvc_find_device] accepts. *)
Definition device_matches (a : descriptor_answers) (vid pid : Z)
    (sn : option String.string) (usb : libusb_device) : bool :=
  match uvc_get_device_descriptor a (fresh_device usb) with
  | (_, Some desc) => descriptor_matches desc vid pid sn
  | (_, None) => false
  end.

(** ** Closing a handle and counting the open ones *)

Definition remove_nth {A : Type} (k : nat) (l : list A) : list A :=
  firstn k l ++ skipn (S k) l.

(** [uvc_close] on the handle at position [devh_idx] of [ctx->open_devices]
    (the position stands for the pointer [devh]), for a handle on which no
    frame has arrived ([devh->stream.frame.data] is null, as [uvc_open] leaves
    it).  [uvc_stop_streaming] belongs to the streaming code, which is not in
    this file: it is a parameter. *)
Definition uvc_close (streaming : bool) (uvc_stop_streaming : world -> world)
    (devh_idx : nat) (w : world) : outcome world :=
  match nth_error (open_devices w) devh_idx with
  | None => Undef
  | Some devh =>
      let w := if streaming then uvc_stop_streaming w else w in
      let w := uvc_release_ifs w in
      let w := did libusb_close (set_usb_handles (usb_handles w - 1) w) in
      let w := set_open_devices (remove_nth devh_idx (open_devices w)) w in
      let w := uvc_unref_device w in
      Ok (uvc_free_devh devh w)
  end.

(** [uvc_num_devices]: [count] is a [size_t]. *)
Fixpoint num_devices_loop (l : list uvc_device_handle) (count : Z) : Z :=
  match l with
  | [] => count
  | _ :: rest => num_devices_loop rest (wrap64 (count + 1))
  end.

Definition uvc_num_devices (w : world) : Z :=
  num_devices_loop (open_devices w) 0.

(** ** Blobs made of whole blocks *)

(** A block as the USB descriptors have it: at least 3 bytes, the first of
    which is the length of the block. *)
Definition whole_block (b : list byte) : Prop :=
  (3 <= length b)%nat /\ byte_at b 0 = Z.of_nat (length b).

(** The dispatch of [uvc_parse_vs] on the blocks of a list that start at
    offset [p] of the blob, one after the other, up to the first error. *)
Fixpoint visit_vs_blocks (stream_if : uvc_streaming_interface)
    (buf : list byte) (p : nat) (blocks : list (list byte))
  : outcome (uvc_error_t * uvc_streaming_interface) :=
  match blocks with
  | [] => Ok (UVC_SUCCESS, stream_if)
  | b :: rest =>
      '(parse_ret, stream_if') <- uvc_parse_vs stream_if buf p ;;
      if is_success parse_ret
      then visit_vs_blocks stream_if' buf (p + length b) rest
      else Ok (parse_ret, stream_if')
  end.

(** ** Invariants of a parsed info *)

Definition only_camera_terminals (info : uvc_device_info) : Prop :=
  Forall (fun t => it_wTerminalType t = UVC_ITT_CAMERA)
    (input_term_descs (ctrl_if info)).

(** The address of endpoint 0 of an interface descriptor, 0 when it has no
    endpoint. *)
Definition endpoint0_address (if_desc : libusb_interface_descriptor) : Z :=
  match endpoint if_desc with
  | [] => 0
  | ep0 :: _ => ep_bEndpointAddress ep0
  end.

(** A camera on whose interface 1 a kernel driver is active and can be
    detached, and whose interface 0 cannot be claimed. *)
Definition busy_control_camera : libusb_device :=
  {| usb_open_result := UVC_SUCCESS;
     usb_config0 :=
       Some (config_of [control_if_desc (bytes (header_block 0x0110));
                        streaming_if_desc []]);
     usb_idVendor := 0x05ac; usb_idProduct := 0x8501;
     usb_kernel_driver_active := fun i => i =? 1;
     usb_detach_result := fun _ => UVC_SUCCESS;
     usb_claim_result := fun i => if i =? 0 then UVC_ERROR_BUSY else UVC_SUCCESS;
     usb_alloc_transfer_ok := true;
     usb_submit_result := UVC_SUCCESS;
     calloc_info_ok := true |}.

(** A device object of the list after its last reference was given back. *)
Definition freed_device (usb : libusb_device) : uvc_device * bool :=
  ({| usb_dev := usb; ref := 0 |}, true).

(** Two cameras told apart by their serial numbers, and what libusb answers
    about them. *)
Definition camera_with_product (product_id : Z) : libusb_device :=
  {| usb_open_result := UVC_SUCCESS;
     usb_config0 :=
       Some (config_of [control_if_desc (bytes (header_block 0x0110));
                        streaming_if_desc []]);
     usb_idVendor := 0x046d; usb_idProduct := product_id;
     usb_kernel_driver_active := fun _ => false;
     usb_detach_result := fun _ => UVC_SUCCESS;
     usb_claim_result := fun _ => UVC_SUCCESS;
     usb_alloc_transfer_ok := true;
     usb_submit_result := UVC_SUCCESS;
     calloc_info_ok := true |}.

Module SerialNumbers.
Import Strings.String.
Definition AAA : string := "AAA".
Definition BBB : string := "BBB".
Definition CCC : string := "CCC".
End SerialNumbers.

Definition serial_answers : descriptor_answers :=
  {| usb_descriptor_result := fun _ => UVC_SUCCESS;
     usb_serial := fun usb =>
       if usb_idProduct usb =? 1 then (3, SerialNumbers.AAA)
       else (3, SerialNumbers.BBB) |}.

(** The info [uvc_scan_control] returns, for concrete runs. *)
Definition scanned_info (fuel : nat) (info : uvc_device_info) : uvc_device_info :=
  match uvc_scan_control fuel info with
  | Ok (_, info') => info'
  | _ => info
  end.

(** A VideoControl interface with an interrupt endpoint at address 0x83, and
    a camera that has it. *)
Definition control_if_desc_with_endpoint (blob : list byte)
  : libusb_interface_descriptor :=
  {| bInterfaceNumber := 0; bInterfaceClass := 14; bInterfaceSubClass := 1;
     endpoint := [{| ep_bEndpointAddress := 0x83 |}]; extra := blob |}.

Definition chain_info : uvc_device_info :=
  empty_info (config_of [control_if_desc_with_endpoint
    (bytes (header_block 0x0110 ++ camera_terminal_block
            ++ processing_unit_block))]).

Definition isight_camera : libusb_device :=
  {| usb_open_result := UVC_SUCCESS;
     usb_config0 :=
       Some (config_of [control_if_desc_with_endpoint
                          (bytes (header_block 0x0110));
                        streaming_if_desc []]);
     usb_idVendor := 0x05ac; usb_idProduct := 0x8501;
     usb_kernel_driver_active := fun _ => false;
     usb_detach_result := fun _ => UVC_SUCCESS;
     usb_claim_result := fun _ => UVC_SUCCESS;
     usb_alloc_transfer_ok := true;
     usb_submit_result := UVC_SUCCESS;
     calloc_info_ok := true |}.

Definition the_handle (devh : option uvc_device_handle) : uvc_device_handle :=
  match devh with
  | Some h => h
  | None => {| info := None; status_xfer := false; is_isight := false;
               status_cb := None; status_user_ptr := 0 |}
  end.

Definition world_after_close (devh_idx : nat) (w : world) : world :=
  match uvc_close false (fun w => w) devh_idx w with
  | Ok w' => w'
  | _ => w
  end.

(** Cameras for which one step of the open path fails: the allocation of the
    info, the fetch of the configuration descriptor, and a configuration
    without a VideoControl interface. *)
Definition camera_with (alloc_ok : bool) (cfg : option libusb_config_descriptor)
  : libusb_device :=
  {| usb_open_result := UVC_SUCCESS;
     usb_config0 := cfg;
     usb_idVendor := 0x046d; usb_idProduct := 0x0825;
     usb_kernel_driver_active := fun _ => false;
     usb_detach_result := fun _ => UVC_SUCCESS;
     usb_claim_result := fun _ => UVC_SUCCESS;
     usb_alloc_transfer_ok := true;
     usb_submit_result := UVC_SUCCESS;
     calloc_info_ok := alloc_ok |}.

(** A blob made of whole blocks, with fewer than 3 bytes after the last. *)
Definition whole_blob (blob : list byte) : Prop :=
  exists blocks tail,
    blob = concat blocks ++ tail /\ Forall whole_block blocks
    /\ (length tail < 3)%nat.

(** A VideoStreaming blob: an input header (endpoint 0x81, terminal link 2)
    and a block of a subtype the parser does not know. *)
Definition vs_input_header_block : list Z :=
  [13; 36; 1; 1; 0; 0; 0x81; 0; 2; 0; 0; 0; 0].
Definition vs_unknown_block : list Z := [5; 36; 7; 0; 0].

(** A VideoControl blob with an output terminal and a block of unknown
    subtype 9. *)
Definition output_terminal_block : list Z := [9; 36; 3; 5; 1; 1; 0; 4; 0].
Definition unknown_subtype_block : list Z := [4; 36; 9; 0].

(** A configuration in which altsetting 0 of every interface carries a whole
    blob of at most [M] bytes. *)
Definition whole_config (cfg : libusb_config_descriptor) (M : nat) : Prop :=
  forall itf if_desc rest,
    In itf (interface cfg) ->
    altsetting itf = if_desc :: rest ->
    whole_blob (extra if_desc) /\ (length (extra if_desc) <= M)%nat.

(** A camera configuration with a header that lists streaming interface 1,
    a camera terminal and a processing unit on the control interface, and an
    input header on the streaming interface. *)
Definition header_with_stream_block : list Z :=
  [13; 36; 1] ++ le16_bytes 0x0110 ++ [0; 0; 0; 0; 0; 0; 0; 1].

Definition whole_camera_config : libusb_config_descriptor :=
  config_of
    [control_if_desc (bytes header_with_stream_block
                      ++ bytes camera_terminal_block
                      ++ bytes processing_unit_block);
     streaming_if_desc (bytes vs_input_header_block ++ bytes vs_unknown_block)].

(** * Properties *)

(** ** Bytes and byte order *)

Lemma u8_range (b : byte) : 0 <= u8 b < 256.
Proof.
  unfold u8. pose proof (Byte.to_N_bounded b). lia.
Qed.

Lemma byte_at_range buf i : 0 <= byte_at buf i < 256.
Proof. apply u8_range. Qed.

Lemma rd_in buf p i :
  (p + i < length buf)%nat -> rd buf p i = Ok (byte_at buf (p + i)).
Proof.
  intro H. unfold rd, byte_at.
  rewrite (nth_error_nth' buf x00 H). reflexivity.
Qed.

Lemma rd_out buf p i :
  (length buf <= p + i)%nat -> rd buf p i = Undef.
Proof.
  intro H. unfold rd.
  destruct (nth_error buf (p + i)) eqn:E; [|reflexivity].
  assert (nth_error buf (p + i) <> None) as N by congruence.
  apply nth_error_Some in N. lia.
Qed.

Lemma land_low_shifted a b n :
  0 <= n -> 0 <= a < 2 ^ n -> Z.land a (b * 2 ^ n) = 0.
Proof.
  intros Hn Ha. apply Z.bits_inj'. intros k Hk.
  rewrite Z.land_spec, Z.bits_0.
  destruct (Z.lt_ge_cases k n).
  - rewrite Z.mul_pow2_bits_low by assumption. apply andb_false_r.
  - replace (Z.testbit a k) with false; [reflexivity|].
    symmetry. destruct (Z.eq_dec a 0) as [->|]; [apply Z.bits_0|].
    apply Z.bits_above_log2; [lia|].
    apply Z.log2_lt_pow2; [lia|].
    assert (2 ^ n <= 2 ^ k) by (apply Z.pow_le_mono_r; lia). lia.
Qed.

(** On a value below [2^n], or-ing in a value shifted by [n] adds it. *)
Lemma lor_shiftl_add a b n :
  0 <= n -> 0 <= a < 2 ^ n -> Z.lor a (Z.shiftl b n) = a + 2 ^ n * b.
Proof.
  intros Hn Ha.
  rewrite Z.shiftl_mul_pow2 by assumption.
  rewrite <- Z.lxor_lor by (apply land_low_shifted; assumption).
  rewrite <- Z.add_nocarry_lxor by (apply land_low_shifted; assumption).
  lia.
Qed.

Lemma SW_TO_SHORT_in buf p i :
  (p + i + 1 < length buf)%nat ->
  SW_TO_SHORT buf p i = Ok (le16_at buf (p + i)).
Proof.
  intro H. unfold SW_TO_SHORT, le16_at.
  rewrite !rd_in by lia. cbn [bind].
  rewrite lor_shiftl_add by (try apply byte_at_range; lia).
  rewrite Nat.add_assoc. reflexivity.
Qed.

Lemma DW_TO_INT_in buf p i :
  (p + i + 3 < length buf)%nat ->
  DW_TO_INT buf p i = Ok (le32_at buf (p + i)).
Proof.
  intro H. unfold DW_TO_INT, le32_at.
  rewrite !rd_in by lia. cbn [bind].
  pose proof (byte_at_range buf (p + i)).
  pose proof (byte_at_range buf (p + (i + 1))).
  pose proof (byte_at_range buf (p + (i + 2))).
  change (2 ^ 8) with 256. change (2 ^ 16) with 65536.
  change (2 ^ 24) with 16777216.
  rewrite (lor_shiftl_add _ _ 8) by (change (2 ^ 8) with 256; lia).
  rewrite (lor_shiftl_add _ _ 16) by (change (2 ^ 16) with 65536; lia).
  rewrite (lor_shiftl_add _ _ 24) by (change (2 ^ 24) with 16777216; lia).
  rewrite !Nat.add_assoc. reflexivity.
Qed.

Lemma bytes_at_snoc buf i n :
  bytes_at buf i (S n) = bytes_at buf i n ++ [byte_at buf (i + n)].
Proof.
  unfold bytes_at. rewrite seq_S, map_app. reflexivity.
Qed.

(** ** The controls bitmap *)

(** The loop of the code, which adds the byte to the shifted word in 64 bits,
    computes the fold of the spec, which ors it in, as long as the bytes left
    fit the word. *)
Lemma bmControls_loop_fold buf block base :
  forall n bm,
    (block + base + n < length buf)%nat ->
    (n <= 8)%nat ->
    0 <= bm < 2 ^ (64 - 8 * Z.of_nat n) ->
    bmControls_loop buf block base n bm =
    Ok (fold_right (fun b acc => Z.lor (Z.shiftl acc 8) b) bm
          (bytes_at buf (block + base + 1) n)).
Proof.
  induction n as [|n IH]; intros bm Hlen Hn Hbm.
  - reflexivity.
  - cbn [bmControls_loop].
    rewrite rd_in by lia. cbn [bind].
    pose proof (byte_at_range buf (block + (base + S n))) as Hb.
    assert (2 ^ (64 - 8 * Z.of_nat n) = 2 ^ 8 * 2 ^ (64 - 8 * Z.of_nat (S n))) as Hpow.
    { rewrite <- Z.pow_add_r by lia. f_equal. lia. }
    assert (Z.shiftl bm 8 = 2 ^ 8 * bm) as Hsh
        by (rewrite Z.shiftl_mul_pow2 by lia; lia).
    assert (0 <= byte_at buf (block + (base + S n)) + Z.shiftl bm 8
            < 2 ^ (64 - 8 * Z.of_nat n)) as Hnew.
    { rewrite Hsh, Hpow. change (2 ^ 8) with 256 in *. lia. }
    assert (2 ^ (64 - 8 * Z.of_nat n) <= 2 ^ 64) as Htop
        by (apply Z.pow_le_mono_r; lia).
    unfold wrap64. rewrite Z.mod_small by lia.
    rewrite IH by (assumption || lia).
    rewrite bytes_at_snoc, fold_right_app. cbn [fold_right].
    rewrite (Z.lor_comm (Z.shiftl bm 8)).
    rewrite lor_shiftl_add by (first [lia | apply byte_at_range]).
    rewrite Hsh.
    replace (block + base + 1 + n)%nat with (block + (base + S n))%nat by lia.
    reflexivity.
Qed.

Lemma bmControls_loop_controls_fold buf block base n :
  (block + base + n < length buf)%nat ->
  (n <= 8)%nat ->
  bmControls_loop buf block base n 0 =
  Ok (controls_fold (bytes_at buf (block + base + 1) n)).
Proof.
  intros Hlen Hn. apply bmControls_loop_fold; try assumption.
  split; [lia|]. apply Z.pow_pos_nonneg; lia.
Qed.

Lemma rd_bytes_in buf p :
  forall n i, (p + i + n <= length buf)%nat ->
    rd_bytes buf p i n = Ok (bytes_at buf (p + i) n).
Proof.
  induction n as [|n IH]; intros i H; [reflexivity|].
  cbn [rd_bytes]. rewrite rd_in by lia. cbn [bind].
  rewrite IH by lia. cbn [bind].
  unfold bytes_at. cbn [seq map].
  replace (p + S i)%nat with (S (p + i)) by lia. reflexivity.
Qed.

(** C6.  For a camera input-terminal block, a processing-unit block and an
    extension-unit block whose controls bitmap has length [n <= 8] (the byte
    at offset 14, 7, resp. [22 + p] with [p = block[21]]) and whose bitmap
    bytes lie in the blob right after that length byte, the parser returns
    success and appends one record whose [bmControls] is the fold
    [bmControls = (bmControls << 8) | byte] over the bitmap bytes taken from
    the last one down to the first; the bytes 0x01 0x02 give 0x0201. *)
Theorem controls_bitmap_accumulation :
  forall (k : vc_entity) (info : uvc_device_info) (buf : list byte)
         (block n : nat),
    (k = input_terminal -> le16_at buf (block + 4) = UVC_ITT_CAMERA) ->
    byte_at buf (block + bControlSize_offset k buf block) = Z.of_nat n ->
    (n <= 8)%nat ->
    (block + bControlSize_offset k buf block + n < length buf)%nat ->
    controls_fold [0x01; 0x02] = 0x0201 /\
    exists info',
      parse_entity k info buf block = Ok (Returned UVC_SUCCESS, info') /\
      recorded_bmControls k info' =
      recorded_bmControls k info
      ++ [controls_fold
            (bytes_at buf (block + bControlSize_offset k buf block + 1) n)].
Proof.
  intros k info buf block n Hcam Hn Hle Hlen.
  split; [reflexivity|].
  destruct k; cbn [parse_entity bControlSize_offset recorded_bmControls] in *.
  - unfold uvc_parse_vc_input_terminal.
    rewrite !SW_TO_SHORT_in by lia. cbn [bind].
    rewrite (Hcam eq_refl). cbn [Z.eqb Pos.eqb negb UVC_ITT_CAMERA].
    rewrite !rd_in by lia. cbn [bind].
    rewrite Hn, Nat2Z.id.
    rewrite bmControls_loop_controls_fold by assumption. cbn [bind].
    eexists. split; [reflexivity|].
    cbn. rewrite map_app. reflexivity.
  - unfold uvc_parse_vc_processing_unit.
    rewrite !rd_in by lia. cbn [bind].
    rewrite Hn, Nat2Z.id.
    rewrite bmControls_loop_controls_fold by assumption. cbn [bind].
    eexists. split; [reflexivity|].
    cbn. rewrite map_app. reflexivity.
  - unfold uvc_parse_vc_extension_unit.
    rewrite rd_in by lia. cbn [bind].
    rewrite rd_bytes_in by lia. cbn [bind].
    rewrite rd_in by lia. cbn [bind].
    rewrite rd_in by lia. cbn [bind].
    rewrite Hn, Nat2Z.id.
    rewrite bmControls_loop_controls_fold by assumption. cbn [bind].
    eexists. split; [reflexivity|].
    cbn. rewrite map_app. reflexivity.
Qed.

Lemma controls_bitmap_accumulation_witness :
  exists info',
    uvc_parse_vc_input_terminal (empty_info (config_of []))
      (bytes camera_terminal_block) 0 = Ok (Returned UVC_SUCCESS, info') /\
    map it_bmControls (input_term_descs (ctrl_if info')) = [] ++ [0x0201].
Proof.
  apply (controls_bitmap_accumulation input_terminal (empty_info (config_of []))
           (bytes camera_terminal_block) 0 2).
  - intros _. reflexivity.
  - reflexivity.
  - lia.
  - vm_compute. lia.
Defined.

(** The same at a processing unit and at an extension unit with one input
    pin. *)
Example controls_bitmap_processing_unit :
  exists info',
    uvc_parse_vc_processing_unit (empty_info (config_of []))
      (bytes processing_unit_block) 0 = Ok (Returned UVC_SUCCESS, info') /\
    map pu_bmControls (processing_unit_descs (ctrl_if info')) = [0x0201].
Proof. eexists. split; reflexivity. Qed.

Example controls_bitmap_extension_unit :
  exists info',
    uvc_parse_vc_extension_unit (empty_info (config_of []))
      (bytes extension_unit_block) 0 = Ok (Returned UVC_SUCCESS, info') /\
    map xu_bmControls (extension_unit_descs (ctrl_if info')) = [0x0201].
Proof. eexists. split; reflexivity. Qed.

(** ** Frame intervals *)

Lemma frame_intervals_loop_in buf block :
  forall n i, (block + i + 4 * n <= length buf)%nat ->
    frame_intervals_loop buf block i n =
    Ok (map (fun k => le32_at buf (block + i + 4 * k)) (seq 0 n)).
Proof.
  induction n as [|n IH]; intros i H; [reflexivity|].
  cbn [frame_intervals_loop].
  rewrite DW_TO_INT_in by lia. cbn [bind].
  rewrite IH by lia. cbn [bind].
  cbn [seq map]. rewrite <- seq_shift, map_map.
  f_equal. f_equal.
  - f_equal. lia.
  - apply map_ext. intro k. f_equal. lia.
Qed.

Lemma map_last_snoc {A : Type} (f : A -> A) (l : list A) (x : A) :
  map_last f (l ++ [x]) = l ++ [f x].
Proof.
  induction l as [|y l IH]; [reflexivity|].
  cbn [app map_last]. rewrite IH.
  destruct (l ++ [x]) eqn:E; [|reflexivity].
  destruct l; discriminate.
Qed.

(** C7.  For a frame block on an interface that already has a format
    ([fs ++ [f]]), with [n = block[25]] and the interval bytes inside the
    blob: the parser returns success, and the interface it leaves differs
    from the one it found in one place only, the frame list of the last
    format, which has one frame more at its end.  That frame has its fixed
    fields read from their offsets; if [n = 0] it has a null [intervals] and
    the triple read as little-endian u32 at offsets 26, 30, 34; if [n > 0] it
    has [intervals] equal to the [n] little-endian u32 at offsets 26, 30, ...
    followed by one 0, and the triple is left at 0.  So exactly one of the two
    representations is filled in. *)
Theorem frame_interval_representation :
  forall (stream_if : uvc_streaming_interface) (fs : list uvc_format_desc)
         (f : uvc_format_desc) (buf : list byte) (block n : nat),
    format_descs stream_if = fs ++ [f] ->
    byte_at buf (block + 25) = Z.of_nat n ->
    (block + 26 + match n with O => 12 | _ => 4 * n end <= length buf)%nat ->
    exists frame : uvc_frame_desc,
      uvc_parse_vs_frame_uncompressed stream_if buf block
      = Ok (UVC_SUCCESS,
            {| si_bInterfaceNumber := si_bInterfaceNumber stream_if;
               si_bEndpointAddress := si_bEndpointAddress stream_if;
               si_bTerminalLink := si_bTerminalLink stream_if;
               format_descs :=
                 fs ++ [{| fmt_bDescriptorSubtype := fmt_bDescriptorSubtype f;
                           fmt_bFormatIndex := fmt_bFormatIndex f;
                           fmt_guidFormat := fmt_guidFormat f;
                           fmt_bBitsPerPixel := fmt_bBitsPerPixel f;
                           fmt_bDefaultFrameIndex := fmt_bDefaultFrameIndex f;
                           fmt_bAspectRatioX := fmt_bAspectRatioX f;
                           fmt_bAspectRatioY := fmt_bAspectRatioY f;
                           fmt_bmInterlaceFlags := fmt_bmInterlaceFlags f;
                           fmt_bCopyProtect := fmt_bCopyProtect f;
                           frame_descs := frame_descs f ++ [frame] |}] |}) /\
      (fr_bDescriptorSubtype frame = byte_at buf (block + 2) /\
       fr_bFrameIndex frame = byte_at buf (block + 3) /\
       fr_bmCapabilities frame = byte_at buf (block + 4) /\
       fr_wWidth frame
       = byte_at buf (block + 5) + Z.shiftl (byte_at buf (block + 6)) 8 /\
       fr_wHeight frame
       = byte_at buf (block + 7) + Z.shiftl (byte_at buf (block + 8)) 8 /\
       fr_dwMinBitRate frame = le32_at buf (block + 9) /\
       fr_dwMaxBitRate frame = le32_at buf (block + 13) /\
       fr_dwMaxVideoFrameBufferSize frame = le32_at buf (block + 17) /\
       fr_dwDefaultFrameInterval frame = le32_at buf (block + 21)) /\
      (n = 0%nat ->
         fr_intervals frame = None /\
         fr_dwMinFrameInterval frame = le32_at buf (block + 26) /\
         fr_dwMaxFrameInterval frame = le32_at buf (block + 30) /\
         fr_dwFrameIntervalStep frame = le32_at buf (block + 34)) /\
      ((0 < n)%nat ->
         fr_intervals frame =
           Some (map (fun k => le32_at buf (block + 26 + 4 * k)) (seq 0 n) ++ [0]) /\
         fr_dwMinFrameInterval frame = 0 /\
         fr_dwMaxFrameInterval frame = 0 /\
         fr_dwFrameIntervalStep frame = 0).
Proof.
  intros stream_if fs f buf block n Hfmt Hn Hlen.
  unfold uvc_parse_vs_frame_uncompressed.
  rewrite Hfmt.
  replace (is_nil (fs ++ [f])) with false by (destruct fs; reflexivity).
  unfold parse_frame.
  assert (block + 26 < length buf)%nat by (destruct n; lia).
  rewrite !rd_in by lia. cbn [bind].
  rewrite !DW_TO_INT_in by lia. cbn [bind].
  rewrite Hn.
  destruct n as [|n].
  - cbn [Z.of_nat Z.eqb].
    rewrite !DW_TO_INT_in by lia. cbn [bind].
    rewrite map_last_snoc. unfold add_frame.
    eexists. split; [reflexivity|].
    split; [cbn; repeat split; reflexivity|].
    split; [intros _; cbn; repeat split; reflexivity | intro; lia].
  - replace (Z.of_nat (S n) =? 0) with false by (symmetry; apply Z.eqb_neq; lia).
    rewrite Nat2Z.id.
    rewrite frame_intervals_loop_in by lia. cbn [bind].
    rewrite map_last_snoc. unfold add_frame.
    eexists. split; [reflexivity|].
    split; [cbn; repeat split; reflexivity|].
    split; [intro; discriminate | intros _; cbn; repeat split; reflexivity].
Qed.

Lemma frame_interval_representation_witness :
  exists frame,
    uvc_parse_vs_frame_uncompressed some_stream_if (bytes discrete_frame_block) 0
    = Ok (UVC_SUCCESS,
          {| si_bInterfaceNumber := 1; si_bEndpointAddress := 0x81;
             si_bTerminalLink := 2;
             format_descs :=
               [{| fmt_bDescriptorSubtype := 4; fmt_bFormatIndex := 1;
                   fmt_guidFormat := []; fmt_bBitsPerPixel := 16;
                   fmt_bDefaultFrameIndex := 1;
                   fmt_bAspectRatioX := 0; fmt_bAspectRatioY := 0;
                   fmt_bmInterlaceFlags := 0; fmt_bCopyProtect := 0;
                   frame_descs := [frame] |}] |}) /\
    fr_intervals frame = Some [333333; 400000; 500000; 0] /\
    fr_dwMinFrameInterval frame = 0 /\
    fr_dwMaxFrameInterval frame = 0 /\
    fr_dwFrameIntervalStep frame = 0.
Proof.
  destruct (frame_interval_representation some_stream_if [] some_format
              (bytes discrete_frame_block) 0 3)
    as (frame & Hrun & _ & _ & Hdisc).
  - reflexivity.
  - reflexivity.
  - vm_compute. lia.
  - exists frame.
    split; [exact Hrun|].
    apply Hdisc. lia.
Defined.

(** The continuous block of the same frame: the triple is read, the table
    stays null. *)
Example frame_interval_continuous :
  exists frame stream_if' f',
    uvc_parse_vs_frame_uncompressed some_stream_if (bytes continuous_frame_block) 0
    = Ok (UVC_SUCCESS, stream_if') /\
    format_descs stream_if' = [f'] /\
    frame_descs f' = [frame] /\
    fr_wWidth frame = 640 /\
    fr_wHeight frame = 480 /\
    fr_intervals frame = None /\
    fr_dwMinFrameInterval frame = 333333 /\
    fr_dwMaxFrameInterval frame = 2000000 /\
    fr_dwFrameIntervalStep frame = 0.
Proof. do 3 eexists. repeat split; reflexivity. Qed.

(** ** The walk over the blocks of a blob *)

(** With fewer than 3 bytes left the walk stops at once, with success. *)
Lemma scan_control_loop_stops fuel info buf buffer buffer_left :
  buffer_left < 3 ->
  scan_control_loop fuel info buf buffer buffer_left = Ok (UVC_SUCCESS, info).
Proof.
  intro H. destruct fuel; cbn [scan_control_loop];
    replace (3 <=? buffer_left) with false by (symmetry; apply Z.leb_gt; lia);
    reflexivity.
Qed.

Lemma scan_streaming_loop_stops fuel stream_if buf buffer buffer_left :
  buffer_left < 3 ->
  scan_streaming_loop fuel stream_if buf buffer buffer_left
  = Ok (UVC_SUCCESS, stream_if).
Proof.
  intro H. destruct fuel; cbn [scan_streaming_loop];
    replace (3 <=? buffer_left) with false by (symmetry; apply Z.leb_gt; lia);
    reflexivity.
Qed.

(** A block of declared size 0 that is not a class-specific interface
    descriptor leaves the loop state as it was: no bound on the number of
    iterations lets the walk return. *)
Lemma scan_control_loop_zero_block info buf buffer buffer_left :
  (buffer + 1 < length buf)%nat ->
  byte_at buf buffer = 0 ->
  byte_at buf (buffer + 1) <> 36 ->
  3 <= buffer_left < 2 ^ 64 ->
  forall fuel, scan_control_loop fuel info buf buffer buffer_left = OutOfFuel.
Proof.
  intros Hlen Hsize Htype Hleft fuel.
  induction fuel as [|fuel IH]; cbn [scan_control_loop];
    replace (3 <=? buffer_left) with true by (symmetry; apply Z.leb_le; lia);
    [reflexivity|].
  rewrite rd_in by lia. cbn [bind]. rewrite Nat.add_0_r, Hsize.
  unfold uvc_parse_vc. rewrite rd_in by lia. cbn [bind].
  replace (byte_at buf (buffer + 1) =? 36) with false
    by (symmetry; apply Z.eqb_neq; assumption).
  cbn [negb bind is_success Z.to_nat].
  rewrite Nat.add_0_r, Z.sub_0_r.
  unfold wrap64. rewrite Z.mod_small by lia.
  exact IH.
Qed.

Lemma scan_streaming_loop_zero_block stream_if buf buffer buffer_left :
  (buffer + 2 < length buf)%nat ->
  byte_at buf buffer = 0 ->
  byte_at buf (buffer + 2) = 0 ->
  3 <= buffer_left < 2 ^ 64 ->
  forall fuel,
    scan_streaming_loop fuel stream_if buf buffer buffer_left = OutOfFuel.
Proof.
  intros Hlen Hsize Htype Hleft fuel.
  induction fuel as [|fuel IH]; cbn [scan_streaming_loop];
    replace (3 <=? buffer_left) with true by (symmetry; apply Z.leb_le; lia);
    [reflexivity|].
  rewrite rd_in by lia. cbn [bind]. rewrite Nat.add_0_r, Hsize.
  unfold uvc_parse_vs. rewrite rd_in by lia. cbn [bind]. rewrite Htype.
  cbn [Z.eqb UVC_VS_INPUT_HEADER UVC_VS_FORMAT_UNCOMPRESSED
       UVC_VS_FRAME_UNCOMPRESSED bind is_success Z.to_nat].
  rewrite Nat.add_0_r, Z.sub_0_r.
  unfold wrap64. rewrite Z.mod_small by lia.
  exact IH.
Qed.

(** C1 (the code at the failing input).  On a VideoControl blob of three
    zero bytes, whatever bound on the number of iterations is given, the walk
    of [uvc_scan_control] does not return; neither does the walk of
    [uvc_scan_streaming] on the same blob.  The block declares size 0, so
    [buffer_left] stays 3 and the pointer stays where it is. *)
Theorem scan_walk_zero_block_never_returns :
  forall fuel : nat,
    uvc_scan_control fuel zero_block_info = OutOfFuel /\
    uvc_scan_streaming fuel zero_block_info 0 = OutOfFuel.
Proof.
  intro fuel. split.
  - unfold uvc_scan_control. cbn [zero_block_info empty_info config config_of
      interface map find_control_if altsetting control_if_desc bInterfaceClass
      bInterfaceSubClass Z.eqb Pos.eqb andb bind endpoint extra].
    apply scan_control_loop_zero_block;
      [vm_compute; lia | reflexivity | discriminate | vm_compute; split; congruence].
  - unfold uvc_scan_streaming. cbn [zero_block_info empty_info config config_of
      interface map Z.to_nat nth_error altsetting control_if_desc extra].
    rewrite scan_streaming_loop_zero_block;
      [reflexivity | vm_compute; lia | reflexivity | reflexivity
      | vm_compute; split; congruence].
Qed.

(** A block that declares more bytes than the blob holds makes [buffer_left]
    wrap around and the next iteration read past the end of the blob. *)
Example scan_walk_short_block :
  forall fuel info,
    scan_control_loop (S (S fuel)) info short_block 0 3 = Undef.
Proof. intros fuel info. reflexivity. Qed.

(** ** Input terminals of a type other than camera *)

(** C4 (the code on a non-camera terminal).  The parser adds no record, but
    it leaves through a bare [return;]: the caller gets no value, and the walk
    of [uvc_scan_control], which tests that value, has no defined
    behaviour. *)
Theorem input_terminal_skip_returns_no_value :
  forall (fuel : nat) (info : uvc_device_info) (buf : list byte)
         (block : nat) (buffer_left : Z),
    (block + 5 < length buf)%nat ->
    le16_at buf (block + 4) <> UVC_ITT_CAMERA ->
    uvc_parse_vc_input_terminal info buf block = Ok (NoValue, info) /\
    (byte_at buf (block + 1) = 36 ->
     byte_at buf (block + 2) = UVC_VC_INPUT_TERMINAL ->
     3 <= buffer_left ->
     scan_control_loop (S fuel) info buf block buffer_left = Undef).
Proof.
  intros fuel info buf block buffer_left Hlen Hty.
  assert (uvc_parse_vc_input_terminal info buf block = Ok (NoValue, info)) as Hskip.
  { unfold uvc_parse_vc_input_terminal.
    rewrite SW_TO_SHORT_in by lia. cbn [bind].
    replace (le16_at buf (block + 4) =? UVC_ITT_CAMERA) with false
      by (symmetry; apply Z.eqb_neq; assumption).
    reflexivity. }
  split; [exact Hskip|].
  intros Hcs Hsub Hleft.
  cbn [scan_control_loop].
  replace (3 <=? buffer_left) with true by (symmetry; apply Z.leb_le; lia).
  rewrite rd_in by lia. cbn [bind].
  unfold uvc_parse_vc.
  rewrite !rd_in by lia. cbn [bind].
  rewrite Hcs, Hsub. cbn [Z.eqb Pos.eqb negb UVC_VC_INPUT_TERMINAL UVC_VC_HEADER].
  rewrite Hskip. reflexivity.
Qed.

Lemma input_terminal_skip_returns_no_value_witness :
  uvc_parse_vc_input_terminal (empty_info (config_of []))
    (bytes other_terminal_block) 0
  = Ok (NoValue, empty_info (config_of [])) /\
  scan_control_loop 1 (empty_info (config_of []))
    (bytes other_terminal_block) 0 8 = Undef.
Proof.
  destruct (input_terminal_skip_returns_no_value 0 (empty_info (config_of []))
              (bytes other_terminal_block) 0 8) as [Hskip Hwalk].
  - vm_compute. lia.
  - vm_compute. discriminate.
  - split; [exact Hskip|].
    apply Hwalk; [reflexivity | reflexivity | lia].
Defined.

(** The chain of a header (0x0110), a camera terminal and a terminal of
    another type: the walk gets through the first two blocks and has no
    defined result at the third. *)
Example scan_control_mixed_terminals :
  uvc_scan_control 3
    (empty_info (config_of [control_if_desc
       (bytes (header_block 0x0110 ++ camera_terminal_block
               ++ other_terminal_block))]))
  = Undef.
Proof. reflexivity. Qed.

(** ** The device list *)

Lemma wrap64_nonneg z : 0 <= wrap64 z.
Proof. unfold wrap64. apply Z.mod_pos_bound. reflexivity. Qed.

(** C5 (the code when the enumeration fails).  [num_usb_devices] is a
    [size_t], so the test [num_usb_devices < 0] never holds: a failed
    enumeration is not answered with [UVC_ERROR_IO]; the code goes on to read
    the device list through a pointer that was never set. *)
Theorem get_device_list_enumeration_failure :
  forall code : Z,
    uvc_get_device_list (enumeration_failed code) = Undef /\
    forall (e : enumeration) r, uvc_get_device_list e <> Ok (UVC_ERROR_IO, r).
Proof.
  intro code.
  assert (forall e, (wrap64 (enumeration_result e) <? 0) = false) as Hnever
      by (intro e; apply Z.ltb_ge, wrap64_nonneg).
  split.
  - unfold uvc_get_device_list. rewrite Hnever. reflexivity.
  - intros e r. unfold uvc_get_device_list. rewrite Hnever.
    destruct e; discriminate.
Qed.

Lemma device_list_loop_spec :
  forall usb_dev_list acc,
    device_list_loop usb_dev_list (length acc) (map Some acc ++ [None])
    = map Some (acc ++ map fresh_device (filter is_uvc_camera usb_dev_list))
      ++ [None].
Proof.
  induction usb_dev_list as [|usb rest IH]; intro acc.
  - cbn. rewrite app_nil_r. reflexivity.
  - cbn [device_list_loop filter]. unfold is_uvc_camera at 1.
    destruct (usb_config0 usb) as [cfg|]; [|apply IH].
    destruct (got_interface cfg); [|apply IH].
    replace (S (length acc) - 1)%nat with (length (map Some acc))
      by (rewrite length_map; lia).
    rewrite firstn_app, firstn_all, Nat.sub_diag. cbn [firstn].
    rewrite app_nil_r.
    replace (map Some acc ++ [Some {| usb_dev := usb; ref := 0 + 1 |}; None])
      with (map Some (acc ++ [fresh_device usb]) ++ [None])
      by (rewrite map_app, <- app_assoc; reflexivity).
    replace (S (length acc)) with (length (acc ++ [fresh_device usb]))
      by (rewrite length_app; cbn; lia).
    rewrite IH. cbn [map]. rewrite <- app_assoc. reflexivity.
Qed.

(** When the enumeration succeeds the call succeeds, and the array is the
    fresh devices (ref 1) of the bus devices that pass the filter, in bus
    order, closed by the null entry; a device whose configuration descriptor
    cannot be fetched is left out. *)
Lemma get_device_list_success (usb_dev_list : list libusb_device) :
  uvc_get_device_list (enumerated usb_dev_list)
  = Ok (UVC_SUCCESS,
        Some (map Some (map fresh_device (filter is_uvc_camera usb_dev_list))
              ++ [None])).
Proof.
  unfold uvc_get_device_list.
  replace (wrap64 (enumeration_result (enumerated usb_dev_list)) <? 0) with false
    by (symmetry; apply Z.ltb_ge, wrap64_nonneg).
  f_equal. f_equal. f_equal.
  exact (device_list_loop_spec usb_dev_list []).
Qed.

(** ** The status demultiplexer *)

Lemma window_bytes buf i n :
  (i + n <= length buf)%nat ->
  map u8 (firstn n (skipn i buf)) = bytes_at buf i n.
Proof.
  intro H. unfold bytes_at.
  apply (nth_ext _ _ (u8 x00) (byte_at buf 0)).
  - rewrite !length_map, length_firstn, length_skipn, length_seq. lia.
  - intros k Hk.
    rewrite length_map, length_firstn, length_skipn in Hk.
    rewrite !map_nth, nth_firstn, nth_skipn, seq_nth by lia.
    replace (k <? n)%nat with true by (symmetry; apply Nat.ltb_lt; lia).
    reflexivity.
Qed.

Lemma existsb_false_iff {A : Type} (f : A -> bool) (l : list A) :
  existsb f l = false <-> ~ exists x, In x l /\ f x = true.
Proof.
  rewrite <- existsb_exists. destruct (existsb f l); split; intro H;
    try reflexivity; try discriminate; try (intro; discriminate).
  exfalso. apply H. reflexivity.
Qed.

(** What the first reads of a well-formed packet of length at least 4
    give. *)
Lemma status_first_reads transfer :
  transfer_wf transfer -> 4 <= actual_length transfer ->
  rd (buffer transfer) 0 1 = Ok (byte_at (buffer transfer) 1) /\
  rd (buffer transfer) 0 0 = Ok (byte_at (buffer transfer) 0).
Proof.
  unfold transfer_wf. intros Hwf Hlen.
  split; apply rd_in; cbn; lia.
Qed.

(** The function on a handle with its info and a packet within its buffer,
    with the reads written as bytes of the packet. *)
Lemma uvc_process_status_xfer_cases unknown devh the_info transfer :
  info devh = Some the_info ->
  transfer_wf transfer ->
  let in_terms :=
    existsb (fun t => it_bTerminalID t =? byte_at (buffer transfer) 1)
      (input_term_descs (ctrl_if the_info)) in
  let in_units :=
    existsb (fun u => pu_bUnitID u =? byte_at (buffer transfer) 1)
      (processing_unit_descs (ctrl_if the_info)) in
  uvc_process_status_xfer unknown devh transfer =
  if actual_length transfer <? 4 then Ok []
  else if status_class_tag transfer =? 1 then
    if (actual_length transfer <? 5)
       || (byte_at (buffer transfer) 1 =? 0)
       || negb (byte_at (buffer transfer) 2 =? 0)
       || negb (in_terms || in_units)
    then Ok []
    else
      call_status_cb devh
        {| cb_status_class :=
             Some (if in_terms then UVC_STATUS_CLASS_CONTROL_CAMERA
                   else UVC_STATUS_CLASS_CONTROL_PROCESSING);
           cb_event := byte_at (buffer transfer) 2;
           cb_selector := byte_at (buffer transfer) 3;
           cb_attribute := byte_at (buffer transfer) 4;
           cb_data := Some (bytes_at (buffer transfer) 5
                              (Z.to_nat (actual_length transfer) - 5));
           cb_data_len := actual_length transfer - 5;
           cb_user_ptr := status_user_ptr devh |}
  else if status_class_tag transfer =? 2 then Ok []
  else
    call_status_cb devh
      {| cb_status_class := None; cb_event := 0; cb_selector := 0;
         cb_attribute := unknown; cb_data := None; cb_data_len := 0;
         cb_user_ptr := status_user_ptr devh |}.
Proof.
  intros Hinfo Hwf in_terms in_units. subst in_terms in_units.
  unfold uvc_process_status_xfer, status_class_tag.
  destruct (Z.ltb_spec (actual_length transfer) 4) as [Hlt4|Hge4];
    [reflexivity|].
  destruct (status_first_reads transfer Hwf Hge4) as [-> ->]. cbn [bind].
  destruct (Z.land (byte_at (buffer transfer) 0) 15 =? 1); [|reflexivity].
  destruct (Z.ltb_spec (actual_length transfer) 5) as [Hlt5|Hge5];
    [reflexivity|].
  unfold transfer_wf in Hwf.
  rewrite !rd_in by (cbn; lia). cbn [bind Nat.add orb].
  destruct (byte_at (buffer transfer) 1 =? 0); [reflexivity|].
  destruct (byte_at (buffer transfer) 2 =? 0); [|reflexivity].
  rewrite Hinfo. cbn [negb orb].
  destruct (existsb (fun t => it_bTerminalID t =? byte_at (buffer transfer) 1)
              (input_term_descs (ctrl_if the_info)));
    destruct (existsb (fun u => pu_bUnitID u =? byte_at (buffer transfer) 1)
                (processing_unit_descs (ctrl_if the_info)));
    cbn [orb negb bind]; try reflexivity;
    rewrite window_bytes by lia;
    replace (Z.to_nat (actual_length transfer - 5))
      with (Z.to_nat (actual_length transfer) - 5)%nat by lia;
    reflexivity.
Qed.

(** Membership tests of the two entity lists, as propositions. *)
Lemma known_terminal_iff (the_info : uvc_device_info) (originator : Z) :
  existsb (fun t => it_bTerminalID t =? originator)
    (input_term_descs (ctrl_if the_info)) = true
  <-> exists t, In t (input_term_descs (ctrl_if the_info))
                /\ it_bTerminalID t = originator.
Proof.
  rewrite existsb_exists. split; intros (t & Hin & Heq); exists t;
    (split; [exact Hin | apply Z.eqb_eq; exact Heq]).
Qed.

Lemma known_unit_iff (the_info : uvc_device_info) (originator : Z) :
  existsb (fun u => pu_bUnitID u =? originator)
    (processing_unit_descs (ctrl_if the_info)) = true
  <-> exists u, In u (processing_unit_descs (ctrl_if the_info))
                /\ pu_bUnitID u = originator.
Proof.
  rewrite existsb_exists. split; intros (u & Hin & Heq); exists u;
    (split; [exact Hin | apply Z.eqb_eq; exact Heq]).
Qed.

(** C2.  A packet shorter than 4 bytes reaches no callback.  For a handle
    with its device info and a packet whose [actual_length] is within the
    buffer: a class-1 packet shorter than 5 bytes, or with originator 0, or
    with a non-zero event, or whose originator is neither the id of a
    retained input terminal nor of a retained processing unit, reaches no
    callback; a class-1 packet that is not dropped by those tests and whose
    originator is the [bTerminalID] of a retained input terminal makes one
    call, of the callback registered in the handle, with class CAMERA, event
    byte 2, selector byte 3, attribute byte 4, the bytes 5 .. [actual_length]
    as data and [actual_length - 5] as their length. *)
Theorem status_packet_dispatch :
  forall (unknown : Z) (devh : uvc_device_handle) (transfer : libusb_transfer),
    (actual_length transfer < 4 ->
     uvc_process_status_xfer unknown devh transfer = Ok []) /\
    forall the_info : uvc_device_info,
      info devh = Some the_info ->
      transfer_wf transfer ->
      status_class_tag transfer = 1 ->
      let originator := byte_at (buffer transfer) 1 in
      let event := byte_at (buffer transfer) 2 in
      let known_terminal :=
        exists t, In t (input_term_descs (ctrl_if the_info))
                  /\ it_bTerminalID t = originator in
      let known_unit :=
        exists u, In u (processing_unit_descs (ctrl_if the_info))
                  /\ pu_bUnitID u = originator in
      (actual_length transfer < 5 \/ originator = 0 \/ event <> 0
       \/ (~ known_terminal /\ ~ known_unit) ->
       uvc_process_status_xfer unknown devh transfer = Ok []) /\
      (forall cb : uvc_status_callback_t,
         status_cb devh = Some cb ->
         5 <= actual_length transfer -> originator <> 0 -> event = 0 ->
         known_terminal ->
         uvc_process_status_xfer unknown devh transfer
         = Ok [status_cb_call cb
                 {| cb_status_class := Some UVC_STATUS_CLASS_CONTROL_CAMERA;
                    cb_event := byte_at (buffer transfer) 2;
                    cb_selector := byte_at (buffer transfer) 3;
                    cb_attribute := byte_at (buffer transfer) 4;
                    cb_data :=
                      Some (bytes_at (buffer transfer) 5
                              (Z.to_nat (actual_length transfer) - 5));
                    cb_data_len := actual_length transfer - 5;
                    cb_user_ptr := status_user_ptr devh |}]).
Proof.
  intros unknown devh transfer. split.
  { intro Hshort. unfold uvc_process_status_xfer.
    replace (actual_length transfer <? 4) with true
      by (symmetry; apply Z.ltb_lt; assumption).
    reflexivity. }
  intros the_info Hinfo Hwf Htag originator event known_terminal known_unit.
  rewrite (uvc_process_status_xfer_cases unknown devh the_info transfer Hinfo Hwf).
  rewrite Htag. cbn [Z.eqb Pos.eqb].
  pose proof (known_terminal_iff the_info originator) as Hterm.
  pose proof (known_unit_iff the_info originator) as Hunit.
  fold originator. fold event. fold known_terminal in Hterm.
  fold known_unit in Hunit.
  destruct (Z.ltb_spec (actual_length transfer) 4) as [Hlt4|Hge4].
  { split; [reflexivity | intros; lia]. }
  destruct (Z.ltb_spec (actual_length transfer) 5) as [Hlt5|Hge5]; cbn [orb].
  { split; [reflexivity | intros; lia]. }
  destruct (Z.eqb_spec originator 0) as [Ho|Ho]; cbn [orb].
  { split; [reflexivity | intros; contradiction]. }
  destruct (Z.eqb_spec event 0) as [He|He]; cbn [negb orb].
  2:{ split; [reflexivity | intros; contradiction]. }
  destruct (existsb (fun t => it_bTerminalID t =? originator)
              (input_term_descs (ctrl_if the_info))) eqn:Eterm.
  - cbn [orb negb]. split.
    + intros [H|[H|[H|[H _]]]]; try lia; try contradiction.
      exfalso. apply H, Hterm. reflexivity.
    + intros cb Hcb _ _ _ _. unfold call_status_cb. rewrite Hcb. reflexivity.
  - cbn [orb]. split.
    + intros [H|[H|[H|[_ H]]]]; try lia; try contradiction.
      destruct (existsb (fun u => pu_bUnitID u =? originator)
                  (processing_unit_descs (ctrl_if the_info)));
        [|reflexivity].
      exfalso. apply H, Hunit. reflexivity.
    + intros cb Hcb _ _ _ Hk. apply Hterm in Hk. discriminate.
Qed.

Lemma status_packet_dispatch_witness :
  uvc_process_status_xfer 255 two_terminal_handle
    (packet LIBUSB_TRANSFER_COMPLETED [0x01; 0x02; 0x00; 0x05; 0xAA; 0xDD; 0xEE])
  = Ok [status_cb_call 1%positive
          {| cb_status_class := Some UVC_STATUS_CLASS_CONTROL_CAMERA;
             cb_event := 0; cb_selector := 5; cb_attribute := 0xAA;
             cb_data := Some [0xDD; 0xEE]; cb_data_len := 2;
             cb_user_ptr := 7 |}].
Proof.
  destruct (status_packet_dispatch 255 two_terminal_handle
              (packet LIBUSB_TRANSFER_COMPLETED
                 [0x01; 0x02; 0x00; 0x05; 0xAA; 0xDD; 0xEE])) as [_ H].
  destruct (H _ eq_refl) as [_ Hcall].
  - unfold transfer_wf. cbn. lia.
  - reflexivity.
  - apply (Hcall 1%positive).
    + reflexivity.
    + cbn. lia.
    + vm_compute. discriminate.
    + reflexivity.
    + exists (terminal 2). split; [cbn; auto | reflexivity].
Defined.

(** The packets of the spec's scenario that reach no callback: originator 0,
    and originator 99, which no entity has. *)
Example status_packet_originator_0 :
  uvc_process_status_xfer 255 two_terminal_handle
    (packet LIBUSB_TRANSFER_COMPLETED [0x01; 0x00; 0x00; 0x05; 0xAA]) = Ok [].
Proof. reflexivity. Qed.

Example status_packet_originator_99 :
  uvc_process_status_xfer 255 two_terminal_handle
    (packet LIBUSB_TRANSFER_COMPLETED [0x01; 99; 0x00; 0x05; 0xAA]) = Ok [].
Proof. reflexivity. Qed.



(** The statuses the [switch] does not name (TIMED_OUT, STALL, OVERFLOW) fall
    through it: the packet is not looked at and the transfer is
    resubmitted. *)
Lemma status_callback_other_statuses unknown devh transfer :
  status transfer = LIBUSB_TRANSFER_TIMED_OUT
  \/ status transfer = LIBUSB_TRANSFER_STALL
  \/ status transfer = LIBUSB_TRANSFER_OVERFLOW ->
  _uvc_status_callback unknown devh transfer = Ok [resubmit].
Proof.
  unfold _uvc_status_callback. intros [-> | [-> | ->]]; reflexivity.
Qed.

(** C10.  A packet of at least 4 bytes (within the buffer) whose class tag is
    neither 1 nor 2 falls through the switch and reaches the call of the
    callback registered in the handle, with a [status_class] that was never
    assigned, event 0, selector 0, attribute UNKNOWN, null data and
    length 0. *)
Theorem status_unknown_class_reaches_callback :
  forall (unknown : Z) (devh : uvc_device_handle) (cb : uvc_status_callback_t)
         (transfer : libusb_transfer),
    status_cb devh = Some cb ->
    transfer_wf transfer ->
    4 <= actual_length transfer ->
    status_class_tag transfer <> 1 ->
    status_class_tag transfer <> 2 ->
    uvc_process_status_xfer unknown devh transfer
    = Ok [status_cb_call cb
            {| cb_status_class := None;
               cb_event := 0; cb_selector := 0;
               cb_attribute := unknown;
               cb_data := None; cb_data_len := 0;
               cb_user_ptr := status_user_ptr devh |}].
Proof.
  intros unknown devh cb transfer Hcb Hwf Hlen H1 H2.
  unfold uvc_process_status_xfer.
  replace (actual_length transfer <? 4) with false
    by (symmetry; apply Z.ltb_ge; assumption).
  destruct (status_first_reads transfer Hwf Hlen) as [-> ->]. cbn [bind].
  unfold status_class_tag in H1, H2.
  replace (Z.land (byte_at (buffer transfer) 0) 15 =? 1) with false
    by (symmetry; apply Z.eqb_neq; assumption).
  replace (Z.land (byte_at (buffer transfer) 0) 15 =? 2) with false
    by (symmetry; apply Z.eqb_neq; assumption).
  unfold call_status_cb. rewrite Hcb. reflexivity.
Qed.

Lemma status_unknown_class_reaches_callback_witness :
  uvc_process_status_xfer 255 two_terminal_handle
    (packet LIBUSB_TRANSFER_COMPLETED [0x03; 0x02; 0x00; 0x05])
  = Ok [status_cb_call 1%positive
          {| cb_status_class := None;
             cb_event := 0; cb_selector := 0; cb_attribute := 255;
             cb_data := None; cb_data_len := 0; cb_user_ptr := 7 |}].
Proof.
  apply (status_unknown_class_reaches_callback 255 two_terminal_handle
           1%positive
           (packet LIBUSB_TRANSFER_COMPLETED [0x03; 0x02; 0x00; 0x05])).
  - reflexivity.
  - unfold transfer_wf. cbn. lia.
  - cbn. lia.
  - vm_compute. discriminate.
  - vm_compute. discriminate.
Defined.

(** On a handle in which no callback is registered, a packet that reaches the
    call is a call through a null pointer, and the completion handler does
    not get to the resubmission. *)
Lemma status_call_without_callback unknown devh transfer :
  status_cb devh = None ->
  transfer_wf transfer ->
  4 <= actual_length transfer ->
  status_class_tag transfer <> 1 ->
  status_class_tag transfer <> 2 ->
  uvc_process_status_xfer unknown devh transfer = Undef /\
  (status transfer = LIBUSB_TRANSFER_COMPLETED ->
   _uvc_status_callback unknown devh transfer = Undef).
Proof.
  intros Hcb Hwf Hlen H1 H2.
  assert (uvc_process_status_xfer unknown devh transfer = Undef) as Hrun.
  { unfold uvc_process_status_xfer.
    replace (actual_length transfer <? 4) with false
      by (symmetry; apply Z.ltb_ge; assumption).
    destruct (status_first_reads transfer Hwf Hlen) as [-> ->]. cbn [bind].
    unfold status_class_tag in H1, H2.
    replace (Z.land (byte_at (buffer transfer) 0) 15 =? 1) with false
      by (symmetry; apply Z.eqb_neq; assumption).
    replace (Z.land (byte_at (buffer transfer) 0) 15 =? 2) with false
      by (symmetry; apply Z.eqb_neq; assumption).
    unfold call_status_cb. rewrite Hcb. reflexivity. }
  split; [exact Hrun|].
  intro Hst. unfold _uvc_status_callback. rewrite Hst, Hrun. reflexivity.
Qed.

(** ** The open path *)

Lemma same_device_state_refl w : same_device_state w w.
Proof. repeat split. Qed.

(** [uvc_get_device_info] either fails, leaving the heap as it found it, or
    succeeds, holding one info block more. *)
Lemma uvc_get_device_info_world fuel w ret got w' :
  uvc_get_device_info fuel w = Ok (ret, got, w') ->
  same_device_state w w' /\ claimed w' = claimed w /\
  exists calls,
    log w' = log w ++ calls /\ forallb is_setup_call calls = true /\
    ((got = None /\ ret <> UVC_SUCCESS /\ heap w' = heap w) \/
     (exists the_info,
         got = Some the_info /\ ret = UVC_SUCCESS /\
         heap w' = blk_info :: heap w /\
         exists cfg,
           usb_config0 (usb_dev (dev w)) = Some cfg /\
           uvc_scan_control fuel (empty_info cfg) = Ok (UVC_SUCCESS, the_info))).
Proof.
  unfold uvc_get_device_info. intro H.
  destruct (calloc_info_ok (usb_dev (dev w))); cbn [negb] in H.
  2:{ inversion H; subst. split; [apply same_device_state_refl|].
      split; [reflexivity|]. exists []. rewrite app_nil_r.
      repeat split. left. repeat split. discriminate. }
  cbn [alloc set_heap dev usb_dev] in H.
  destruct (usb_config0 (usb_dev (dev w))) as [cfg|].
  2:{ inversion H; subst. split; [repeat split|]. split; [reflexivity|].
      exists [free_info]. repeat split. left. repeat split. discriminate. }
  fold (empty_info cfg) in H.
  destruct (uvc_scan_control fuel (empty_info cfg)) as [[e i]| |] eqn:Escan;
    cbn [bind] in H; try discriminate.
  destruct e; cbn [is_success negb] in H; inversion H; subst;
    (split; [repeat split|]); (split; [reflexivity|]);
    try (exists [free_info]; repeat split; left; repeat split; discriminate).
  exists []. rewrite app_nil_r. repeat split.
  right. exists i. repeat split. exists cfg. split; [reflexivity | exact Escan].
Qed.

(** Case analysis on every test of a hypothesis. *)
Ltac break_tests H :=
  repeat match type of H with
         | context [if ?b then _ else _] => destruct b eqn:?; cbn in H
         end.

Lemma uvc_claim_ifs_world w ret w' :
  uvc_claim_ifs w = (ret, w') ->
  same_device_state w w' /\ heap w' = heap w /\
  exists calls, log w' = log w ++ calls /\ forallb is_setup_call calls = true.
Proof.
  unfold uvc_claim_ifs, claim. intro H. cbn in H.
  break_tests H; inversion H; subst; cbn;
    (split; [repeat split|]); (split; [reflexivity|]);
    rewrite <- ?app_assoc; cbn [app];
    try (exists []; rewrite app_nil_r; split; reflexivity);
    eexists; split; reflexivity.
Qed.

Lemma released_not_claimed (l : list Z) :
  ~ In 0 (filter (fun i => negb (i =? 1)) (filter (fun i => negb (i =? 0)) l)) /\
  ~ In 1 (filter (fun i => negb (i =? 1)) (filter (fun i => negb (i =? 0)) l)).
Proof.
  rewrite !filter_In. split.
  - intros [[_ A] _]. discriminate.
  - intros [_ A]. discriminate.
Qed.

(** The code under [fail:], started in a world [w2] that holds what
    [uvc_open] has taken so far. *)
Lemma uvc_open_fail_rolls_back w w2 ret internal_devh setup :
  open_devices w2 = open_devices w ->
  ref (dev w2) = ref (dev w) + 1 ->
  dev_freed w2 = dev_freed w ->
  usb_refs w2 = usb_refs w + 1 ->
  usb_handles w2 = usb_handles w + 1 ->
  heap w2 = (if status_xfer internal_devh then [blk_xfer] else [])
            ++ (match info internal_devh with Some _ => [blk_info] | None => [] end)
            ++ blk_devh :: heap w ->
  log w2 = log w ++ [libusb_open; libusb_ref_device] ++ setup ->
  forallb is_setup_call setup = true ->
  fst (uvc_open_fail ret internal_devh w2) = (ret, None) /\
  rolled_back w (snd (uvc_open_fail ret internal_devh w2)).
Proof.
  intros Hopen Href Hfreed Hrefs Hhandles Hheap Hlog Hsetup.
  split; [reflexivity|].
  remember ((if ref (dev w2) - 1 =? 0 then [free_dev] else [])
            ++ (match info internal_devh with Some _ => [free_info] | None => [] end)
            ++ (if status_xfer internal_devh then [libusb_free_transfer] else []))
    as frees eqn:Hfrees.
  unfold rolled_back, uvc_open_fail, uvc_free_devh, uvc_free_device_info,
    uvc_unref_device, uvc_release_ifs.
  cbn [snd].
  destruct (info internal_devh), (status_xfer internal_devh);
    cbn [app] in Hheap; cbn;
    destruct (ref (dev w2) - 1 =? 0) eqn:Ezero; cbn;
    rewrite ?Hheap; cbn;
    (split; [assumption|]); (split; [lia|]); (split; [lia|]);
    (split; [lia|]); (split; [reflexivity|]);
    (split; [apply released_not_claimed|]);
    (split; [apply released_not_claimed|]);
    (split; [intro; try assumption; apply Z.eqb_eq in Ezero; lia|]);
    exists setup, frees; rewrite Hlog, Hfrees, <- ?app_assoc; cbn [app];
    (split; [reflexivity|]); (split; [assumption | reflexivity]).
Qed.

(** The world in which [uvc_open] starts to build the handle: the USB handle
    is open, the device is referenced, the handle struct is allocated. *)
Lemma uvc_open_unfold fuel w :
  usb_open_result (usb_dev (dev w)) = UVC_SUCCESS ->
  exists w1,
    open_devices w1 = open_devices w /\
    dev w1 = {| usb_dev := usb_dev (dev w); ref := ref (dev w) + 1 |} /\
    dev_freed w1 = dev_freed w /\
    usb_refs w1 = usb_refs w + 1 /\
    usb_handles w1 = usb_handles w + 1 /\
    heap w1 = blk_devh :: heap w /\
    log w1 = log w ++ [libusb_open; libusb_ref_device] /\
    uvc_open fuel w =
    ('(ret, got_info, w) <- uvc_get_device_info fuel w1 ;;
     let isight := (usb_idVendor (usb_dev (dev w1)) =? 0x05ac)
                   && (usb_idProduct (usb_dev (dev w1)) =? 0x8501) in
     let devh0 := {| info := got_info; status_xfer := false;
                     is_isight := false; status_cb := None;
                     status_user_ptr := 0 |} in
     let devh1 := {| info := got_info; status_xfer := false;
                     is_isight := isight; status_cb := None;
                     status_user_ptr := 0 |} in
     let devh2 := {| info := got_info; status_xfer := true;
                     is_isight := isight; status_cb := None;
                     status_user_ptr := 0 |} in
     if negb (is_success ret) then Ok (uvc_open_fail ret devh0 w)
     else
       let '(ret, w) := uvc_claim_ifs w in
       if negb (is_success ret) then Ok (uvc_open_fail ret devh0 w)
       else
         match got_info with
         | None => Undef
         | Some the_info =>
             if negb (bEndpointAddress (ctrl_if the_info) =? 0) then
               if negb (usb_alloc_transfer_ok (usb_dev (dev w1)))
               then Ok (uvc_open_fail UVC_ERROR_NO_MEM devh1
                          (did libusb_alloc_transfer w))
               else if negb (is_success (usb_submit_result (usb_dev (dev w1))))
               then Ok (uvc_open_fail (usb_submit_result (usb_dev (dev w1))) devh2
                          (did libusb_submit_transfer
                             (alloc blk_xfer (did libusb_alloc_transfer w))))
               else Ok (usb_submit_result (usb_dev (dev w1)), Some devh2,
                        set_open_devices
                          (open_devices w ++ [devh2])
                          (did libusb_submit_transfer
                             (alloc blk_xfer (did libusb_alloc_transfer w))))
             else Ok (ret, Some devh1,
                      set_open_devices (open_devices w ++ [devh1]) w)
         end).
Proof.
  intro Hopen.
  exists (alloc blk_devh
            (uvc_ref_device
               (set_usb_handles (usb_handles (did libusb_open w) + 1)
                  (did libusb_open w)))).
  repeat (split; [try reflexivity|]).
  - cbn. rewrite <- app_assoc. reflexivity.
  - unfold uvc_open. rewrite Hopen. cbn [is_success negb].
    reflexivity.
Qed.

Lemma is_success_true e : is_success e = true -> e = UVC_SUCCESS.
Proof. destruct e; (reflexivity || discriminate). Qed.

Lemma is_success_false e : e <> UVC_SUCCESS -> is_success e = false.
Proof. destruct e; (reflexivity || congruence). Qed.

(** Closes a case of [uvc_open] that ends under [fail:], given the set-up
    calls made before it. *)
Ltac close_fail_case w setup :=
  match goal with
  | H : Ok (uvc_open_fail ?r ?d ?w2) = Ok (_, _, _) |- _ =>
      let Hfst := fresh "Hfst" in
      let Hrb := fresh "Hrb" in
      destruct (uvc_open_fail_rolls_back w w2 r d setup) as [Hfst Hrb];
      [ .. | destruct (uvc_open_fail r d w2) as [[? ?] ?];
             cbn [fst snd] in *; inversion H; inversion Hfst; subst;
             split; [reflexivity | exact Hrb] ]
  end.

(** A call of [uvc_open] that got its USB handle and returns an error
    publishes no handle and leaves a rolled-back world. *)
Lemma uvc_open_failure_world :
  forall (fuel : nat) (w w' : world) (ret : uvc_error_t)
         (devh : option uvc_device_handle),
    usb_open_result (usb_dev (dev w)) = UVC_SUCCESS ->
    uvc_open fuel w = Ok (ret, devh, w') ->
    ret <> UVC_SUCCESS ->
    devh = None /\ rolled_back w w'.
Proof.
  intros fuel w w' ret devh Hopen H Hret.
  destruct (uvc_open_unfold fuel w Hopen)
    as (w1 & Ho & Hd & Hf & Hr & Hh & Hheap & Hlog & Heq).
  rewrite Heq in H. clear Heq.
  destruct (uvc_get_device_info fuel w1) as [[[r got] w2]| |] eqn:Einfo;
    cbn [bind] in H; try discriminate.
  apply uvc_get_device_info_world in Einfo
    as ((Ho2 & Hd2 & Hf2 & Hr2 & Hh2) & _ & calls & Hlog2 & Hcalls & Hcase).
  cbv zeta in H.
  destruct Hcase as [(-> & Hne & Hheap2) | (i & -> & -> & Hheap2 & _)].
  - rewrite (is_success_false r Hne) in H.
    cbn [negb] in H.
    assert (ref (dev w2) = ref (dev w) + 1) as Href
        by (rewrite Hd2, Hd; reflexivity).
    assert (log w2 = log w ++ [libusb_open; libusb_ref_device] ++ calls)
      as Hlog4 by (rewrite Hlog2, Hlog, <- app_assoc; reflexivity).
    close_fail_case w calls; cbn;
      first [congruence | lia | exact Hlog4].
  - cbn [is_success negb] in H.
    destruct (uvc_claim_ifs w2) as [r2 w3] eqn:Eclaim.
    apply uvc_claim_ifs_world in Eclaim
      as ((Ho3 & Hd3 & Hf3 & Hr3 & Hh3) & Hheap3 & calls2 & Hlog3 & Hcalls2).
    assert (log w3 = log w ++ [libusb_open; libusb_ref_device] ++ calls ++ calls2)
      as Hlog4 by (rewrite Hlog3, Hlog2, Hlog, <- !app_assoc; reflexivity).
    assert (ref (dev w3) = ref (dev w) + 1) as Href
        by (rewrite Hd3, Hd2, Hd; reflexivity).
    assert (forallb is_setup_call (calls ++ calls2) = true) as Hcalls3
        by (rewrite forallb_app, Hcalls, Hcalls2; reflexivity).
    cbv zeta in H.
    destruct (is_success r2) eqn:Er2; cbn [negb] in H.
    + destruct (negb (bEndpointAddress (ctrl_if i) =? 0)).
      * destruct (usb_alloc_transfer_ok (usb_dev (dev w1))); cbn [negb] in H.
        -- destruct (is_success (usb_submit_result (usb_dev (dev w1)))) eqn:Es;
             cbn [negb] in H.
           ++ apply is_success_true in Es. inversion H; subst. congruence.
           ++ close_fail_case w
                (calls ++ calls2 ++ [libusb_alloc_transfer; libusb_submit_transfer]);
                cbn;
                first [ congruence | lia
                      | rewrite Hlog4, <- !app_assoc; reflexivity
                      | rewrite !forallb_app, Hcalls, Hcalls2; reflexivity ].
        -- close_fail_case w (calls ++ calls2 ++ [libusb_alloc_transfer]);
             cbn;
             first [ congruence | lia
                   | rewrite Hlog4, <- !app_assoc; reflexivity
                   | rewrite !forallb_app, Hcalls, Hcalls2; reflexivity ].
      * apply is_success_true in Er2. inversion H; subst. congruence.
    + close_fail_case w (calls ++ calls2); cbn;
        first [congruence | lia | exact Hlog4].
Qed.

(** C3.  If the USB handle was opened and [uvc_open] returns an error, then
    no handle is published, [ctx->open_devices] has no new entry and
    [dev->ref] has its value from before the call; the interfaces were
    released, the USB handle closed, the device unreferenced and the
    partially built handle freed, in that order, so that libusb's reference
    count, the number of open USB handles and the heap are also what they were
    ([rolled_back]). *)
Theorem uvc_open_failure_rolls_back :
  forall (fuel : nat) (w w' : world) (ret : uvc_error_t)
         (devh : option uvc_device_handle),
    usb_open_result (usb_dev (dev w)) = UVC_SUCCESS ->
    uvc_open fuel w = Ok (ret, devh, w') ->
    ret <> UVC_SUCCESS ->
    devh = None /\
    open_devices w' = open_devices w /\
    ref (dev w') = ref (dev w) /\
    rolled_back w w'.
Proof.
  intros fuel w w' ret devh Hopen H Hret.
  destruct (uvc_open_failure_world fuel w w' ret devh Hopen H Hret) as [Hnone Hrb].
  split; [exact Hnone|].
  pose proof Hrb as (Hlist & Href & _).
  split; [exact Hlist|]. split; [exact Href | exact Hrb].
Qed.

Lemma uvc_open_failure_rolls_back_witness :
  uvc_open 5 unsupported_camera_world
  = Ok (UVC_ERROR_NOT_SUPPORTED, None, world_after_open 5 unsupported_camera_world)
  /\ open_devices (world_after_open 5 unsupported_camera_world) = []
  /\ ref (dev (world_after_open 5 unsupported_camera_world)) = 1
  /\ rolled_back unsupported_camera_world
       (world_after_open 5 unsupported_camera_world).
Proof.
  assert (uvc_open 5 unsupported_camera_world
          = Ok (UVC_ERROR_NOT_SUPPORTED, None,
                world_after_open 5 unsupported_camera_world)) as Hrun
      by (vm_compute; reflexivity).
  split; [exact Hrun|].
  destruct (uvc_open_failure_rolls_back 5 unsupported_camera_world
              (world_after_open 5 unsupported_camera_world)
              UVC_ERROR_NOT_SUPPORTED None) as (_ & Hlist & Href & Hrb).
  - reflexivity.
  - exact Hrun.
  - discriminate.
  - split; [exact Hlist|]. split; [exact Href | exact Hrb].
Defined.

(** The calls of that failed open, in order. *)
Example unsupported_camera_log :
  log (world_after_open 5 unsupported_camera_world)
  = [libusb_open; libusb_ref_device; free_info;
     libusb_release_interface 0; libusb_release_interface 1;
     libusb_close; libusb_unref_device; free_devh].
Proof. reflexivity. Qed.

(** ** The UVC version *)

(** Case analysis on the steps of a computation that is known to return. *)
Ltac run_binds H :=
  repeat match type of H with
         | bind ?m _ = Ok _ => destruct m eqn:?; cbn [bind] in H; try discriminate
         | (if ?b then _ else _) = Ok _ => destruct b eqn:?
         | match ?p with (_, _) => _ end = Ok _ => destruct p
         end.

Lemma uvc_parse_vs_success stream_if buf block e stream_if' :
  uvc_parse_vs stream_if buf block = Ok (e, stream_if') -> e = UVC_SUCCESS.
Proof.
  unfold uvc_parse_vs, uvc_parse_vs_input_header,
    uvc_parse_vs_format_uncompressed, uvc_parse_vs_frame_uncompressed.
  intro H. run_binds H; inversion H; reflexivity.
Qed.

Lemma scan_streaming_loop_success buf :
  forall fuel stream_if buffer buffer_left e stream_if',
    scan_streaming_loop fuel stream_if buf buffer buffer_left
    = Ok (e, stream_if') ->
    e = UVC_SUCCESS.
Proof.
  induction fuel as [|fuel IH]; intros stream_if buffer buffer_left e stream_if' H;
    cbn [scan_streaming_loop] in H;
    destruct (3 <=? buffer_left); try discriminate;
    try (inversion H; reflexivity).
  destruct (rd buf buffer 0); cbn [bind] in H; try discriminate.
  destruct (uvc_parse_vs stream_if buf buffer) as [[pr si1]| |] eqn:Evs;
    cbn [bind] in H; try discriminate.
  apply uvc_parse_vs_success in Evs. subst pr. cbn [is_success] in H.
  exact (IH _ _ _ _ _ H).
Qed.

Lemma uvc_scan_streaming_ctrl_if fuel info idx e info' :
  uvc_scan_streaming fuel info idx = Ok (e, info') ->
  e = UVC_SUCCESS /\ ctrl_if info' = ctrl_if info.
Proof.
  unfold uvc_scan_streaming. intro H.
  destruct (nth_error (interface (config info)) (Z.to_nat idx)) as [itf|];
    try discriminate.
  destruct (altsetting itf) as [|if_desc rest]; try discriminate.
  destruct (scan_streaming_loop fuel _ (extra if_desc) 0 (extra_length if_desc))
    as [[r si]| |] eqn:Eloop; cbn [bind] in H; try discriminate.
  apply scan_streaming_loop_success in Eloop. inversion H; subst.
  split; reflexivity.
Qed.

Lemma vc_header_loop_ctrl_if fuel buf block :
  forall n i info e info',
    vc_header_loop fuel n i info buf block = Ok (e, info') ->
    e = UVC_SUCCESS /\ ctrl_if info' = ctrl_if info.
Proof.
  induction n as [|n IH]; intros i info e info' H; cbn [vc_header_loop] in H.
  - inversion H. split; reflexivity.
  - destruct (rd buf block i) as [idx| |]; cbn [bind] in H; try discriminate.
    destruct (uvc_scan_streaming fuel info idx) as [[r info1]| |] eqn:Escan;
      cbn [bind] in H; try discriminate.
    apply uvc_scan_streaming_ctrl_if in Escan as [-> Hctrl].
    cbn [is_success] in H.
    destruct (IH _ _ _ _ H) as [-> Hctrl']. split; congruence.
Qed.

(** The header parser records the little-endian u16 at offset 3; it answers
    NOT_SUPPORTED when that version is not supported, and never when it
    is. *)
Lemma uvc_parse_vc_header_version fuel info buf block block_size :
  (block + 4 < length buf)%nat ->
  (supported_bcdUVC (le16_at buf (block + 3)) = false ->
   uvc_parse_vc_header fuel info buf block block_size
   = Ok (UVC_ERROR_NOT_SUPPORTED, set_bcdUVC info (le16_at buf (block + 3)))) /\
  (supported_bcdUVC (le16_at buf (block + 3)) = true ->
   forall e info',
     uvc_parse_vc_header fuel info buf block block_size = Ok (e, info') ->
     e = UVC_SUCCESS /\ bcdUVC (ctrl_if info') = le16_at buf (block + 3)).
Proof.
  intro Hlen. unfold uvc_parse_vc_header.
  rewrite SW_TO_SHORT_in by lia. cbn [bind]. split; intro Hv; rewrite Hv.
  - reflexivity.
  - intros e info' H. apply vc_header_loop_ctrl_if in H as [-> Hctrl].
    split; [reflexivity|]. rewrite Hctrl. reflexivity.
Qed.

Lemma uvc_parse_vc_header_bcdUVC_ok fuel info buf block block_size info' :
  uvc_parse_vc_header fuel info buf block block_size = Ok (UVC_SUCCESS, info') ->
  bcdUVC_ok info'.
Proof.
  unfold uvc_parse_vc_header. intro H.
  destruct (SW_TO_SHORT buf block 3) as [v| |]; cbn [bind] in H; try discriminate.
  destruct (supported_bcdUVC v) eqn:Ev; [|discriminate].
  apply vc_header_loop_ctrl_if in H as [_ Hctrl].
  right. rewrite Hctrl. exact Ev.
Qed.

Lemma parse_entity_bcdUVC k info buf block r info' :
  parse_entity k info buf block = Ok (r, info') ->
  bcdUVC (ctrl_if info') = bcdUVC (ctrl_if info).
Proof.
  destruct k; cbn [parse_entity];
    unfold uvc_parse_vc_input_terminal, uvc_parse_vc_processing_unit,
      uvc_parse_vc_extension_unit;
    intro H; run_binds H; inversion H; reflexivity.
Qed.

Lemma uvc_parse_vc_bcdUVC_ok fuel info buf block block_size info' :
  uvc_parse_vc fuel info buf block block_size = Ok (Returned UVC_SUCCESS, info') ->
  bcdUVC_ok info -> bcdUVC_ok info'.
Proof.
  unfold uvc_parse_vc. intros H Hok.
  destruct (rd buf block 1) as [b1| |]; cbn [bind] in H; try discriminate.
  destruct (negb (b1 =? 36)); [inversion H; subst; exact Hok|].
  destruct (rd buf block 2) as [sub| |]; cbn [bind] in H; try discriminate.
  destruct (sub =? UVC_VC_HEADER).
  { unfold lift_ret in H.
    destruct (uvc_parse_vc_header fuel info buf block block_size)
      as [[e i]| |] eqn:Eh; cbn [bind] in H; try discriminate.
    inversion H; subst. exact (uvc_parse_vc_header_bcdUVC_ok _ _ _ _ _ _ Eh). }
  destruct (sub =? UVC_VC_INPUT_TERMINAL).
  { apply (parse_entity_bcdUVC input_terminal) in H.
    unfold bcdUVC_ok. rewrite H. exact Hok. }
  destruct (sub =? UVC_VC_OUTPUT_TERMINAL); [inversion H; subst; exact Hok|].
  destruct (sub =? UVC_VC_SELECTOR_UNIT); [inversion H; subst; exact Hok|].
  destruct (sub =? UVC_VC_PROCESSING_UNIT).
  { apply (parse_entity_bcdUVC processing_unit) in H.
    unfold bcdUVC_ok. rewrite H. exact Hok. }
  destruct (sub =? UVC_VC_EXTENSION_UNIT).
  { apply (parse_entity_bcdUVC extension_unit) in H.
    unfold bcdUVC_ok. rewrite H. exact Hok. }
  discriminate.
Qed.

Lemma scan_control_loop_bcdUVC_ok buf :
  forall fuel info buffer buffer_left info',
    scan_control_loop fuel info buf buffer buffer_left = Ok (UVC_SUCCESS, info') ->
    bcdUVC_ok info -> bcdUVC_ok info'.
Proof.
  induction fuel as [|fuel IH]; intros info buffer buffer_left info' H Hok;
    cbn [scan_control_loop] in H;
    destruct (3 <=? buffer_left); try discriminate;
    try (inversion H; subst; exact Hok).
  destruct (rd buf buffer 0) as [block_size| |]; cbn [bind] in H;
    try discriminate.
  destruct (uvc_parse_vc (S fuel) info buf buffer block_size)
    as [[[e|] info1]| |] eqn:Evc; cbn [bind] in H; try discriminate.
  destruct (is_success e) eqn:Ee.
  - apply is_success_true in Ee. subst e.
    apply (IH _ _ _ _ H).
    exact (uvc_parse_vc_bcdUVC_ok _ _ _ _ _ _ Evc Hok).
  - inversion H; subst. discriminate.
Qed.

Lemma uvc_scan_control_bcdUVC_ok fuel cfg info' :
  uvc_scan_control fuel (empty_info cfg) = Ok (UVC_SUCCESS, info') ->
  bcdUVC_ok info'.
Proof.
  unfold uvc_scan_control. intro H.
  destruct (find_control_if (interface (config (empty_info cfg)))) as [[d|]| |];
    cbn [bind] in H; try discriminate.
  apply scan_control_loop_bcdUVC_ok in H; [exact H|].
  left. destruct (endpoint d); reflexivity.
Qed.

(** When the USB handle cannot be opened, that error is the answer. *)
Lemma uvc_open_not_opened fuel w :
  is_success (usb_open_result (usb_dev (dev w))) = false ->
  uvc_open fuel w = Ok (usb_open_result (usb_dev (dev w)), None, did libusb_open w).
Proof. intro H. unfold uvc_open. rewrite H. reflexivity. Qed.

Lemma uvc_open_fail_result ret internal_devh w :
  uvc_open_fail ret internal_devh w
  = (ret, None, snd (uvc_open_fail ret internal_devh w)).
Proof. reflexivity. Qed.

(** In a hypothesis about a run that ended under [fail:], keeps the answer
    and forgets how the world was computed. *)
Ltac forget_fail_world H :=
  rewrite uvc_open_fail_result in H;
  match type of H with
  | context [snd ?x] =>
      let wf := fresh "wf" in set (wf := snd x) in H; clearbody wf
  end.

(** A successful [uvc_open] publishes a handle whose info was built by a
    successful [uvc_scan_control]. *)
Lemma uvc_open_success_info fuel w devh w' :
  uvc_open fuel w = Ok (UVC_SUCCESS, devh, w') ->
  exists h the_info cfg,
    devh = Some h /\ info h = Some the_info /\
    uvc_scan_control fuel (empty_info cfg) = Ok (UVC_SUCCESS, the_info).
Proof.
  intro H.
  destruct (is_success (usb_open_result (usb_dev (dev w)))) eqn:Eopen.
  2:{ rewrite (uvc_open_not_opened fuel w Eopen) in H.
      injection H as Hret _ _. rewrite Hret in Eopen. discriminate. }
  apply is_success_true in Eopen.
  destruct (uvc_open_unfold fuel w Eopen) as (w1 & _ & _ & _ & _ & _ & _ & _ & Heq).
  rewrite Heq in H. clear Heq.
  destruct (uvc_get_device_info fuel w1) as [[[r got] w2]| |] eqn:Einfo;
    cbn [bind] in H; try discriminate.
  apply uvc_get_device_info_world in Einfo
    as (_ & _ & calls & _ & _ & Hcase).
  cbv zeta in H.
  destruct Hcase as [(-> & Hne & _) | (i & -> & -> & _ & cfg & _ & Hscan)].
  - rewrite (is_success_false r Hne) in H.
    cbn [negb] in H.
    forget_fail_world H. injection H as Hret _ _. congruence.
  - cbn [is_success negb] in H.
    destruct (uvc_claim_ifs w2) as [r2 w3].
    destruct (is_success r2) eqn:Er2; cbn [negb] in H.
    2:{ forget_fail_world H. injection H as Hret _ _.
        rewrite Hret in Er2. discriminate. }
    destruct (negb (bEndpointAddress (ctrl_if i) =? 0)).
    + destruct (usb_alloc_transfer_ok (usb_dev (dev w1))); cbn [negb] in H.
      2:{ forget_fail_world H. discriminate. }
      destruct (is_success (usb_submit_result (usb_dev (dev w1)))) eqn:Es;
        cbn [negb] in H.
      * injection H as _ Hd _. subst devh. eexists. exists i, cfg.
        split; [reflexivity|]. split; [reflexivity | exact Hscan].
      * forget_fail_world H. injection H as Hret _ _.
        rewrite Hret in Es. discriminate.
    + injection H as _ Hd _. subst devh. eexists. exists i, cfg.
      split; [reflexivity|]. split; [reflexivity | exact Hscan].
Qed.

(** The walk stops with NOT_SUPPORTED at a header block whose version is not
    supported. *)
Lemma scan_control_loop_unsupported_header fuel info buf buffer buffer_left :
  3 <= buffer_left ->
  (buffer + 4 < length buf)%nat ->
  byte_at buf (buffer + 1) = 36 ->
  byte_at buf (buffer + 2) = UVC_VC_HEADER ->
  supported_bcdUVC (le16_at buf (buffer + 3)) = false ->
  scan_control_loop (S fuel) info buf buffer buffer_left
  = Ok (UVC_ERROR_NOT_SUPPORTED, set_bcdUVC info (le16_at buf (buffer + 3))).
Proof.
  intros Hleft Hlen Hcs Hsub Hv.
  cbn [scan_control_loop].
  replace (3 <=? buffer_left) with true by (symmetry; apply Z.leb_le; lia).
  rewrite rd_in by lia. cbn [bind].
  unfold uvc_parse_vc. rewrite !rd_in by lia. cbn [bind].
  rewrite Hcs, Hsub. cbn [Z.eqb Pos.eqb negb UVC_VC_HEADER].
  destruct (uvc_parse_vc_header_version (S fuel) info buf buffer
              (byte_at buf (buffer + 0)) Hlen) as [Hbad _].
  rewrite (Hbad Hv). reflexivity.
Qed.

(** An error of the descriptor walk is the answer of [uvc_open]. *)
Lemma uvc_open_scan_error fuel w cfg e i :
  usb_open_result (usb_dev (dev w)) = UVC_SUCCESS ->
  calloc_info_ok (usb_dev (dev w)) = true ->
  usb_config0 (usb_dev (dev w)) = Some cfg ->
  uvc_scan_control fuel (empty_info cfg) = Ok (e, i) ->
  e <> UVC_SUCCESS ->
  exists w', uvc_open fuel w = Ok (e, None, w').
Proof.
  intros Hopen Hcalloc Hcfg Hscan He.
  destruct (uvc_open_unfold fuel w Hopen)
    as (w1 & _ & Hd & _ & _ & _ & _ & _ & Heq).
  rewrite Heq. clear Heq.
  assert (exists w2, uvc_get_device_info fuel w1 = Ok (e, None, w2))
    as [w2 Hinfo].
  { unfold uvc_get_device_info. rewrite Hd. cbn [usb_dev].
    rewrite Hcalloc. cbn [negb alloc set_heap dev].
    rewrite Hd. cbn [usb_dev]. rewrite Hcfg.
    fold (empty_info cfg). rewrite Hscan. cbn [bind].
    rewrite (is_success_false e He). cbn [negb]. eexists. reflexivity. }
  rewrite Hinfo. cbn [bind]. cbv zeta.
  rewrite (is_success_false e He). cbn [negb]. eexists. reflexivity.
Qed.

(** A device whose first VideoControl block is a header with a version that
    is not supported cannot be opened: [uvc_open] answers NOT_SUPPORTED. *)
Lemma uvc_open_unsupported_header fuel w cfg d :
  usb_open_result (usb_dev (dev w)) = UVC_SUCCESS ->
  calloc_info_ok (usb_dev (dev w)) = true ->
  usb_config0 (usb_dev (dev w)) = Some cfg ->
  find_control_if (interface cfg) = Ok (Some d) ->
  (4 < length (extra d))%nat ->
  byte_at (extra d) 1 = 36 ->
  byte_at (extra d) 2 = UVC_VC_HEADER ->
  supported_bcdUVC (le16_at (extra d) 3) = false ->
  exists w', uvc_open (S fuel) w = Ok (UVC_ERROR_NOT_SUPPORTED, None, w').
Proof.
  intros Hopen Hcalloc Hcfg Hfind Hlen Hcs Hsub Hv.
  eapply uvc_open_scan_error; try eassumption; [|discriminate].
  unfold uvc_scan_control. cbn [empty_info config]. rewrite Hfind. cbn [bind].
  apply scan_control_loop_unsupported_header;
    [unfold extra_length; lia | cbn; lia | exact Hcs | exact Hsub | exact Hv].
Qed.

(** C8 (amended).  The header parser records bcdUVC as the little-endian u16
    at offset 3 and answers NOT_SUPPORTED exactly when that value is not one
    of 0x0100, 0x010A, 0x0110 (otherwise it answers success whenever it
    returns).  The walk stops with that error at such a block, and an error of
    the walk is the answer of [uvc_open]; so a device whose first
    VideoControl block is such a header cannot be opened.  The handle of a
    successful open has a bcdUVC that is one of the three, or 0.  (0 is what
    is left when no header block was parsed.) *)
Theorem bcdUVC_whitelist :
  forall fuel : nat,
    (forall info buf block block_size,
        (block + 4 < length buf)%nat ->
        (supported_bcdUVC (le16_at buf (block + 3)) = false ->
         uvc_parse_vc_header fuel info buf block block_size
         = Ok (UVC_ERROR_NOT_SUPPORTED,
               set_bcdUVC info (le16_at buf (block + 3)))) /\
        (supported_bcdUVC (le16_at buf (block + 3)) = true ->
         forall e info',
           uvc_parse_vc_header fuel info buf block block_size = Ok (e, info') ->
           e = UVC_SUCCESS /\ bcdUVC (ctrl_if info') = le16_at buf (block + 3))) /\
    (forall info buf buffer buffer_left,
        3 <= buffer_left ->
        (buffer + 4 < length buf)%nat ->
        byte_at buf (buffer + 1) = 36 ->
        byte_at buf (buffer + 2) = UVC_VC_HEADER ->
        supported_bcdUVC (le16_at buf (buffer + 3)) = false ->
        scan_control_loop (S fuel) info buf buffer buffer_left
        = Ok (UVC_ERROR_NOT_SUPPORTED,
              set_bcdUVC info (le16_at buf (buffer + 3)))) /\
    (forall w cfg e i,
        usb_open_result (usb_dev (dev w)) = UVC_SUCCESS ->
        calloc_info_ok (usb_dev (dev w)) = true ->
        usb_config0 (usb_dev (dev w)) = Some cfg ->
        uvc_scan_control fuel (empty_info cfg) = Ok (e, i) ->
        e <> UVC_SUCCESS ->
        exists w', uvc_open fuel w = Ok (e, None, w')) /\
    (forall w cfg d,
        usb_open_result (usb_dev (dev w)) = UVC_SUCCESS ->
        calloc_info_ok (usb_dev (dev w)) = true ->
        usb_config0 (usb_dev (dev w)) = Some cfg ->
        find_control_if (interface cfg) = Ok (Some d) ->
        (4 < length (extra d))%nat ->
        byte_at (extra d) 1 = 36 ->
        byte_at (extra d) 2 = UVC_VC_HEADER ->
        supported_bcdUVC (le16_at (extra d) 3) = false ->
        exists w', uvc_open (S fuel) w = Ok (UVC_ERROR_NOT_SUPPORTED, None, w')) /\
    (forall w devh w',
        uvc_open fuel w = Ok (UVC_SUCCESS, devh, w') ->
        exists h the_info,
          devh = Some h /\ info h = Some the_info /\
          (bcdUVC (ctrl_if the_info) = 0
           \/ supported_bcdUVC (bcdUVC (ctrl_if the_info)) = true)).
Proof.
  intro fuel. split; [|split; [|split; [|split]]].
  - intros info buf block block_size Hlen.
    exact (uvc_parse_vc_header_version fuel info buf block block_size Hlen).
  - intros info buf buffer buffer_left.
    apply scan_control_loop_unsupported_header.
  - intros w cfg e i. apply uvc_open_scan_error.
  - intros w cfg d. apply uvc_open_unsupported_header.
  - intros w devh w' H.
    apply uvc_open_success_info in H as (h & i & cfg & -> & Hinfo & Hscan).
    exists h, i. split; [reflexivity|]. split; [exact Hinfo|].
    exact (uvc_scan_control_bcdUVC_ok _ _ _ Hscan).
Qed.

Lemma bcdUVC_whitelist_witness :
  (exists w', uvc_open 1 unsupported_camera_world
              = Ok (UVC_ERROR_NOT_SUPPORTED, None, w')) /\
  (exists h the_info,
      handle_after_open 5 uvc11_camera_world = Some h /\
      info h = Some the_info /\
      (bcdUVC (ctrl_if the_info) = 0
       \/ supported_bcdUVC (bcdUVC (ctrl_if the_info)) = true)).
Proof.
  destruct (bcdUVC_whitelist 0) as (_ & _ & _ & Hfail & _).
  destruct (bcdUVC_whitelist 5) as (_ & _ & _ & _ & Hok).
  split.
  - apply (Hfail unsupported_camera_world
             (config_of [control_if_desc (bytes (header_block 0x0200));
                         streaming_if_desc []])
             (control_if_desc (bytes (header_block 0x0200)))).
    + reflexivity.
    + reflexivity.
    + reflexivity.
    + reflexivity.
    + vm_compute. lia.
    + vm_compute. reflexivity.
    + vm_compute. reflexivity.
    + vm_compute. reflexivity.
  - apply (Hok uvc11_camera_world _ (world_after_open 5 uvc11_camera_world)).
    vm_compute. reflexivity.
Defined.

(** C8, the consequence as stated fails: a camera whose VideoControl
    interface has no header block is opened with success, and the handle has
    bcdUVC 0, which is not in the supported set. *)
Lemma open_without_header_counterexample :
  uvc_open 1 headerless_camera_world
  = Ok (UVC_SUCCESS, handle_after_open 1 headerless_camera_world,
        world_after_open 1 headerless_camera_world) /\
  info_bcdUVC (handle_after_open 1 headerless_camera_world) = Some 0 /\
  supported_bcdUVC 0 = false.
Proof. split; [|split]; vm_compute; reflexivity. Qed.

(** The same camera with a UVC 1.1 header: the handle has bcdUVC 0x0110. *)
Example open_with_header_uvc11 :
  info_bcdUVC (handle_after_open 5 uvc11_camera_world) = Some 0x0110.
Proof. vm_compute. reflexivity. Qed.

(** ** Totality of the open path *)

(** Apart from the descriptor walk, nothing in [uvc_open] can fail to return:
    whenever [uvc_scan_control] returns on the device's configuration,
    [uvc_open] returns an answer. *)
Lemma uvc_open_returns fuel w :
  (forall cfg, usb_config0 (usb_dev (dev w)) = Some cfg ->
               exists r, uvc_scan_control fuel (empty_info cfg) = Ok r) ->
  exists r, uvc_open fuel w = Ok r.
Proof.
  intro Hscan.
  destruct (is_success (usb_open_result (usb_dev (dev w)))) eqn:Eopen.
  2:{ rewrite (uvc_open_not_opened fuel w Eopen). eexists. reflexivity. }
  apply is_success_true in Eopen.
  destruct (uvc_open_unfold fuel w Eopen)
    as (w1 & _ & Hd & _ & _ & _ & _ & _ & Heq).
  rewrite Heq. clear Heq.
  assert (exists r, uvc_get_device_info fuel w1 = Ok r) as [[[r got] w2] Hinfo].
  { unfold uvc_get_device_info. rewrite Hd. cbn [usb_dev].
    destruct (calloc_info_ok (usb_dev (dev w))); cbn [negb];
      [|eexists; reflexivity].
    cbn [alloc set_heap dev]. rewrite Hd. cbn [usb_dev].
    destruct (usb_config0 (usb_dev (dev w))) as [cfg|] eqn:Ecfg;
      [|eexists; reflexivity].
    destruct (Hscan cfg eq_refl) as [[e i] Hrun].
    fold (empty_info cfg). rewrite Hrun. cbn [bind].
    destruct (negb (is_success e)); eexists; reflexivity. }
  rewrite Hinfo. cbn [bind]. cbv zeta.
  apply uvc_get_device_info_world in Hinfo as (_ & _ & _ & _ & _ & Hcase).
  destruct Hcase as [(-> & Hne & _) | (i & -> & -> & _)].
  - rewrite (is_success_false r Hne). cbn [negb]. eexists. reflexivity.
  - cbn [is_success negb].
    destruct (uvc_claim_ifs w2) as [r2 w3].
    destruct (negb (is_success r2)); [eexists; reflexivity|].
    destruct (negb (bEndpointAddress (ctrl_if i) =? 0)); [|eexists; reflexivity].
    destruct (negb (usb_alloc_transfer_ok (usb_dev (dev w1))));
      [eexists; reflexivity|].
    destruct (negb (is_success (usb_submit_result (usb_dev (dev w1)))));
      eexists; reflexivity.
Qed.

(** * Further properties of the device API *)

(** ** Reference counting *)

(** The device object of the world moves as the object-level functions
    say. *)
Lemma uvc_ref_device_dev w : dev (uvc_ref_device w) = ref_device (dev w).
Proof. reflexivity. Qed.

Lemma uvc_unref_device_dev w :
  dev (uvc_unref_device w) = fst (unref_device (dev w)) /\
  dev_freed (uvc_unref_device w)
  = (if snd (unref_device (dev w)) then true else dev_freed w).
Proof.
  unfold uvc_unref_device, unref_device. cbn.
  destruct (ref (dev w) - 1 =? 0); split; reflexivity.
Qed.

(** X1: a reference taken and given back.  As long as [dev->ref] is below
    2^31 - 1 (so that the increment of the counter does not overflow),
    [uvc_ref_device] followed by [uvc_unref_device] leaves [dev->ref] and
    libusb's count as they were and touches nothing else, with one exception
    the code makes: a device whose count was 0 is freed by the pair. *)
Theorem ref_unref_round_trip :
  forall w : world,
    ref (dev w) < 2 ^ 31 - 1 ->
    let w' := uvc_unref_device (uvc_ref_device w) in
    ref (dev w') = ref (dev w) /\
    usb_dev (dev w') = usb_dev (dev w) /\
    usb_refs w' = usb_refs w /\
    open_devices w' = open_devices w /\
    usb_handles w' = usb_handles w /\
    claimed w' = claimed w /\
    heap w' = heap w /\
    dev_freed w' = (if ref (dev w) =? 0 then true else dev_freed w) /\
    log w' = log w ++ [libusb_ref_device; libusb_unref_device]
             ++ (if ref (dev w) =? 0 then [free_dev] else []).
Proof.
  intros w _. unfold uvc_unref_device, uvc_ref_device. cbn.
  replace (ref (dev w) + 1 - 1) with (ref (dev w)) by lia.
  destruct (ref (dev w) =? 0); cbn; rewrite <- ?app_assoc;
    repeat split; lia.
Qed.

Lemma ref_unref_round_trip_witness :
  ref (dev (uvc_unref_device (uvc_ref_device uvc11_camera_world))) = 1 /\
  dev_freed (uvc_unref_device (uvc_ref_device uvc11_camera_world)) = false.
Proof.
  destruct (ref_unref_round_trip uvc11_camera_world)
    as (Hr & _ & _ & _ & _ & _ & _ & Hf & _).
  - vm_compute. reflexivity.
  - split; [exact Hr | exact Hf].
Defined.

(** ** Claiming the interfaces *)

(** The answer of [uvc_claim_ifs], read off the answers of libusb.  The
    result of claiming interface 0 decides the answer only when no kernel
    driver is active on interface 1: otherwise it is overwritten by the
    result of detaching that driver. *)
Lemma uvc_claim_ifs_answer :
  forall w : world,
    let usb := usb_dev (dev w) in
    fst (uvc_claim_ifs w) =
    if usb_kernel_driver_active usb 0
       && negb (is_success (usb_detach_result usb 0))
    then usb_detach_result usb 0
    else if usb_kernel_driver_active usb 1
         then if is_success (usb_detach_result usb 1)
              then usb_claim_result usb 1
              else usb_detach_result usb 1
         else if is_success (usb_claim_result usb 0)
              then usb_claim_result usb 1
              else usb_claim_result usb 0.
Proof.
  intro w. unfold uvc_claim_ifs, claim. cbn.
  destruct (usb_kernel_driver_active (usb_dev (dev w)) 0); cbn;
    destruct (is_success (usb_detach_result (usb_dev (dev w)) 0)) eqn:E0; cbn;
    try reflexivity;
    destruct (usb_kernel_driver_active (usb_dev (dev w)) 1); cbn;
    destruct (is_success (usb_detach_result (usb_dev (dev w)) 1)) eqn:E1; cbn;
    destruct (is_success (usb_claim_result (usb_dev (dev w)) 0)) eqn:Ec; cbn;
    reflexivity.
Qed.

(** X2: a failed claim of interface 0 that goes unreported.  With no kernel
    driver on interface 0 and one on interface 1 that can be detached,
    [uvc_claim_ifs] makes the three calls claim 0, detach 1, claim 1 and
    answers with the result of the last; interface 0 is among the claimed
    ones only if its own claim succeeded. *)
Theorem uvc_claim_ifs_masks_interface_0 :
  forall w : world,
    let usb := usb_dev (dev w) in
    usb_kernel_driver_active usb 0 = false ->
    usb_kernel_driver_active usb 1 = true ->
    usb_detach_result usb 1 = UVC_SUCCESS ->
    fst (uvc_claim_ifs w) = usb_claim_result usb 1 /\
    log (snd (uvc_claim_ifs w))
    = log w ++ [libusb_claim_interface 0; libusb_detach_kernel_driver 1;
                libusb_claim_interface 1] /\
    claimed (snd (uvc_claim_ifs w))
    = (if is_success (usb_claim_result usb 1) then [1] else [])
      ++ (if is_success (usb_claim_result usb 0) then [0] else [])
      ++ claimed w.
Proof.
  intros w usb H0 H1 Hd. subst usb.
  unfold uvc_claim_ifs, claim. cbn. rewrite H0, H1, Hd. cbn.
  destruct (is_success (usb_claim_result (usb_dev (dev w)) 0)); cbn;
    destruct (is_success (usb_claim_result (usb_dev (dev w)) 1)); cbn;
    rewrite <- ?app_assoc; repeat split.
Qed.

Lemma uvc_claim_ifs_masks_interface_0_witness :
  fst (uvc_claim_ifs (fresh_world busy_control_camera)) = UVC_SUCCESS /\
  claimed (snd (uvc_claim_ifs (fresh_world busy_control_camera))) = [1].
Proof.
  destruct (uvc_claim_ifs_masks_interface_0 (fresh_world busy_control_camera))
    as (Hret & _ & Hclaimed); try reflexivity.
  split; [exact Hret | exact Hclaimed].
Defined.

(** When [uvc_claim_ifs] answers success, interface 1 was claimed. *)
Lemma uvc_claim_ifs_success w w' :
  uvc_claim_ifs w = (UVC_SUCCESS, w') -> In 1 (claimed w').
Proof.
  unfold uvc_claim_ifs, claim. intro H. cbn in H.
  break_tests H; inversion H; subst; cbn; auto;
    exfalso;
    repeat match goal with
           | E : context [is_success ?x], H1 : ?x = UVC_SUCCESS |- _ =>
               rewrite H1 in E; cbn in E
           end;
    discriminate.
Qed.

(** ** The status demultiplexer, continued *)

(** X3: status of a processing unit.  A class-1 packet of at least 5 bytes
    with event 0 whose originator is not 0, is the id of no retained input
    terminal and is the id of a retained processing unit makes one call, of
    the callback registered in the handle, with class PROCESSING and the same
    fields as for a camera; input terminals are looked up first. *)
Theorem status_packet_processing_unit :
  forall (unknown : Z) (devh : uvc_device_handle) (the_info : uvc_device_info)
         (cb : uvc_status_callback_t) (transfer : libusb_transfer),
    info devh = Some the_info ->
    status_cb devh = Some cb ->
    transfer_wf transfer ->
    status_class_tag transfer = 1 ->
    5 <= actual_length transfer ->
    byte_at (buffer transfer) 1 <> 0 ->
    byte_at (buffer transfer) 2 = 0 ->
    (forall t, In t (input_term_descs (ctrl_if the_info)) ->
               it_bTerminalID t <> byte_at (buffer transfer) 1) ->
    (exists u, In u (processing_unit_descs (ctrl_if the_info))
               /\ pu_bUnitID u = byte_at (buffer transfer) 1) ->
    uvc_process_status_xfer unknown devh transfer
    = Ok [status_cb_call cb
            {| cb_status_class := Some UVC_STATUS_CLASS_CONTROL_PROCESSING;
               cb_event := 0;
               cb_selector := byte_at (buffer transfer) 3;
               cb_attribute := byte_at (buffer transfer) 4;
               cb_data :=
                 Some (bytes_at (buffer transfer) 5
                         (Z.to_nat (actual_length transfer) - 5));
               cb_data_len := actual_length transfer - 5;
               cb_user_ptr := status_user_ptr devh |}].
Proof.
  intros unknown devh the_info cb transfer Hinfo Hcb Hwf Htag Hlen Ho He
    Hterm Hunit.
  rewrite (uvc_process_status_xfer_cases unknown devh the_info transfer Hinfo Hwf).
  rewrite Htag. cbn [Z.eqb Pos.eqb].
  replace (actual_length transfer <? 4) with false
    by (symmetry; apply Z.ltb_ge; lia).
  replace (actual_length transfer <? 5) with false
    by (symmetry; apply Z.ltb_ge; lia).
  replace (byte_at (buffer transfer) 1 =? 0) with false
    by (symmetry; apply Z.eqb_neq; assumption).
  rewrite He. cbn [Z.eqb negb orb].
  replace (existsb (fun t => it_bTerminalID t =? byte_at (buffer transfer) 1)
             (input_term_descs (ctrl_if the_info))) with false.
  2:{ symmetry. apply existsb_false_iff. intros (t & Hin & Heq).
      apply Z.eqb_eq in Heq. exact (Hterm t Hin Heq). }
  replace (existsb (fun u => pu_bUnitID u =? byte_at (buffer transfer) 1)
             (processing_unit_descs (ctrl_if the_info))) with true
    by (symmetry; apply known_unit_iff; exact Hunit).
  cbn [orb negb]. unfold call_status_cb. rewrite Hcb. reflexivity.
Qed.

Lemma status_packet_processing_unit_witness :
  uvc_process_status_xfer 255 two_terminal_handle
    (packet LIBUSB_TRANSFER_COMPLETED [0x01; 0x03; 0x00; 0x02; 0x00; 0x10])
  = Ok [status_cb_call 1%positive
          {| cb_status_class := Some UVC_STATUS_CLASS_CONTROL_PROCESSING;
             cb_event := 0; cb_selector := 2; cb_attribute := 0;
             cb_data := Some [0x10]; cb_data_len := 1;
             cb_user_ptr := 7 |}].
Proof.
  apply (status_packet_processing_unit 255 two_terminal_handle _ 1%positive
           (packet LIBUSB_TRANSFER_COMPLETED
              [0x01; 0x03; 0x00; 0x02; 0x00; 0x10]) eq_refl eq_refl).
  - unfold transfer_wf. cbn. lia.
  - reflexivity.
  - cbn. lia.
  - vm_compute. discriminate.
  - reflexivity.
  - cbn. intros t [<- | [<- | []]]; vm_compute; discriminate.
  - eexists. split; [cbn; left; reflexivity | reflexivity].
Defined.

(** X4: when the callback is reached.  For a handle with its info and a
    registered callback and a packet within its buffer,
    [uvc_process_status_xfer] calls the callback exactly when the packet has
    at least 4 bytes and either its class tag is neither 1 nor 2, or the tag
    is 1, the packet has at least 5 bytes, the originator is not 0, the event
    is 0 and the originator is the id of a retained input terminal or
    processing unit; in every other case it returns without a call.  In
    particular a packet of class 2 (VideoStreaming) never reaches the
    callback. *)
Theorem status_callback_reached_iff :
  forall (unknown : Z) (devh : uvc_device_handle) (the_info : uvc_device_info)
         (cb : uvc_status_callback_t) (transfer : libusb_transfer),
    info devh = Some the_info ->
    status_cb devh = Some cb ->
    transfer_wf transfer ->
    let originator := byte_at (buffer transfer) 1 in
    let known_terminal :=
      exists t, In t (input_term_descs (ctrl_if the_info))
                /\ it_bTerminalID t = originator in
    let known_unit :=
      exists u, In u (processing_unit_descs (ctrl_if the_info))
                /\ pu_bUnitID u = originator in
    let reached :=
      4 <= actual_length transfer /\
      ((status_class_tag transfer <> 1 /\ status_class_tag transfer <> 2) \/
       (status_class_tag transfer = 1 /\ 5 <= actual_length transfer /\
        originator <> 0 /\ byte_at (buffer transfer) 2 = 0 /\
        (known_terminal \/ known_unit))) in
    ((exists args,
         uvc_process_status_xfer unknown devh transfer
         = Ok [status_cb_call cb args])
     <-> reached) /\
    (uvc_process_status_xfer unknown devh transfer = Ok [] <-> ~ reached).
Proof.
  intros unknown devh the_info cb transfer Hinfo Hcb Hwf originator
    known_terminal known_unit reached.
  pose proof (known_terminal_iff the_info originator) as Hterm.
  pose proof (known_unit_iff the_info originator) as Hunit.
  fold known_terminal in Hterm. fold known_unit in Hunit.
  rewrite (uvc_process_status_xfer_cases unknown devh the_info transfer Hinfo Hwf).
  unfold call_status_cb. rewrite Hcb. fold originator.
  assert (forall (b : bool) (args : status_cb_args),
             (b = true <-> ~ reached) ->
             ((exists a, (if b then Ok [] else Ok [status_cb_call cb args])
                         = Ok [status_cb_call cb a]) <-> reached)
             /\ ((if b then Ok [] else Ok [status_cb_call cb args])
                 = @Ok (list event) [] <-> ~ reached)) as Hshape.
  { intros b args Hb. destruct b.
    - split; split.
      + intros [a H]. discriminate.
      + intro H. exfalso. apply (proj1 Hb); [reflexivity | exact H].
      + intros _. apply Hb. reflexivity.
      + reflexivity.
    - assert reached as Hr.
      { destruct (Z.le_gt_cases 4 (actual_length transfer)) as [H4|H4].
        - unfold reached.
          destruct (Z.eq_dec (status_class_tag transfer) 1) as [H1|H1].
          + destruct (Z.le_gt_cases 5 (actual_length transfer)) as [H5|H5].
            * destruct (Z.eq_dec originator 0) as [Ho|Ho].
              -- exfalso. assert (false = true) by
                   (apply Hb; intros (_ & [[Hn _] | (_ & _ & Hn & _)]);
                    contradiction). discriminate.
              -- destruct (Z.eq_dec (byte_at (buffer transfer) 2) 0) as [He|He].
                 ++ destruct (existsb (fun t => it_bTerminalID t =? originator)
                                (input_term_descs (ctrl_if the_info))) eqn:Et.
                    ** split; [exact H4|]. right. repeat split; try assumption.
                       left. apply Hterm. reflexivity.
                    ** destruct (existsb (fun u => pu_bUnitID u =? originator)
                                   (processing_unit_descs (ctrl_if the_info)))
                         eqn:Eu.
                       --- split; [exact H4|]. right.
                           repeat split; try assumption.
                           right. apply Hunit. reflexivity.
                       --- exfalso. assert (false = true) by
                             (apply Hb;
                              intros (_ & [[Hn _] | (_ & _ & _ & _ & [Hk|Hk])]);
                              [contradiction
                              | apply Hterm in Hk; discriminate
                              | apply Hunit in Hk; discriminate]).
                           discriminate.
                 ++ exfalso. assert (false = true) by
                      (apply Hb; intros (_ & [[Hn _] | (_ & _ & _ & Hn & _)]);
                       contradiction). discriminate.
            * exfalso. assert (false = true) by
                (apply Hb; intros (_ & [[Hn _] | (_ & Hn & _)]);
                 [contradiction | lia]). discriminate.
          + destruct (Z.eq_dec (status_class_tag transfer) 2) as [H2|H2].
            * exfalso. assert (false = true) by
                (apply Hb; intros (_ & [[_ Hn] | (Hn & _)]); contradiction).
              discriminate.
            * split; [exact H4|]. left. split; assumption.
        - exfalso. assert (false = true) by
            (apply Hb; intros (Hn & _); lia). discriminate. }
      split; split.
      + intros _. exact Hr.
      + intros _. exists args. reflexivity.
      + intro H. discriminate.
      + intro H. contradiction. }
  destruct (Z.ltb_spec (actual_length transfer) 4) as [Hlt4|Hge4].
  { apply (Hshape true {| cb_status_class := None; cb_event := 0;
                          cb_selector := 0; cb_attribute := 0;
                          cb_data := None; cb_data_len := 0;
                          cb_user_ptr := 0 |}).
    split; [intros _ (Hn & _); lia | reflexivity]. }
  destruct (Z.eqb_spec (status_class_tag transfer) 1) as [Htag|Htag].
  - match goal with
    | |- context [if ?b then Ok [] else Ok [status_cb_call cb ?args]] =>
        apply (Hshape b args)
    end.
    split.
    + intros Hb (_ & [[Hn _] | (_ & H5 & Ho & He & Hk)]); [contradiction|].
      apply orb_prop in Hb as [Hb | Hb];
        [apply orb_prop in Hb as [Hb | Hb];
         [apply orb_prop in Hb as [Hb | Hb]|]|].
      * apply Z.ltb_lt in Hb. lia.
      * apply Z.eqb_eq in Hb. contradiction.
      * rewrite He in Hb. discriminate.
      * apply negb_true_iff, orb_false_elim in Hb as [Hb1 Hb2].
        destruct Hk as [Hk | Hk];
          [apply Hterm in Hk | apply Hunit in Hk]; congruence.
    + intro Hn.
      destruct (Z.ltb_spec (actual_length transfer) 5) as [H5|H5];
        [reflexivity|]. cbn [orb].
      destruct (Z.eqb_spec originator 0) as [Ho|Ho]; [reflexivity|]. cbn [orb].
      destruct (Z.eqb_spec (byte_at (buffer transfer) 2) 0) as [He|He];
        [|reflexivity]. cbn [negb orb].
      destruct (existsb (fun t => it_bTerminalID t =? originator)
                  (input_term_descs (ctrl_if the_info))) eqn:Et.
      * exfalso. apply Hn. split; [exact Hge4|]. right.
        repeat split; try assumption. left. apply Hterm. reflexivity.
      * destruct (existsb (fun u => pu_bUnitID u =? originator)
                    (processing_unit_descs (ctrl_if the_info))) eqn:Eu;
          [|reflexivity].
        exfalso. apply Hn. split; [exact Hge4|]. right.
        repeat split; try assumption. right. apply Hunit. reflexivity.
  - destruct (Z.eqb_spec (status_class_tag transfer) 2) as [Htag2|Htag2].
    + apply (Hshape true {| cb_status_class := None; cb_event := 0;
                            cb_selector := 0; cb_attribute := 0;
                            cb_data := None; cb_data_len := 0;
                            cb_user_ptr := 0 |}).
      split; [|reflexivity].
      intros _ (_ & [[_ Hn] | (Hn & _)]); contradiction.
    + match goal with
      | |- context [Ok [status_cb_call cb ?args]] =>
          apply (Hshape false args)
      end.
      split; [discriminate|].
      intro Hn. exfalso. apply Hn. split; [exact Hge4|]. left.
      split; assumption.
Qed.

Lemma status_callback_reached_iff_witness :
  uvc_process_status_xfer 255 two_terminal_handle
    (packet LIBUSB_TRANSFER_COMPLETED [0x02; 0x01; 0x00; 0x00; 0x00])
  = Ok [].
Proof.
  apply (status_callback_reached_iff 255 two_terminal_handle _ 1%positive
           (packet LIBUSB_TRANSFER_COMPLETED [0x02; 0x01; 0x00; 0x00; 0x00])
           eq_refl eq_refl).
  - unfold transfer_wf. cbn. lia.
  - intros (_ & [[_ H] | [H _]]).
    + apply H. reflexivity.
    + vm_compute in H. discriminate.
Defined.

(** ** The device list and its release *)

Lemma free_device_list_loop_spec (devs : list uvc_device) :
  free_device_list_loop (map Some devs ++ [None]) = Ok (map unref_device devs).
Proof.
  induction devs as [|d devs IH]; [reflexivity|].
  cbn [map app free_device_list_loop]. rewrite IH. reflexivity.
Qed.

(** X5: listing and releasing.  After a successful enumeration,
    [uvc_get_device_list] answers success with an array that holds, in bus
    order, one new device with count 1 for every bus device that has a
    Video/Streaming altsetting, and a null entry after them.
    [uvc_free_device_list] walks that array to its null entry: released with
    [unref_devices] set, every device of the list ends with count 0 and is
    freed; released without it, every device keeps its count 1 and stays. *)
Theorem device_list_release :
  forall usb_dev_list : list libusb_device,
    let cameras := filter is_uvc_camera usb_dev_list in
    let dev_list := map Some (map fresh_device cameras) ++ [None] in
    uvc_get_device_list (enumerated usb_dev_list)
    = Ok (UVC_SUCCESS, Some dev_list) /\
    uvc_free_device_list dev_list true
    = Ok (map (fun usb => ({| usb_dev := usb; ref := 0 |}, true)) cameras) /\
    uvc_free_device_list dev_list false
    = Ok (map (fun usb => ({| usb_dev := usb; ref := 1 |}, false)) cameras).
Proof.
  intro usb_dev_list. cbv zeta.
  split; [apply get_device_list_success|].
  unfold uvc_free_device_list. split.
  - rewrite free_device_list_loop_spec, map_map. reflexivity.
  - f_equal. induction (filter is_uvc_camera usb_dev_list) as [|usb l IH];
      [reflexivity|].
    cbn [map app pointed_devices]. cbn [map app pointed_devices] in IH.
    rewrite IH. reflexivity.
Qed.

(** ** The search for a device *)

Lemma find_split {A : Type} (m : A -> bool) (l : list A) :
  match find m l with
  | Some x =>
      exists before after,
        l = before ++ x :: after /\
        forallb (fun y => negb (m y)) before = true /\ m x = true
  | None => forallb (fun y => negb (m y)) l = true
  end.
Proof.
  induction l as [|y l IH]; [reflexivity|].
  cbn [find]. destruct (m y) eqn:Ey.
  - exists [], l. repeat split. exact Ey.
  - destruct (find m l) as [x|].
    + destruct IH as (before & after & -> & Hb & Hx).
      exists (y :: before), after. repeat split; [|exact Hx].
      cbn [forallb]. rewrite Ey, Hb. reflexivity.
    + cbn [forallb]. rewrite Ey, IH. reflexivity.
Qed.

(** One round of the loop on a device that is not accepted, and on one that
    is. *)
Lemma find_device_loop_step a vid pid sn usb rest idx :
  find_device_loop a vid pid sn (Some (fresh_device usb) :: rest) idx
  = if device_matches a vid pid sn usb then Ok (Some idx)
    else find_device_loop a vid pid sn rest (S idx).
Proof.
  cbn [find_device_loop]. unfold device_matches, uvc_get_device_descriptor.
  destruct (is_success (usb_descriptor_result a (usb_dev (fresh_device usb))))
    eqn:E; cbn [negb]; rewrite E; cbn [negb]; reflexivity.
Qed.

Lemma find_device_loop_none a vid pid sn :
  forall cams idx,
    forallb (fun usb => negb (device_matches a vid pid sn usb)) cams = true ->
    find_device_loop a vid pid sn (map Some (map fresh_device cams) ++ [None]) idx
    = Ok None.
Proof.
  induction cams as [|usb cams IH]; intros idx H; [reflexivity|].
  cbn [forallb] in H. apply andb_prop in H as [Hm Hrest].
  cbn [map app]. rewrite find_device_loop_step.
  apply negb_true_iff in Hm. rewrite Hm. apply IH. exact Hrest.
Qed.

Lemma find_device_loop_found a vid pid sn usb after :
  forall before idx,
    forallb (fun y => negb (device_matches a vid pid sn y)) before = true ->
    device_matches a vid pid sn usb = true ->
    find_device_loop a vid pid sn
      (map Some (map fresh_device (before ++ usb :: after)) ++ [None]) idx
    = Ok (Some (idx + length before)%nat).
Proof.
  induction before as [|y before IH]; intros idx Hb Hm.
  - cbn [map app]. rewrite find_device_loop_step, Hm.
    cbn [length]. rewrite Nat.add_0_r. reflexivity.
  - cbn [forallb] in Hb. apply andb_prop in Hb as [Hy Hrest].
    apply negb_true_iff in Hy.
    cbn [map app]. rewrite find_device_loop_step, Hy.
    rewrite (IH (S idx) Hrest Hm). cbn [length]. f_equal. f_equal. lia.
Qed.

Lemma ref_entry_found usb after :
  forall before,
    ref_entry (length before)
      (map Some (map fresh_device (before ++ usb :: after)) ++ [None])
    = map Some (map fresh_device before
                ++ ref_device (fresh_device usb) :: map fresh_device after)
      ++ [None].
Proof.
  induction before as [|y before IH]; [reflexivity|].
  cbn [length map app ref_entry]. rewrite IH. reflexivity.
Qed.

(** X6: what [uvc_find_device] finds.  After a successful enumeration, with
    the cameras of the bus in bus order: if some camera is accepted (its
    descriptor can be read and it passes the tests on [vid], [pid] and [sn], a
    0 or null criterion passing always), the call answers success and [*dev]
    is the first such camera, holding exactly one reference and not freed,
    while every other device of the list is freed; if none is accepted, the
    call answers NO_DEVICE and every device of the list is freed. *)
Theorem find_device_first_match :
  forall (a : descriptor_answers) (usb_dev_list : list libusb_device)
         (vid pid : Z) (sn : option String.string),
    match find (device_matches a vid pid sn)
            (filter is_uvc_camera usb_dev_list) with
    | Some usb =>
        exists before after,
          filter is_uvc_camera usb_dev_list = before ++ usb :: after /\
          forallb (fun y => negb (device_matches a vid pid sn y)) before = true /\
          uvc_find_device a (enumerated usb_dev_list) vid pid sn
          = Ok (UVC_SUCCESS, Some (fresh_device usb, false),
                map freed_device before
                ++ (fresh_device usb, false) :: map freed_device after)
    | None =>
        uvc_find_device a (enumerated usb_dev_list) vid pid sn
        = Ok (UVC_ERROR_NO_DEVICE, None,
              map freed_device (filter is_uvc_camera usb_dev_list))
    end.
Proof.
  intros a usb_dev_list vid pid sn.
  unfold uvc_find_device. rewrite get_device_list_success.
  cbn [bind is_success negb].
  pose proof (find_split (device_matches a vid pid sn)
                (filter is_uvc_camera usb_dev_list)) as Hsplit.
  destruct (find (device_matches a vid pid sn)
              (filter is_uvc_camera usb_dev_list)) as [usb|].
  - destruct Hsplit as (before & after & Hl & Hb & Hm).
    exists before, after. split; [exact Hl|]. split; [exact Hb|].
    rewrite Hl.
    rewrite (find_device_loop_found a vid pid sn usb after before 0 Hb Hm).
    cbn [bind Nat.add]. rewrite ref_entry_found.
    unfold uvc_free_device_list. rewrite free_device_list_loop_spec.
    cbn [bind]. rewrite map_app. cbn [map]. rewrite !map_map.
    change (unref_device (ref_device (fresh_device usb)))
      with (fresh_device usb, false).
    change (fun x => unref_device (fresh_device x)) with freed_device.
    rewrite nth_error_app2 by (rewrite length_map; lia).
    rewrite length_map, Nat.sub_diag. reflexivity.
  - rewrite (find_device_loop_none a vid pid sn _ 0 Hsplit).
    cbn [bind]. unfold uvc_free_device_list.
    rewrite free_device_list_loop_spec. cbn [bind]. rewrite map_map.
    reflexivity.
Qed.

(** The search by serial number among two cameras: the second is found, the
    first is freed; an unknown serial number finds nothing. *)
Example find_device_by_serial :
  uvc_find_device serial_answers
    (enumerated [camera_with_product 1; camera_with_product 2])
    0 0 (Some SerialNumbers.BBB)
  = Ok (UVC_SUCCESS, Some (fresh_device (camera_with_product 2), false),
        [freed_device (camera_with_product 1);
         (fresh_device (camera_with_product 2), false)])
  /\ uvc_find_device serial_answers
       (enumerated [camera_with_product 1; camera_with_product 2])
       0 0 (Some SerialNumbers.CCC)
     = Ok (UVC_ERROR_NO_DEVICE, None,
           [freed_device (camera_with_product 1);
            freed_device (camera_with_product 2)]).
Proof. split; reflexivity. Qed.

(** ** The open path, continued *)

(** What a successful [uvc_open] has built and holds. *)
Lemma uvc_open_success_world fuel w h w' :
  uvc_open fuel w = Ok (UVC_SUCCESS, Some h, w') ->
  exists the_info cfg calls,
    info h = Some the_info /\
    usb_config0 (usb_dev (dev w)) = Some cfg /\
    uvc_scan_control fuel (empty_info cfg) = Ok (UVC_SUCCESS, the_info) /\
    status_xfer h = negb (bEndpointAddress (ctrl_if the_info) =? 0) /\
    is_isight h = (usb_idVendor (usb_dev (dev w)) =? 0x05ac)
                  && (usb_idProduct (usb_dev (dev w)) =? 0x8501) /\
    status_user_ptr h = 0 /\
    open_devices w' = open_devices w ++ [h] /\
    dev w' = ref_device (dev w) /\
    dev_freed w' = dev_freed w /\
    usb_refs w' = usb_refs w + 1 /\
    usb_handles w' = usb_handles w + 1 /\
    heap w' = (if status_xfer h then [blk_xfer] else [])
              ++ blk_info :: blk_devh :: heap w /\
    In 1 (claimed w') /\
    log w' = log w ++ [libusb_open; libusb_ref_device] ++ calls
             ++ (if status_xfer h
                 then [libusb_alloc_transfer; libusb_submit_transfer] else []) /\
    forallb is_setup_call calls = true /\
    status_cb h = None.
Proof.
  intro H.
  destruct (is_success (usb_open_result (usb_dev (dev w)))) eqn:Eopen.
  2:{ rewrite (uvc_open_not_opened fuel w Eopen) in H. discriminate. }
  apply is_success_true in Eopen.
  destruct (uvc_open_unfold fuel w Eopen)
    as (w1 & Ho & Hd & Hf & Hr & Hh & Hheap & Hlog & Heq).
  rewrite Heq in H. clear Heq.
  destruct (uvc_get_device_info fuel w1) as [[[r got] w2]| |] eqn:Einfo;
    cbn [bind] in H; try discriminate.
  apply uvc_get_device_info_world in Einfo
    as ((Ho2 & Hd2 & Hf2 & Hr2 & Hh2) & _ & calls & Hlog2 & Hcalls & Hcase).
  cbv zeta in H.
  destruct Hcase as [(-> & Hne & _) | (i & -> & -> & Hheap2 & cfg & Hcfg & Hscan)].
  { rewrite (is_success_false r Hne) in H. cbn [negb] in H.
    forget_fail_world H. discriminate. }
  cbn [is_success negb] in H.
  destruct (uvc_claim_ifs w2) as [r2 w3] eqn:Eclaim.
  destruct (is_success r2) eqn:Er2; cbn [negb] in H.
  2:{ forget_fail_world H. discriminate. }
  apply is_success_true in Er2. subst r2.
  pose proof (uvc_claim_ifs_success _ _ Eclaim) as Hclaimed.
  apply uvc_claim_ifs_world in Eclaim
    as ((Ho3 & Hd3 & Hf3 & Hr3 & Hh3) & Hheap3 & calls2 & Hlog3 & Hcalls2).
  rewrite Hd in Hcfg. cbn [usb_dev] in Hcfg.
  rewrite Hd in H. cbn [usb_dev] in H.
  assert (log w3 = log w ++ [libusb_open; libusb_ref_device] ++ calls ++ calls2)
    as Hlog4 by (rewrite Hlog3, Hlog2, Hlog, <- !app_assoc; reflexivity).
  assert (forallb is_setup_call (calls ++ calls2) = true) as Hcalls3
      by (rewrite forallb_app, Hcalls, Hcalls2; reflexivity).
  assert (dev w3 = ref_device (dev w)) as Hdev
      by (rewrite Hd3, Hd2, Hd; reflexivity).
  exists i, cfg, (calls ++ calls2).
  destruct (negb (bEndpointAddress (ctrl_if i) =? 0)) eqn:Eep.
  - destruct (usb_alloc_transfer_ok (usb_dev (dev w))); cbn [negb] in H.
    2:{ forget_fail_world H. discriminate. }
    destruct (is_success (usb_submit_result (usb_dev (dev w)))) eqn:Es;
      cbn [negb] in H.
    2:{ forget_fail_world H. injection H as Hret _ _.
        rewrite Hret in Es. discriminate. }
    injection H as _ Hh' Hw'. subst h w'. cbn.
    rewrite Hlog4, <- !app_assoc.
    repeat split; try assumption; try congruence; try lia.
  - injection H as Hh' Hw'. subst h w'. cbn.
    rewrite Hlog4, <- !app_assoc, app_nil_r.
    repeat split; try assumption; try congruence; try lia.
Qed.

(** The handle [uvc_open] returns has no status callback yet: the pointer is
    the null [calloc] left, and [uvc_set_status_callback] is the only place
    that stores one.  When the handle has a status transfer, that transfer is
    already submitted. *)
Lemma uvc_open_leaves_no_callback fuel w h w' :
  uvc_open fuel w = Ok (UVC_SUCCESS, Some h, w') ->
  status_cb h = None.
Proof.
  intro H.
  apply uvc_open_success_world in H
    as (i & cfg & calls & _ & _ & _ & _ & _ & _ & _ & _ & _ & _ & _ & _ & _
        & _ & _ & Hcb).
  exact Hcb.
Qed.

Lemma uvc_set_status_callback_stores devh cb user_ptr :
  status_cb (uvc_set_status_callback devh cb user_ptr) = cb /\
  status_user_ptr (uvc_set_status_callback devh cb user_ptr) = user_ptr /\
  info (uvc_set_status_callback devh cb user_ptr) = info devh /\
  status_xfer (uvc_set_status_callback devh cb user_ptr) = status_xfer devh /\
  is_isight (uvc_set_status_callback devh cb user_ptr) = is_isight devh.
Proof. repeat split. Qed.

(** A status packet of an unknown class that completes on a handle just
    opened, before any callback is registered: the handler calls through the
    null pointer and does not get to the resubmission.  The same packet
    once a callback is registered: one call, then the resubmission. *)
Example status_packet_before_registration :
  status_xfer (the_handle (handle_after_open 5 (fresh_world isight_camera)))
  = true /\
  _uvc_status_callback 255
    (the_handle (handle_after_open 5 (fresh_world isight_camera)))
    (packet LIBUSB_TRANSFER_COMPLETED [0x03; 0x00; 0x00; 0x00])
  = Undef /\
  _uvc_status_callback 255
    (uvc_set_status_callback
       (the_handle (handle_after_open 5 (fresh_world isight_camera)))
       (Some 1%positive) 7)
    (packet LIBUSB_TRANSFER_COMPLETED [0x03; 0x00; 0x00; 0x00])
  = Ok [status_cb_call 1%positive
          {| cb_status_class := None; cb_event := 0; cb_selector := 0;
             cb_attribute := 255; cb_data := None; cb_data_len := 0;
             cb_user_ptr := 7 |};
        resubmit].
Proof. repeat split; vm_compute; reflexivity. Qed.

(** ** What the VideoControl walk keeps *)

Section ControlInterfaceInvariant.

(** A property of the control interface that survives the four ways in which
    the parsers change it. *)
Variable P : uvc_control_interface -> Prop.

Hypothesis P_bcdUVC : forall c v,
    P c ->
    P {| bcdUVC := v; bEndpointAddress := bEndpointAddress c;
         input_term_descs := input_term_descs c;
         processing_unit_descs := processing_unit_descs c;
         extension_unit_descs := extension_unit_descs c |}.

Hypothesis P_terminal : forall c t,
    it_wTerminalType t = UVC_ITT_CAMERA ->
    P c ->
    P {| bcdUVC := bcdUVC c; bEndpointAddress := bEndpointAddress c;
         input_term_descs := input_term_descs c ++ [t];
         processing_unit_descs := processing_unit_descs c;
         extension_unit_descs := extension_unit_descs c |}.

Hypothesis P_processing : forall c u,
    P c ->
    P {| bcdUVC := bcdUVC c; bEndpointAddress := bEndpointAddress c;
         input_term_descs := input_term_descs c;
         processing_unit_descs := processing_unit_descs c ++ [u];
         extension_unit_descs := extension_unit_descs c |}.

Hypothesis P_extension : forall c u,
    P c ->
    P {| bcdUVC := bcdUVC c; bEndpointAddress := bEndpointAddress c;
         input_term_descs := input_term_descs c;
         processing_unit_descs := processing_unit_descs c;
         extension_unit_descs := extension_unit_descs c ++ [u] |}.

Lemma uvc_parse_vc_header_keeps fuel info buf block block_size e info' :
  uvc_parse_vc_header fuel info buf block block_size = Ok (e, info') ->
  P (ctrl_if info) -> P (ctrl_if info').
Proof.
  unfold uvc_parse_vc_header. intros H HP.
  destruct (SW_TO_SHORT buf block 3) as [v| |]; cbn [bind] in H; try discriminate.
  destruct (supported_bcdUVC v).
  - apply vc_header_loop_ctrl_if in H as [_ ->]. apply P_bcdUVC. exact HP.
  - injection H as _ <-. apply P_bcdUVC. exact HP.
Qed.

Lemma parse_entity_keeps k info buf block r info' :
  parse_entity k info buf block = Ok (r, info') ->
  P (ctrl_if info) -> P (ctrl_if info').
Proof.
  destruct k; cbn [parse_entity];
    unfold uvc_parse_vc_input_terminal, uvc_parse_vc_processing_unit,
      uvc_parse_vc_extension_unit;
    intros H HP; run_binds H; injection H as _ <-; try exact HP; cbn.
  - apply P_terminal; [|exact HP]. cbn.
    match goal with
    | E : negb (?z =? UVC_ITT_CAMERA) = false |- _ =>
        apply negb_false_iff, Z.eqb_eq in E; exact E
    end.
  - apply P_processing. exact HP.
  - apply P_extension. exact HP.
Qed.

Lemma uvc_parse_vc_keeps fuel info buf block block_size r info' :
  uvc_parse_vc fuel info buf block block_size = Ok (r, info') ->
  P (ctrl_if info) -> P (ctrl_if info').
Proof.
  unfold uvc_parse_vc. intros H HP.
  destruct (rd buf block 1) as [b1| |]; cbn [bind] in H; try discriminate.
  destruct (negb (b1 =? 36)); [injection H as _ <-; exact HP|].
  destruct (rd buf block 2) as [sub| |]; cbn [bind] in H; try discriminate.
  destruct (sub =? UVC_VC_HEADER).
  { unfold lift_ret in H.
    destruct (uvc_parse_vc_header fuel info buf block block_size)
      as [[e i]| |] eqn:Eh; cbn [bind] in H; try discriminate.
    injection H as _ <-. exact (uvc_parse_vc_header_keeps _ _ _ _ _ _ _ Eh HP). }
  destruct (sub =? UVC_VC_INPUT_TERMINAL);
    [exact (parse_entity_keeps input_terminal _ _ _ _ _ H HP)|].
  destruct (sub =? UVC_VC_OUTPUT_TERMINAL); [injection H as _ <-; exact HP|].
  destruct (sub =? UVC_VC_SELECTOR_UNIT); [injection H as _ <-; exact HP|].
  destruct (sub =? UVC_VC_PROCESSING_UNIT);
    [exact (parse_entity_keeps processing_unit _ _ _ _ _ H HP)|].
  destruct (sub =? UVC_VC_EXTENSION_UNIT);
    [exact (parse_entity_keeps extension_unit _ _ _ _ _ H HP)|].
  injection H as _ <-. exact HP.
Qed.

Lemma scan_control_loop_keeps buf :
  forall fuel info buffer buffer_left e info',
    scan_control_loop fuel info buf buffer buffer_left = Ok (e, info') ->
    P (ctrl_if info) -> P (ctrl_if info').
Proof.
  induction fuel as [|fuel IH]; intros info buffer buffer_left e info' H HP;
    cbn [scan_control_loop] in H;
    destruct (3 <=? buffer_left); try discriminate;
    try (injection H as _ <-; exact HP).
  destruct (rd buf buffer 0) as [block_size| |]; cbn [bind] in H;
    try discriminate.
  destruct (uvc_parse_vc (S fuel) info buf buffer block_size)
    as [[[r|] info1]| |] eqn:Evc; cbn [bind] in H; try discriminate.
  pose proof (uvc_parse_vc_keeps _ _ _ _ _ _ _ Evc HP) as HP1.
  destruct (is_success r).
  - exact (IH _ _ _ _ _ H HP1).
  - injection H as _ <-. exact HP1.
Qed.

End ControlInterfaceInvariant.

(** X7: only camera terminals are retained.  Whatever the VideoControl blob
    holds and however the walk ends, if [uvc_scan_control] returns, every
    input terminal of the info has [wTerminalType] 0x0201, provided those it
    started with had. *)
Theorem scan_control_only_camera_terminals :
  forall (fuel : nat) (info info' : uvc_device_info) (e : uvc_error_t),
    only_camera_terminals info ->
    uvc_scan_control fuel info = Ok (e, info') ->
    only_camera_terminals info'.
Proof.
  intros fuel info info' e Hinit H.
  unfold uvc_scan_control in H.
  destruct (find_control_if (interface (config info))) as [[d|]| |];
    cbn [bind] in H; try discriminate.
  2:{ injection H as _ <-. exact Hinit. }
  unfold only_camera_terminals.
  refine (scan_control_loop_keeps
            (fun c => Forall (fun t => it_wTerminalType t = UVC_ITT_CAMERA)
                        (input_term_descs c))
            _ _ _ _ _ _ _ _ _ _ _ H _); try (intros; assumption).
  - intros c t Ht Hc. cbn. apply Forall_app. split; [exact Hc|].
    constructor; [exact Ht | constructor].
  - destruct (endpoint d); exact Hinit.
Qed.

Lemma scan_control_only_camera_terminals_witness :
  only_camera_terminals (scanned_info 3 chain_info).
Proof.
  apply (scan_control_only_camera_terminals 3 chain_info
           (scanned_info 3 chain_info) UVC_SUCCESS).
  - constructor.
  - vm_compute. reflexivity.
Defined.

Lemma uvc_scan_control_endpoint fuel info info' e if_desc :
  find_control_if (interface (config info)) = Ok (Some if_desc) ->
  uvc_scan_control fuel info = Ok (e, info') ->
  bEndpointAddress (ctrl_if info')
  = match endpoint if_desc with
    | [] => bEndpointAddress (ctrl_if info)
    | ep0 :: _ => ep_bEndpointAddress ep0
    end.
Proof.
  intros Hfind H.
  unfold uvc_scan_control in H. rewrite Hfind in H. cbn [bind] in H.
  refine (scan_control_loop_keeps
            (fun c => bEndpointAddress c
                      = match endpoint if_desc with
                        | [] => bEndpointAddress (ctrl_if info)
                        | ep0 :: _ => ep_bEndpointAddress ep0
                        end)
            _ _ _ _ _ _ _ _ _ _ _ H _); try (intros; assumption).
  destruct (endpoint if_desc); reflexivity.
Qed.

(** X8: the interrupt endpoint of the control interface.  If
    [uvc_scan_control] returns, the endpoint address of the info is the one of
    endpoint 0 of the first interface whose altsetting 0 is Video/Control, and
    it is left as it was when that altsetting has no endpoint; no block of the
    blob changes it. *)
Theorem scan_control_endpoint_address :
  forall (fuel : nat) (info info' : uvc_device_info) (e : uvc_error_t)
         (if_desc : libusb_interface_descriptor),
    find_control_if (interface (config info)) = Ok (Some if_desc) ->
    uvc_scan_control fuel info = Ok (e, info') ->
    bEndpointAddress (ctrl_if info')
    = match endpoint if_desc with
      | [] => bEndpointAddress (ctrl_if info)
      | ep0 :: _ => ep_bEndpointAddress ep0
      end.
Proof.
  intros fuel info info' e if_desc. apply uvc_scan_control_endpoint.
Qed.

Lemma scan_control_endpoint_address_witness :
  bEndpointAddress (ctrl_if (scanned_info 3 chain_info)) = 0x83.
Proof.
  apply (scan_control_endpoint_address 3 chain_info
           (scanned_info 3 chain_info) UVC_SUCCESS
           (control_if_desc_with_endpoint
              (bytes (header_block 0x0110 ++ camera_terminal_block
                      ++ processing_unit_block)))).
  - reflexivity.
  - vm_compute. reflexivity.
Defined.

(** ** What a successful open leaves *)

(** X9: a successful open.  When [uvc_open] answers success (on a device
    whose [ref] is below 2^31 - 1, so that the increment does not overflow),
    the handle it returns is the new last entry of [ctx->open_devices], the
    device holds one reference more on both counts, one more USB handle is
    open, interface 1 is claimed, and the heap holds the handle, its info and,
    when the handle has a status transfer, the transfer. *)
Theorem uvc_open_success_holds :
  forall (fuel : nat) (w w' : world) (h : uvc_device_handle),
    ref (dev w) < 2 ^ 31 - 1 ->
    uvc_open fuel w = Ok (UVC_SUCCESS, Some h, w') ->
    open_devices w' = open_devices w ++ [h] /\
    ref (dev w') = ref (dev w) + 1 /\
    usb_refs w' = usb_refs w + 1 /\
    usb_handles w' = usb_handles w + 1 /\
    dev_freed w' = dev_freed w /\
    In 1 (claimed w') /\
    heap w' = (if status_xfer h then [blk_xfer] else [])
              ++ blk_info :: blk_devh :: heap w.
Proof.
  intros fuel w w' h _ H.
  apply uvc_open_success_world in H
    as (i & cfg & calls & _ & _ & _ & _ & _ & _ & Ho & Hd & Hf & Hr & Hh
        & Hheap & Hc & _).
  rewrite Hd. repeat split; assumption.
Qed.

Lemma uvc_open_success_holds_witness :
  open_devices (world_after_open 5 uvc11_camera_world)
  = [] ++ [the_handle (handle_after_open 5 uvc11_camera_world)] /\
  ref (dev (world_after_open 5 uvc11_camera_world)) = 1 + 1.
Proof.
  destruct (uvc_open_success_holds 5 uvc11_camera_world
              (world_after_open 5 uvc11_camera_world)
              (the_handle (handle_after_open 5 uvc11_camera_world)))
    as (Ho & Hr & _).
  - vm_compute. reflexivity.
  - vm_compute. reflexivity.
  - split; [exact Ho | exact Hr].
Defined.

(** X10: the handle of a successful open.  Its [is_isight] flag is set exactly
    for vendor 0x05ac, product 0x8501; it has a status transfer exactly when
    endpoint 0 of the device's VideoControl interface has a non-zero address
    (none when that interface has no endpoint); its user pointer is null. *)
Theorem uvc_open_handle_flags :
  forall (fuel : nat) (w w' : world) (h : uvc_device_handle),
    uvc_open fuel w = Ok (UVC_SUCCESS, Some h, w') ->
    is_isight h = (usb_idVendor (usb_dev (dev w)) =? 0x05ac)
                  && (usb_idProduct (usb_dev (dev w)) =? 0x8501) /\
    status_user_ptr h = 0 /\
    exists cfg if_desc,
      usb_config0 (usb_dev (dev w)) = Some cfg /\
      find_control_if (interface cfg) = Ok (Some if_desc) /\
      status_xfer h = negb (endpoint0_address if_desc =? 0).
Proof.
  intros fuel w w' h H.
  apply uvc_open_success_world in H
    as (i & cfg & calls & _ & Hcfg & Hscan & Hx & Hi & Hu & _).
  split; [exact Hi|]. split; [exact Hu|].
  exists cfg.
  destruct (find_control_if (interface cfg)) as [[d|]| |] eqn:Hfind.
  - exists d. split; [exact Hcfg|]. split; [reflexivity|].
    rewrite Hx.
    rewrite (uvc_scan_control_endpoint fuel (empty_info cfg) i UVC_SUCCESS d
               Hfind Hscan).
    reflexivity.
  - unfold uvc_scan_control in Hscan. cbn [empty_info config] in Hscan.
    rewrite Hfind in Hscan. discriminate.
  - unfold uvc_scan_control in Hscan. cbn [empty_info config] in Hscan.
    rewrite Hfind in Hscan. discriminate.
  - unfold uvc_scan_control in Hscan. cbn [empty_info config] in Hscan.
    rewrite Hfind in Hscan. discriminate.
Qed.

Lemma uvc_open_handle_flags_witness :
  is_isight (the_handle (handle_after_open 5 (fresh_world isight_camera))) = true
  /\ status_xfer (the_handle (handle_after_open 5 (fresh_world isight_camera)))
     = true.
Proof.
  destruct (uvc_open_handle_flags 5 (fresh_world isight_camera)
              (world_after_open 5 (fresh_world isight_camera))
              (the_handle (handle_after_open 5 (fresh_world isight_camera))))
    as (Hi & _ & cfg & d & Hcfg & Hfind & Hx).
  - vm_compute. reflexivity.
  - split; [exact Hi|]. rewrite Hx.
    injection Hcfg as <-. cbn in Hfind. injection Hfind as <-. reflexivity.
Defined.

(** ** Closing *)

Lemma remove_nth_last {A : Type} (l : list A) (x : A) :
  nth_error (l ++ [x]) (length l) = Some x /\
  remove_nth (length l) (l ++ [x]) = l.
Proof.
  split.
  - rewrite nth_error_app2 by lia. rewrite Nat.sub_diag. reflexivity.
  - unfold remove_nth.
    rewrite firstn_app, firstn_all, Nat.sub_diag. cbn [firstn].
    rewrite skipn_all2 by (rewrite length_app; cbn; lia).
    rewrite !app_nil_r. reflexivity.
Qed.

(** Closing the last handle of the list, in a world that holds what a
    successful open leaves. *)
Lemma uvc_close_last stop w w1 h the_info :
  info h = Some the_info ->
  open_devices w1 = open_devices w ++ [h] ->
  dev w1 = ref_device (dev w) ->
  dev_freed w1 = dev_freed w ->
  usb_refs w1 = usb_refs w + 1 ->
  usb_handles w1 = usb_handles w + 1 ->
  heap w1 = (if status_xfer h then [blk_xfer] else [])
            ++ blk_info :: blk_devh :: heap w ->
  exists w2,
    uvc_close false stop (length (open_devices w)) w1 = Ok w2 /\
    open_devices w2 = open_devices w /\
    ref (dev w2) = ref (dev w) /\
    usb_dev (dev w2) = usb_dev (dev w) /\
    usb_refs w2 = usb_refs w /\
    usb_handles w2 = usb_handles w /\
    heap w2 = heap w /\
    ~ In 0 (claimed w2) /\ ~ In 1 (claimed w2) /\
    dev_freed w2 = (if ref (dev w) =? 0 then true else dev_freed w).
Proof.
  intros Hinfo Ho Hd Hf Hr Hh Hheap.
  unfold uvc_close. rewrite Ho.
  destruct (remove_nth_last (open_devices w) h) as [-> Hrm].
  eexists. split; [reflexivity|].
  unfold uvc_free_devh, uvc_free_device_info, uvc_unref_device, uvc_release_ifs.
  rewrite Hinfo.
  destruct (status_xfer h); cbn; rewrite !Hd; cbn [ref_device ref usb_dev];
    replace (ref (dev w) + 1 - 1) with (ref (dev w)) by lia;
    destruct (ref (dev w) =? 0); cbn; rewrite ?Ho, ?Hrm, ?Hheap; cbn;
    (split; [reflexivity|]); (split; [reflexivity|]); (split; [reflexivity|]);
    (split; [lia|]); (split; [lia|]); (split; [reflexivity|]);
    (split; [apply released_not_claimed|]);
    (split; [apply released_not_claimed|]); congruence.
Qed.

(** X11: open, then close.  Closing the handle a successful [uvc_open] has just
    returned (no stream started on it; the device's [ref] below 2^31 - 1
    before the open) takes it out of [ctx->open_devices] and gives back
    everything the open took: both reference counts, the number of open USB
    handles and the heap are what they were before the open, and interfaces 0
    and 1 are not claimed.  The device itself is freed by the close only if
    nobody held it before the open. *)
Theorem uvc_open_close_round_trip :
  forall (fuel : nat) (uvc_stop_streaming : world -> world)
         (w w1 : world) (h : uvc_device_handle),
    ref (dev w) < 2 ^ 31 - 1 ->
    uvc_open fuel w = Ok (UVC_SUCCESS, Some h, w1) ->
    exists w2,
      uvc_close false uvc_stop_streaming (length (open_devices w)) w1 = Ok w2 /\
      open_devices w2 = open_devices w /\
      ref (dev w2) = ref (dev w) /\
      usb_dev (dev w2) = usb_dev (dev w) /\
      usb_refs w2 = usb_refs w /\
      usb_handles w2 = usb_handles w /\
      heap w2 = heap w /\
      ~ In 0 (claimed w2) /\ ~ In 1 (claimed w2) /\
      dev_freed w2 = (if ref (dev w) =? 0 then true else dev_freed w).
Proof.
  intros fuel stop w w1 h _ H.
  apply uvc_open_success_world in H
    as (i & cfg & calls & Hinfo & _ & _ & _ & _ & _ & Ho & Hd & Hf & Hr & Hh
        & Hheap & _).
  exact (uvc_close_last stop w w1 h i Hinfo Ho Hd Hf Hr Hh Hheap).
Qed.

Lemma uvc_open_close_round_trip_witness :
  uvc_close false (fun w => w) 0 (world_after_open 5 uvc11_camera_world)
  = Ok (world_after_close 0 (world_after_open 5 uvc11_camera_world)) /\
  open_devices (world_after_close 0 (world_after_open 5 uvc11_camera_world)) = [] /\
  ref (dev (world_after_close 0 (world_after_open 5 uvc11_camera_world))) = 1 /\
  heap (world_after_close 0 (world_after_open 5 uvc11_camera_world)) = [].
Proof.
  destruct (uvc_open_close_round_trip 5 (fun w => w) uvc11_camera_world
              (world_after_open 5 uvc11_camera_world)
              (the_handle (handle_after_open 5 uvc11_camera_world)))
    as (w2 & Hrun & Ho & Hr & _ & _ & _ & Hheap & _).
  - vm_compute. reflexivity.
  - vm_compute. reflexivity.
  - cbn [length uvc11_camera_world fresh_world open_devices] in Hrun.
    unfold world_after_close. rewrite Hrun.
    split; [reflexivity|]. split; [exact Ho|]. split; [exact Hr | exact Hheap].
Defined.

(** The handle to close has to be in the list: a position past its end is a
    pointer to no node. *)
Example uvc_close_unknown_handle :
  uvc_close false (fun w => w) 3 (world_after_open 5 uvc11_camera_world) = Undef.
Proof. vm_compute. reflexivity. Qed.

(** ** Counting the open handles *)

Lemma num_devices_loop_length :
  forall (l : list uvc_device_handle) (count : Z),
    0 <= count ->
    count + Z.of_nat (length l) < 2 ^ 64 ->
    num_devices_loop l count = count + Z.of_nat (length l).
Proof.
  induction l as [|x l IH]; intros count H0 Hlt.
  - cbn. lia.
  - cbn [num_devices_loop length] in *.
    unfold wrap64. rewrite Z.mod_small by lia.
    rewrite IH by lia. lia.
Qed.

(** X12: counting.  As long as the list has fewer than 2^64 - 1 entries,
    [uvc_num_devices] after a successful [uvc_open] is one more than before,
    and after closing that handle again it is what it was. *)
Theorem uvc_num_devices_open_close :
  forall (fuel : nat) (uvc_stop_streaming : world -> world)
         (w w1 w2 : world) (h : uvc_device_handle),
    Z.of_nat (length (open_devices w)) + 1 < 2 ^ 64 ->
    uvc_open fuel w = Ok (UVC_SUCCESS, Some h, w1) ->
    uvc_close false uvc_stop_streaming (length (open_devices w)) w1 = Ok w2 ->
    uvc_num_devices w = Z.of_nat (length (open_devices w)) /\
    uvc_num_devices w1 = uvc_num_devices w + 1 /\
    uvc_num_devices w2 = uvc_num_devices w.
Proof.
  intros fuel stop w w1 w2 h Hlt Hopen Hclose.
  apply uvc_open_success_world in Hopen
    as (i & cfg & calls & Hinfo & _ & _ & _ & _ & _ & Ho & Hd & Hf & Hr & Hh
        & Hheap & _).
  destruct (uvc_close_last stop w w1 h i Hinfo Ho Hd Hf Hr Hh Hheap)
    as (w2' & Hrun & Ho2 & _).
  rewrite Hrun in Hclose. injection Hclose as <-.
  unfold uvc_num_devices. rewrite Ho2, Ho.
  rewrite !num_devices_loop_length by (rewrite ?length_app; cbn; lia).
  rewrite length_app. cbn. lia.
Qed.

Lemma uvc_num_devices_open_close_witness :
  uvc_num_devices uvc11_camera_world = 0 /\
  uvc_num_devices (world_after_open 5 uvc11_camera_world) = 0 + 1 /\
  uvc_num_devices (world_after_close 0 (world_after_open 5 uvc11_camera_world))
  = 0.
Proof.
  destruct (uvc_num_devices_open_close 5 (fun w => w) uvc11_camera_world
              (world_after_open 5 uvc11_camera_world)
              (world_after_close 0 (world_after_open 5 uvc11_camera_world))
              (the_handle (handle_after_open 5 uvc11_camera_world)))
    as (H0 & H1 & H2).
  - cbn. lia.
  - vm_compute. reflexivity.
  - vm_compute. reflexivity.
  - split; [exact H0|]. split; [rewrite H1, H0; reflexivity|].
    rewrite H2. exact H0.
Defined.

(** ** The errors of the first steps of the open path *)

(** X13: the first errors of [uvc_open].  With the USB handle open: if the
    info cannot be allocated the answer is NO_MEM; if the configuration
    descriptor cannot be fetched it is IO; if no interface of the
    configuration has a Video/Control altsetting 0 it is INVALID_DEVICE.  In
    each case no handle is returned and the world is rolled back. *)
Theorem uvc_open_first_errors :
  forall (fuel : nat) (w : world),
    usb_open_result (usb_dev (dev w)) = UVC_SUCCESS ->
    (calloc_info_ok (usb_dev (dev w)) = false ->
     exists w', uvc_open fuel w = Ok (UVC_ERROR_NO_MEM, None, w')
                /\ rolled_back w w') /\
    (calloc_info_ok (usb_dev (dev w)) = true ->
     usb_config0 (usb_dev (dev w)) = None ->
     exists w', uvc_open fuel w = Ok (UVC_ERROR_IO, None, w')
                /\ rolled_back w w') /\
    (forall cfg,
        calloc_info_ok (usb_dev (dev w)) = true ->
        usb_config0 (usb_dev (dev w)) = Some cfg ->
        find_control_if (interface cfg) = Ok None ->
        exists w', uvc_open fuel w = Ok (UVC_ERROR_INVALID_DEVICE, None, w')
                   /\ rolled_back w w').
Proof.
  intros fuel w Hopen.
  assert (forall e, e <> UVC_SUCCESS ->
            (forall w1, dev w1 = ref_device (dev w) ->
                        exists w2, uvc_get_device_info fuel w1 = Ok (e, None, w2)) ->
            exists w', uvc_open fuel w = Ok (e, None, w') /\ rolled_back w w')
    as Hfail.
  { intros e He Hinfo.
    destruct (uvc_open_unfold fuel w Hopen)
      as (w1 & _ & Hd & _ & _ & _ & _ & _ & Heq).
    destruct (Hinfo w1 Hd) as [w2 Hrun].
    assert (exists w', uvc_open fuel w = Ok (e, None, w')) as [w' Hw'].
    { rewrite Heq, Hrun. cbn [bind]. cbv zeta.
      rewrite (is_success_false e He). cbn [negb]. eexists. reflexivity. }
    exists w'. split; [exact Hw'|].
    exact (proj2 (uvc_open_failure_world fuel w w' e None Hopen Hw' He)). }
  split; [|split].
  - intro Hcalloc. apply Hfail; [discriminate|].
    intros w1 Hd. unfold uvc_get_device_info. rewrite Hd. cbn [ref_device usb_dev].
    rewrite Hcalloc. eexists. reflexivity.
  - intros Hcalloc Hcfg. apply Hfail; [discriminate|].
    intros w1 Hd. unfold uvc_get_device_info. rewrite Hd. cbn [ref_device usb_dev].
    rewrite Hcalloc. cbn [negb alloc set_heap dev]. rewrite Hd.
    cbn [ref_device usb_dev]. rewrite Hcfg. eexists. reflexivity.
  - intros cfg Hcalloc Hcfg Hfind. apply Hfail; [discriminate|].
    intros w1 Hd. unfold uvc_get_device_info. rewrite Hd. cbn [ref_device usb_dev].
    rewrite Hcalloc. cbn [negb alloc set_heap dev]. rewrite Hd.
    cbn [ref_device usb_dev]. rewrite Hcfg.
    unfold uvc_scan_control. cbn [config]. rewrite Hfind. cbn [bind is_success negb].
    eexists. reflexivity.
Qed.

Lemma uvc_open_first_errors_witness :
  (exists w', uvc_open 0 (fresh_world (camera_with false None))
              = Ok (UVC_ERROR_NO_MEM, None, w')
              /\ rolled_back (fresh_world (camera_with false None)) w') /\
  (exists w', uvc_open 0 (fresh_world (camera_with true None))
              = Ok (UVC_ERROR_IO, None, w')
              /\ rolled_back (fresh_world (camera_with true None)) w') /\
  (exists w', uvc_open 0
                (fresh_world (camera_with true
                                (Some (config_of [streaming_if_desc []]))))
              = Ok (UVC_ERROR_INVALID_DEVICE, None, w')
              /\ rolled_back
                   (fresh_world (camera_with true
                                   (Some (config_of [streaming_if_desc []]))))
                   w').
Proof.
  split; [|split].
  - apply (uvc_open_first_errors 0 (fresh_world (camera_with false None)));
      reflexivity.
  - apply (uvc_open_first_errors 0 (fresh_world (camera_with true None)));
      reflexivity.
  - destruct (uvc_open_first_errors 0
                (fresh_world (camera_with true
                                (Some (config_of [streaming_if_desc []]))))
                eq_refl) as (_ & _ & H).
    apply (H (config_of [streaming_if_desc []])); reflexivity.
Defined.

(** ** Single steps of the VideoControl walk *)

(** X14: blocks the walk passes over.  With at least 3 bytes left, a block
    that is not a class-specific interface descriptor (byte 1 is not 36), and
    a class-specific block that is an output terminal or a selector unit,
    leave the info as it is: the walk goes on right after the block, as far as
    its first byte says. *)
Theorem scan_control_passes_over :
  forall (fuel : nat) (info : uvc_device_info) (buf : list byte)
         (buffer : nat) (buffer_left : Z),
    3 <= buffer_left ->
    (buffer + 2 < length buf)%nat ->
    byte_at buf (buffer + 1) <> 36
    \/ byte_at buf (buffer + 2) = UVC_VC_OUTPUT_TERMINAL
    \/ byte_at buf (buffer + 2) = UVC_VC_SELECTOR_UNIT ->
    scan_control_loop (S fuel) info buf buffer buffer_left
    = scan_control_loop fuel info buf
        (buffer + Z.to_nat (byte_at buf buffer))
        (wrap64 (buffer_left - byte_at buf buffer)).
Proof.
  intros fuel info buf buffer buffer_left Hleft Hlen Hkind.
  cbn [scan_control_loop].
  replace (3 <=? buffer_left) with true by (symmetry; apply Z.leb_le; lia).
  rewrite rd_in by lia. cbn [bind]. rewrite Nat.add_0_r.
  unfold uvc_parse_vc. rewrite !rd_in by lia. cbn [bind].
  destruct (Z.eqb_spec (byte_at buf (buffer + 1)) 36) as [Hcs|Hcs];
    cbn [negb]; [|reflexivity].
  destruct Hkind as [H | [-> | ->]]; [contradiction | reflexivity | reflexivity].
Qed.

Lemma scan_control_passes_over_witness :
  scan_control_loop 2 (empty_info (config_of []))
    (bytes output_terminal_block) 0 9
  = scan_control_loop 1 (empty_info (config_of []))
      (bytes output_terminal_block) 9 0.
Proof.
  apply (scan_control_passes_over 1 (empty_info (config_of []))
           (bytes output_terminal_block) 0 9).
  - lia.
  - vm_compute. lia.
  - right. left. reflexivity.
Defined.

(** X15: a block of unknown subtype.  With at least 3 bytes left, a
    class-specific block whose subtype is none of 1 .. 6 ends the walk with
    INVALID_DEVICE, the info as it was before the block. *)
Theorem scan_control_unknown_subtype :
  forall (fuel : nat) (info : uvc_device_info) (buf : list byte)
         (buffer : nat) (buffer_left : Z),
    3 <= buffer_left ->
    (buffer + 2 < length buf)%nat ->
    byte_at buf (buffer + 1) = 36 ->
    ~ (1 <= byte_at buf (buffer + 2) <= 6) ->
    scan_control_loop (S fuel) info buf buffer buffer_left
    = Ok (UVC_ERROR_INVALID_DEVICE, info).
Proof.
  intros fuel info buf buffer buffer_left Hleft Hlen Hcs Hsub.
  cbn [scan_control_loop].
  replace (3 <=? buffer_left) with true by (symmetry; apply Z.leb_le; lia).
  rewrite rd_in by lia. cbn [bind].
  unfold uvc_parse_vc. rewrite !rd_in by lia. cbn [bind].
  rewrite Hcs. cbn [Z.eqb Pos.eqb negb].
  unfold UVC_VC_HEADER, UVC_VC_INPUT_TERMINAL, UVC_VC_OUTPUT_TERMINAL,
    UVC_VC_SELECTOR_UNIT, UVC_VC_PROCESSING_UNIT, UVC_VC_EXTENSION_UNIT.
  repeat match goal with
         | |- context [?x =? ?c] =>
             destruct (Z.eqb_spec x c); [exfalso; lia|]
         end.
  reflexivity.
Qed.

Lemma scan_control_unknown_subtype_witness :
  scan_control_loop 1 (empty_info (config_of []))
    (bytes unknown_subtype_block) 0 4
  = Ok (UVC_ERROR_INVALID_DEVICE, empty_info (config_of [])).
Proof.
  apply (scan_control_unknown_subtype 0 (empty_info (config_of []))
           (bytes unknown_subtype_block) 0 4).
  - lia.
  - vm_compute. lia.
  - reflexivity.
  - vm_compute. intros [_ H]. apply H. reflexivity.
Defined.

(** ** The VideoStreaming walk on whole blocks *)

Lemma uvc_parse_vs_returns_or_undef stream_if buf block :
  uvc_parse_vs stream_if buf block <> OutOfFuel.
Proof.
  assert (forall p i, rd buf p i <> OutOfFuel) as Hrd.
  { intros p i. unfold rd. destruct (nth_error buf (p + i)); discriminate. }
  assert (forall A B (m : outcome A) (k : A -> outcome B),
             m <> OutOfFuel -> (forall a, k a <> OutOfFuel) ->
             bind m k <> OutOfFuel) as Hbind.
  { intros A B m k Hm Hk. destruct m; cbn;
      [apply Hk | discriminate | exfalso; apply Hm; reflexivity]. }
  assert (forall p i, DW_TO_INT buf p i <> OutOfFuel) as Hdw.
  { intros p i. unfold DW_TO_INT.
    repeat (apply Hbind; [apply Hrd | intro]). discriminate. }
  assert (forall n p i, rd_bytes buf p i n <> OutOfFuel) as Hbytes.
  { induction n as [|n IH]; intros p i; cbn [rd_bytes]; [discriminate|].
    apply Hbind; [apply Hrd | intro]. apply Hbind; [apply IH | intro].
    discriminate. }
  assert (forall n p i, frame_intervals_loop buf p i n <> OutOfFuel) as Hint.
  { induction n as [|n IH]; intros p i; cbn [frame_intervals_loop];
      [discriminate|].
    apply Hbind; [apply Hdw | intro]. apply Hbind; [apply IH | intro].
    discriminate. }
  unfold uvc_parse_vs. apply Hbind; [apply Hrd | intro sub].
  destruct (sub =? UVC_VS_INPUT_HEADER).
  { unfold uvc_parse_vs_input_header.
    repeat (apply Hbind; [apply Hrd | intro]). discriminate. }
  destruct (sub =? UVC_VS_FORMAT_UNCOMPRESSED).
  { unfold uvc_parse_vs_format_uncompressed.
    repeat (apply Hbind; [first [apply Hrd | apply Hbytes] | intro]).
    discriminate. }
  destruct (sub =? UVC_VS_FRAME_UNCOMPRESSED); [|discriminate].
  unfold uvc_parse_vs_frame_uncompressed.
  destruct (is_nil (format_descs stream_if)); [discriminate|].
  apply Hbind; [|intro; discriminate].
  unfold parse_frame.
  repeat (apply Hbind; [first [apply Hrd | apply Hdw] | intro]).
  match goal with |- (if ?b then _ else _) <> _ => destruct b end.
  - repeat (apply Hbind; [apply Hdw | intro]). discriminate.
  - apply Hbind; [apply Hint | intro]. discriminate.
Qed.

Lemma visit_vs_blocks_returns_or_undef buf :
  forall blocks stream_if p,
    visit_vs_blocks stream_if buf p blocks <> OutOfFuel.
Proof.
  induction blocks as [|b rest IH]; intros stream_if p;
    cbn [visit_vs_blocks]; [discriminate|].
  pose proof (uvc_parse_vs_returns_or_undef stream_if buf p) as Hvs.
  destruct (uvc_parse_vs stream_if buf p) as [[r si]| |]; cbn [bind];
    try discriminate; [|contradiction].
  destruct (is_success r); [apply IH | discriminate].
Qed.

Lemma whole_block_first_byte pre b post :
  whole_block b ->
  byte_at (pre ++ b ++ post) (length pre) = Z.of_nat (length b).
Proof.
  intros [Hlen Hb]. unfold byte_at in *.
  rewrite app_nth2 by lia. rewrite Nat.sub_diag.
  rewrite app_nth1 by lia. exact Hb.
Qed.

Lemma scan_streaming_loop_whole_blocks buf tail :
  (length tail < 3)%nat ->
  forall blocks pre stream_if fuel,
    buf = pre ++ concat blocks ++ tail ->
    Forall whole_block blocks ->
    Z.of_nat (length (concat blocks ++ tail)) < 2 ^ 64 ->
    (length blocks <= fuel)%nat ->
    scan_streaming_loop fuel stream_if buf (length pre)
      (Z.of_nat (length (concat blocks ++ tail)))
    = visit_vs_blocks stream_if buf (length pre) blocks.
Proof.
  intros Htail.
  induction blocks as [|b rest IH]; intros pre stream_if fuel Hbuf Hwhole Hlt Hfuel.
  - cbn [concat app visit_vs_blocks]. apply scan_streaming_loop_stops. lia.
  - inversion Hwhole as [|b' rest' Hb Hrest]; subst b' rest'.
    pose proof Hb as [Hb3 _].
    cbn [concat] in Hbuf, Hlt |- *. rewrite <- app_assoc in Hbuf, Hlt |- *.
    rewrite length_app in Hlt |- *.
    destruct fuel as [|fuel]; [cbn in Hfuel; lia|].
    cbn [scan_streaming_loop visit_vs_blocks].
    replace (3 <=? Z.of_nat (length b + length (concat rest ++ tail))) with true
      by (symmetry; apply Z.leb_le; lia).
    rewrite rd_in by (rewrite Hbuf, !length_app; lia). cbn [bind].
    rewrite Nat.add_0_r.
    replace (byte_at buf (length pre)) with (Z.of_nat (length b))
      by (rewrite Hbuf; symmetry; apply whole_block_first_byte; exact Hb).
    destruct (uvc_parse_vs stream_if buf (length pre)) as [[r si]| |];
      cbn [bind]; try reflexivity.
    destruct (is_success r); [|reflexivity].
    rewrite Nat2Z.id.
    replace (wrap64 (Z.of_nat (length b + length (concat rest ++ tail))
                     - Z.of_nat (length b)))
      with (Z.of_nat (length (concat rest ++ tail)))
      by (unfold wrap64; rewrite Z.mod_small; lia).
    replace (length pre + length b)%nat with (length (pre ++ b))
      by (rewrite length_app; reflexivity).
    apply IH; try assumption; try lia.
    + rewrite Hbuf, <- app_assoc. reflexivity.
    + cbn in Hfuel. lia.
Qed.

(** X16: the VideoStreaming walk on whole blocks.  On a blob made of whole
    blocks (each at least 3 bytes long and starting with its own length)
    followed by fewer than 3 bytes, the walk of [uvc_scan_streaming] hands
    the blocks to [uvc_parse_vs] one after the other, each at the offset where
    it starts, up to the first one that is not parsed with success, and stops
    after the last; it needs no more iterations than there are blocks, so it
    does not loop for ever. *)
Theorem scan_streaming_visits_whole_blocks :
  forall (blocks : list (list byte)) (tail : list byte)
         (stream_if : uvc_streaming_interface) (fuel : nat),
    Forall whole_block blocks ->
    (length tail < 3)%nat ->
    Z.of_nat (length (concat blocks ++ tail)) < 2 ^ 64 ->
    (length blocks <= fuel)%nat ->
    scan_streaming_loop fuel stream_if (concat blocks ++ tail) 0
      (Z.of_nat (length (concat blocks ++ tail)))
    = visit_vs_blocks stream_if (concat blocks ++ tail) 0 blocks
    /\ scan_streaming_loop fuel stream_if (concat blocks ++ tail) 0
         (Z.of_nat (length (concat blocks ++ tail))) <> OutOfFuel.
Proof.
  intros blocks tail stream_if fuel Hwhole Htail Hlt Hfuel.
  assert (scan_streaming_loop fuel stream_if (concat blocks ++ tail) 0
            (Z.of_nat (length (concat blocks ++ tail)))
          = visit_vs_blocks stream_if (concat blocks ++ tail) 0 blocks) as Heq.
  { apply (scan_streaming_loop_whole_blocks (concat blocks ++ tail) tail Htail
             blocks [] stream_if fuel); try assumption. reflexivity. }
  split; [exact Heq|]. rewrite Heq. apply visit_vs_blocks_returns_or_undef.
Qed.

Lemma scan_streaming_visits_whole_blocks_witness :
  scan_streaming_loop 2 calloc_stream_if
    (concat [bytes vs_input_header_block; bytes vs_unknown_block] ++ []) 0 18
  = Ok (UVC_SUCCESS,
        {| si_bInterfaceNumber := 0; si_bEndpointAddress := 0x81;
           si_bTerminalLink := 2; format_descs := [] |}).
Proof.
  destruct (scan_streaming_visits_whole_blocks
              [bytes vs_input_header_block; bytes vs_unknown_block] []
              calloc_stream_if 2) as [Heq _].
  - repeat constructor.
  - cbn. lia.
  - vm_compute. reflexivity.
  - cbn. lia.
  - change 18 with (Z.of_nat (length
      (concat [bytes vs_input_header_block; bytes vs_unknown_block] ++ []))).
    rewrite Heq. reflexivity.
Defined.

(** ** The VideoControl walk on whole blocks *)

Lemma bind_returns_or_undef {A B : Type} (m : outcome A) (k : A -> outcome B) :
  m <> OutOfFuel -> (forall a, k a <> OutOfFuel) -> bind m k <> OutOfFuel.
Proof.
  intros Hm Hk. destruct m; cbn;
    [apply Hk | discriminate | exfalso; apply Hm; reflexivity].
Qed.

Lemma rd_returns_or_undef buf p i : rd buf p i <> OutOfFuel.
Proof. unfold rd. destruct (nth_error buf (p + i)); discriminate. Qed.

Lemma SW_TO_SHORT_returns_or_undef buf p i : SW_TO_SHORT buf p i <> OutOfFuel.
Proof.
  unfold SW_TO_SHORT.
  repeat (apply bind_returns_or_undef; [apply rd_returns_or_undef | intro]).
  discriminate.
Qed.

Lemma rd_bytes_returns_or_undef buf :
  forall n p i, rd_bytes buf p i n <> OutOfFuel.
Proof.
  induction n as [|n IH]; intros p i; cbn [rd_bytes]; [discriminate|].
  apply bind_returns_or_undef; [apply rd_returns_or_undef | intro].
  apply bind_returns_or_undef; [apply IH | intro]. discriminate.
Qed.

Lemma bmControls_loop_returns_or_undef buf block base :
  forall n bm, bmControls_loop buf block base n bm <> OutOfFuel.
Proof.
  induction n as [|n IH]; intro bm; cbn [bmControls_loop]; [discriminate|].
  apply bind_returns_or_undef; [apply rd_returns_or_undef | intro]. apply IH.
Qed.

Lemma parse_entity_returns_or_undef k info buf block :
  parse_entity k info buf block <> OutOfFuel.
Proof.
  destruct k; cbn [parse_entity];
    unfold uvc_parse_vc_input_terminal, uvc_parse_vc_processing_unit,
      uvc_parse_vc_extension_unit.
  - apply bind_returns_or_undef; [apply SW_TO_SHORT_returns_or_undef | intro ty].
    destruct (negb (ty =? UVC_ITT_CAMERA)); [discriminate|].
    repeat (apply bind_returns_or_undef;
            [first [apply rd_returns_or_undef
                   | apply SW_TO_SHORT_returns_or_undef
                   | apply bmControls_loop_returns_or_undef] | intro]).
    discriminate.
  - repeat (apply bind_returns_or_undef;
            [first [apply rd_returns_or_undef
                   | apply bmControls_loop_returns_or_undef] | intro]).
    discriminate.
  - repeat (apply bind_returns_or_undef;
            [first [apply rd_returns_or_undef
                   | apply rd_bytes_returns_or_undef
                   | apply bmControls_loop_returns_or_undef] | intro]).
    discriminate.
Qed.

(** The parsers never replace the configuration descriptor of the info. *)
Lemma uvc_scan_streaming_config fuel info idx e info' :
  uvc_scan_streaming fuel info idx = Ok (e, info') -> config info' = config info.
Proof.
  unfold uvc_scan_streaming. intro H.
  destruct (nth_error (interface (config info)) (Z.to_nat idx)) as [itf|];
    try discriminate.
  destruct (altsetting itf) as [|if_desc rest]; try discriminate.
  destruct (scan_streaming_loop fuel _ (extra if_desc) 0 (extra_length if_desc))
    as [[r si]| |]; cbn [bind] in H; try discriminate.
  injection H as _ <-. reflexivity.
Qed.

Lemma vc_header_loop_config fuel buf block :
  forall n i info e info',
    vc_header_loop fuel n i info buf block = Ok (e, info') ->
    config info' = config info.
Proof.
  induction n as [|n IH]; intros i info e info' H; cbn [vc_header_loop] in H.
  - injection H as _ <-. reflexivity.
  - destruct (rd buf block i) as [idx| |]; cbn [bind] in H; try discriminate.
    destruct (uvc_scan_streaming fuel info idx) as [[r info1]| |] eqn:Escan;
      cbn [bind] in H; try discriminate.
    apply uvc_scan_streaming_config in Escan.
    destruct (is_success r).
    + rewrite (IH _ _ _ _ H). exact Escan.
    + injection H as _ <-. exact Escan.
Qed.

Lemma uvc_parse_vc_config fuel info buf block block_size r info' :
  uvc_parse_vc fuel info buf block block_size = Ok (r, info') ->
  config info' = config info.
Proof.
  unfold uvc_parse_vc. intro H.
  destruct (rd buf block 1) as [b1| |]; cbn [bind] in H; try discriminate.
  destruct (negb (b1 =? 36)); [injection H as _ <-; reflexivity|].
  destruct (rd buf block 2) as [sub| |]; cbn [bind] in H; try discriminate.
  destruct (sub =? UVC_VC_HEADER).
  { unfold lift_ret, uvc_parse_vc_header in H.
    destruct (SW_TO_SHORT buf block 3) as [v| |]; cbn [bind] in H;
      try discriminate.
    destruct (supported_bcdUVC v).
    - destruct (vc_header_loop fuel _ 12 (set_bcdUVC info v) buf block)
        as [[e i]| |] eqn:El; cbn [bind] in H; try discriminate.
      injection H as _ <-. rewrite (vc_header_loop_config _ _ _ _ _ _ _ _ El).
      reflexivity.
    - cbn [bind] in H. injection H as _ <-. reflexivity. }
  assert (forall k, parse_entity k info buf block = Ok (r, info') ->
                    config info' = config info) as Hent.
  { intros k Hk. destruct k; cbn [parse_entity] in Hk;
      unfold uvc_parse_vc_input_terminal, uvc_parse_vc_processing_unit,
        uvc_parse_vc_extension_unit in Hk;
      run_binds Hk; injection Hk as _ <-; reflexivity. }
  destruct (sub =? UVC_VC_INPUT_TERMINAL); [exact (Hent input_terminal H)|].
  destruct (sub =? UVC_VC_OUTPUT_TERMINAL); [injection H as _ <-; reflexivity|].
  destruct (sub =? UVC_VC_SELECTOR_UNIT); [injection H as _ <-; reflexivity|].
  destruct (sub =? UVC_VC_PROCESSING_UNIT); [exact (Hent processing_unit H)|].
  destruct (sub =? UVC_VC_EXTENSION_UNIT); [exact (Hent extension_unit H)|].
  injection H as _ <-. reflexivity.
Qed.

Lemma whole_blocks_count (blocks : list (list byte)) :
  Forall whole_block blocks -> (length blocks <= length (concat blocks))%nat.
Proof.
  induction 1 as [|b rest [Hb _] _ IH]; [cbn; lia|].
  cbn [concat length]. rewrite length_app. lia.
Qed.

Section WholeConfig.

Variable cfg : libusb_config_descriptor.
Variable M : nat.
Hypothesis cfg_whole : whole_config cfg M.
Hypothesis M_small : Z.of_nat M < 2 ^ 64.

Lemma uvc_scan_streaming_ends fuel info idx :
  config info = cfg -> (M <= fuel)%nat ->
  uvc_scan_streaming fuel info idx <> OutOfFuel.
Proof.
  intros Hcfg Hfuel. unfold uvc_scan_streaming. rewrite Hcfg.
  destruct (nth_error (interface cfg) (Z.to_nat idx)) as [itf|] eqn:Enth;
    [|discriminate].
  destruct (altsetting itf) as [|if_desc rest] eqn:Ealt; [discriminate|].
  destruct (cfg_whole itf if_desc rest (nth_error_In _ _ Enth) Ealt)
    as [(blocks & tail & Hblob & Hwhole & Htail) Hlen].
  apply bind_returns_or_undef; [|intros [r si]; discriminate].
  unfold extra_length. rewrite Hblob in *.
  pose proof (whole_blocks_count blocks Hwhole) as Hcount.
  rewrite length_app in Hlen.
  rewrite (scan_streaming_loop_whole_blocks (concat blocks ++ tail) tail Htail
             blocks [] _ fuel eq_refl Hwhole)
    by (rewrite ?length_app; lia).
  apply visit_vs_blocks_returns_or_undef.
Qed.

Lemma vc_header_loop_ends fuel buf block :
  (M <= fuel)%nat ->
  forall n i info,
    config info = cfg -> vc_header_loop fuel n i info buf block <> OutOfFuel.
Proof.
  intro Hfuel. induction n as [|n IH]; intros i info Hcfg;
    cbn [vc_header_loop]; [discriminate|].
  apply bind_returns_or_undef; [apply rd_returns_or_undef | intro idx].
  pose proof (uvc_scan_streaming_ends fuel info idx Hcfg Hfuel) as Hs.
  destruct (uvc_scan_streaming fuel info idx) as [[r info1]| |] eqn:Escan;
    cbn [bind]; try discriminate; [|contradiction].
  destruct (is_success r); [|discriminate].
  apply IH. rewrite (uvc_scan_streaming_config _ _ _ _ _ Escan). exact Hcfg.
Qed.

Lemma uvc_parse_vc_ends fuel info buf block block_size :
  config info = cfg -> (M <= fuel)%nat ->
  uvc_parse_vc fuel info buf block block_size <> OutOfFuel.
Proof.
  intros Hcfg Hfuel. unfold uvc_parse_vc.
  apply bind_returns_or_undef; [apply rd_returns_or_undef | intro b1].
  destruct (negb (b1 =? 36)); [discriminate|].
  apply bind_returns_or_undef; [apply rd_returns_or_undef | intro sub].
  destruct (sub =? UVC_VC_HEADER).
  { unfold lift_ret. apply bind_returns_or_undef; [|intros [e i]; discriminate].
    unfold uvc_parse_vc_header.
    apply bind_returns_or_undef; [apply SW_TO_SHORT_returns_or_undef | intro v].
    destruct (supported_bcdUVC v); [|discriminate].
    apply vc_header_loop_ends; [exact Hfuel | exact Hcfg]. }
  destruct (sub =? UVC_VC_INPUT_TERMINAL);
    [apply (parse_entity_returns_or_undef input_terminal)|].
  destruct (sub =? UVC_VC_OUTPUT_TERMINAL); [discriminate|].
  destruct (sub =? UVC_VC_SELECTOR_UNIT); [discriminate|].
  destruct (sub =? UVC_VC_PROCESSING_UNIT);
    [apply (parse_entity_returns_or_undef processing_unit)|].
  destruct (sub =? UVC_VC_EXTENSION_UNIT);
    [apply (parse_entity_returns_or_undef extension_unit)|].
  discriminate.
Qed.

Lemma scan_control_loop_ends buf tail :
  (length tail < 3)%nat ->
  forall blocks pre info fuel,
    buf = pre ++ concat blocks ++ tail ->
    Forall whole_block blocks ->
    Z.of_nat (length (concat blocks ++ tail)) < 2 ^ 64 ->
    config info = cfg ->
    (length blocks + M <= fuel)%nat ->
    scan_control_loop fuel info buf (length pre)
      (Z.of_nat (length (concat blocks ++ tail))) <> OutOfFuel.
Proof.
  intros Htail.
  induction blocks as [|b rest IH]; intros pre info fuel Hbuf Hwhole Hlt Hcfg Hfuel.
  - cbn [concat app]. rewrite scan_control_loop_stops by lia. discriminate.
  - inversion Hwhole as [|b' rest' Hb Hrest]; subst b' rest'.
    pose proof Hb as [Hb3 _].
    cbn [concat] in Hbuf, Hlt |- *. rewrite <- app_assoc in Hbuf, Hlt |- *.
    rewrite length_app in Hlt |- *.
    destruct fuel as [|fuel]; [cbn in Hfuel; lia|].
    cbn [scan_control_loop].
    replace (3 <=? Z.of_nat (length b + length (concat rest ++ tail))) with true
      by (symmetry; apply Z.leb_le; lia).
    rewrite rd_in by (rewrite Hbuf, !length_app; lia). cbn [bind].
    rewrite Nat.add_0_r.
    replace (byte_at buf (length pre)) with (Z.of_nat (length b))
      by (rewrite Hbuf; symmetry; apply whole_block_first_byte; exact Hb).
    pose proof (uvc_parse_vc_ends (S fuel) info buf (length pre)
                  (Z.of_nat (length b)) Hcfg ltac:(cbn in Hfuel; lia)) as Hvc.
    destruct (uvc_parse_vc (S fuel) info buf (length pre) (Z.of_nat (length b)))
      as [[[e|] info1]| |] eqn:Evc; cbn [bind]; try discriminate;
      [|contradiction].
    destruct (is_success e); [|discriminate].
    rewrite Nat2Z.id.
    replace (wrap64 (Z.of_nat (length b + length (concat rest ++ tail))
                     - Z.of_nat (length b)))
      with (Z.of_nat (length (concat rest ++ tail)))
      by (unfold wrap64; rewrite Z.mod_small; lia).
    replace (length pre + length b)%nat with (length (pre ++ b))
      by (rewrite length_app; reflexivity).
    apply IH; try assumption; try lia.
    + rewrite Hbuf, <- app_assoc. reflexivity.
    + rewrite (uvc_parse_vc_config _ _ _ _ _ _ _ Evc). exact Hcfg.
    + cbn in Hfuel. lia.
Qed.

End WholeConfig.

Lemma find_control_if_In :
  forall l if_desc,
    find_control_if l = Ok (Some if_desc) ->
    exists itf rest, In itf l /\ altsetting itf = if_desc :: rest.
Proof.
  induction l as [|itf l IH]; intros d H; cbn [find_control_if] in H;
    [discriminate|].
  destruct (altsetting itf) as [|d0 rest] eqn:Ealt; [discriminate|].
  destruct ((bInterfaceClass d0 =? 14) && (bInterfaceSubClass d0 =? 1)).
  - injection H as <-. exists itf, rest. split; [left; reflexivity | exact Ealt].
  - destruct (IH d H) as (itf' & rest' & Hin & Halt).
    exists itf', rest'. split; [right; exact Hin | exact Halt].
Qed.

Lemma find_control_if_returns_or_undef :
  forall l, find_control_if l <> OutOfFuel.
Proof.
  induction l as [|itf l IH]; cbn [find_control_if]; [discriminate|].
  destruct (altsetting itf) as [|d0 rest]; [discriminate|].
  destruct ((bInterfaceClass d0 =? 14) && (bInterfaceSubClass d0 =? 1));
    [discriminate | exact IH].
Qed.

(** X17: the descriptor walk ends on whole blobs.  If in the configuration of
    the info altsetting 0 of every interface carries only whole blocks (each at
    least 3 bytes long and starting with its own length, fewer than 3 bytes
    after the last) and at most [M] bytes, then [uvc_scan_control] does not
    loop for ever: with a bound of [2 * M] iterations or more it does not run
    out of iterations, in the VideoControl walk or in any VideoStreaming walk
    started from a header block; it returns, or stops at a step that has no
    defined behaviour. *)
Theorem scan_control_ends_on_whole_blobs :
  forall (M : nat) (fuel : nat) (info : uvc_device_info),
    whole_config (config info) M ->
    Z.of_nat M < 2 ^ 64 ->
    (2 * M <= fuel)%nat ->
    uvc_scan_control fuel info <> OutOfFuel.
Proof.
  intros M fuel info Hwhole HM Hfuel. unfold uvc_scan_control.
  pose proof (find_control_if_returns_or_undef (interface (config info)))
    as Hends.
  destruct (find_control_if (interface (config info))) as [[d|]| |] eqn:Hfind;
    cbn [bind]; try discriminate; [|contradiction].
  destruct (find_control_if_In _ _ Hfind) as (itf & rest & Hin & Halt).
  destruct (Hwhole itf d rest Hin Halt)
    as [(blocks & tail & Hblob & Hblocks & Htail) Hlen].
  pose proof (whole_blocks_count blocks Hblocks) as Hcount.
  unfold extra_length. rewrite Hblob in Hlen |- *.
  rewrite length_app in Hlen.
  apply (scan_control_loop_ends (config info) M Hwhole HM
           (concat blocks ++ tail) tail Htail blocks []);
    try assumption; try reflexivity.
  - rewrite length_app. lia.
  - destruct (endpoint d); reflexivity.
  - lia.
Qed.

Lemma scan_control_ends_on_whole_blobs_witness :
  uvc_scan_control 82 (empty_info whole_camera_config) <> OutOfFuel.
Proof.
  apply (scan_control_ends_on_whole_blobs 41 82 (empty_info whole_camera_config)).
  - intros itf if_desc rest [<- | [<- | []]] Halt; cbn in Halt;
      injection Halt as <- _; (split; [|vm_compute; lia]).
    + exists [bytes header_with_stream_block; bytes camera_terminal_block;
              bytes processing_unit_block], [].
      split; [reflexivity|]. split; [|cbn; lia].
      repeat constructor; vm_compute; lia.
    + exists [bytes vs_input_header_block; bytes vs_unknown_block], [].
      split; [reflexivity|]. split; [|cbn; lia].
      repeat constructor; vm_compute; lia.
  - vm_compute. reflexivity.
  - lia.
Defined.
